(** * Live-telemetry reconciliation engine of the Pakistan Railway web client

    A shallow embedding of the delta normalizer, the entity resolver, the
    run merger, the staleness sweeper, the cold-start reconciler and the
    batch-application step of the store
    (src/services/liveData.ts, src/services/dataLoader.ts, src/main.tsx,
    src/lib/train/index.ts), followed by the properties established about
    them.

    Conventions of the embedding:
    - a JavaScript [number] that comes off the wire or out of arithmetic is a
      [JS.num]: NaN, the two infinities, or a finite value kept as an exact
      rational.  Magnitudes beyond the binary64 range become infinities;
      rounding of the mantissa is not modelled (millisecond timestamps and
      the resolver's weights are exactly representable);
    - identifiers of the static schedule records (TrainId, TrainNumber,
      StationId, ...) are integers of the dataset and are kept in [Z];
    - [undefined] and [null] are both [None];
    - a JavaScript string is a [string]; case mapping and the white space
      trimmed by [Number] are the ASCII ones;
    - a [Map] keyed by strings or integers is a [gmap];
    - [Array.prototype.sort] is the stable straight insertion sort, which
      is what the language prescribes for a consistent comparator; for a
      comparator that answers NaN the language leaves the order to the
      engine, and [V8.sort] follows the V8 engine there;
    - readings of [Date.now()] and the host's conversions of dates and
      numbers to text are parameters;
    - [console.warn] diagnostics are left out. *)

From Stdlib Require Import ZArith QArith Qabs Lqa Bool List Ascii String Lia.
From Stdlib Require Import Sorting.Permutation Sorting.Sorted.
From stdpp Require Import base option list sorting strings gmap pretty.

Import ListNotations.

(** ** The JavaScript runtime pieces the engine relies on *)

Module JS.

(** *** Numbers *)

Inductive num : Type :=
  | NaN
  | PosInf
  | NegInf
  | Fin (q : Q).

(** First magnitude that binary64 rounds to an infinity. *)
Definition overflow_bound : Q := inject_Z (2 ^ 1024 - 2 ^ 970).

Definition round (q : Q) : num :=
  if Qle_bool overflow_bound (Qabs q)
  then (if Qle_bool 0 q then PosInf else NegInf)
  else Fin q.

Definition ofZ (z : Z) : num := Fin (inject_Z z).

(** [Number.isFinite(x)] for a number. *)
Definition isFinite (x : num) : bool :=
  match x with Fin _ => true | _ => false end.

(** [Number.isFinite(x)] where [x] may be [null]. *)
Definition isFiniteOpt (x : option num) : bool :=
  match x with Some n => isFinite n | None => false end.

(** Truthiness of a number: everything but NaN and zero. *)
Definition truthy (x : num) : bool :=
  match x with
  | NaN => false
  | Fin q => negb (Qeq_bool q 0)
  | _ => true
  end.

(** Truthiness of a string: everything but the empty string. *)
Definition nonEmpty (s : string) : bool :=
  match s with EmptyString => false | String _ _ => true end.

(** [x === y] on numbers. *)
Definition strictEq (x y : num) : bool :=
  match x, y with
  | Fin p, Fin q => Qeq_bool p q
  | PosInf, PosInf => true
  | NegInf, NegInf => true
  | _, _ => false
  end.

Definition neg (x : num) : num :=
  match x with
  | NaN => NaN
  | PosInf => NegInf
  | NegInf => PosInf
  | Fin q => Fin (- q)
  end.

(** [x - y]. *)
Definition sub (x y : num) : num :=
  match x, y with
  | NaN, _ | _, NaN => NaN
  | PosInf, PosInf | NegInf, NegInf => NaN
  | PosInf, _ | _, NegInf => PosInf
  | NegInf, _ | _, PosInf => NegInf
  | Fin p, Fin q => round (p - q)
  end.

(** [x * y]. *)
Definition mul (x y : num) : num :=
  match x, y with
  | NaN, _ | _, NaN => NaN
  | Fin p, Fin q => round (p * q)
  | Fin p, inf | inf, Fin p =>
      if Qeq_bool p 0 then NaN
      else if Qle_bool 0 p then inf else neg inf
  | PosInf, PosInf | NegInf, NegInf => PosInf
  | PosInf, NegInf | NegInf, PosInf => NegInf
  end.

(** [x <= y]. *)
Definition le (x y : num) : bool :=
  match x, y with
  | NaN, _ | _, NaN => false
  | NegInf, _ | _, PosInf => true
  | PosInf, _ | _, NegInf => false
  | Fin p, Fin q => Qle_bool p q
  end.

(** [x > 0]. *)
Definition gt0 (x : num) : bool :=
  match x with
  | PosInf => true
  | Fin q => negb (Qle_bool q 0)
  | _ => false
  end.

(** *** Strings *)

Definition lowerChar (c : ascii) : ascii :=
  let n := nat_of_ascii c in
  if ((65 <=? n) && (n <=? 90))%nat then ascii_of_nat (n + 32) else c.

Fixpoint toLowerCase (s : string) : string :=
  match s with
  | EmptyString => EmptyString
  | String c s' => String (lowerChar c) (toLowerCase s')
  end.

(** [s.includes(sub)]. *)
Fixpoint includes (s sub : string) : bool :=
  String.prefix sub s ||
  match s with
  | EmptyString => false
  | String _ s' => includes s' sub
  end.

(** [s.endsWith(suffix)]. *)
Definition endsWith (s suffix : string) : bool :=
  let n := String.length s in
  let k := String.length suffix in
  (k <=? n)%nat && String.eqb (String.substring (n - k) k s) suffix.

(** [s.slice(0, -k)] for a positive [k]. *)
Definition dropLast (k : nat) (s : string) : string :=
  String.substring 0 (String.length s - k) s.

(** *** String to number: [Number(s)] *)

Definition isWhite (c : ascii) : bool :=
  let n := nat_of_ascii c in
  (n =? 32)%nat || ((9 <=? n) && (n <=? 13))%nat.

Fixpoint trimStart (l : list ascii) : list ascii :=
  match l with
  | c :: l' => if isWhite c then trimStart l' else l
  | [] => []
  end.

Definition trim (l : list ascii) : list ascii :=
  List.rev (trimStart (List.rev (trimStart l))).

(** Value of a digit in the given radix (letters in either case). *)
Definition digitValue (radix : Z) (c : ascii) : option Z :=
  let n := Z.of_nat (nat_of_ascii c) in
  let v :=
    if ((48 <=? n) && (n <=? 57))%Z then Some (n - 48)%Z
    else if ((97 <=? n) && (n <=? 122))%Z then Some (n - 87)%Z
    else if ((65 <=? n) && (n <=? 90))%Z then Some (n - 55)%Z
    else None in
  match v with
  | Some d => if (d <? radix)%Z then Some d else None
  | None => None
  end.

(** Reads the longest run of digits: the accumulated value, how many
    digits were read, and what follows them. *)
Fixpoint readDigits (radix : Z) (l : list ascii) (acc : Z) (count : nat)
  : Z * nat * list ascii :=
  match l with
  | c :: l' =>
      match digitValue radix c with
      | Some d => readDigits radix l' (acc * radix + d)%Z (S count)
      | None => (acc, count, l)
      end
  | [] => (acc, count, [])
  end.

Definition isChar (c : ascii) (lower upper : string) : bool :=
  String.eqb (String c EmptyString) lower || String.eqb (String c EmptyString) upper.

(** [0x..], [0o..] and [0b..] literals. *)
Definition parseNonDecimal (l : list ascii) : option Z :=
  match l with
  | z :: p :: body =>
      if isChar z "0" "0" then
        let radix :=
          if isChar p "x" "X" then Some 16%Z
          else if isChar p "o" "O" then Some 8%Z
          else if isChar p "b" "B" then Some 2%Z
          else None in
        match radix with
        | Some r =>
            match readDigits r body 0 0 with
            | (v, S _, []) => Some v
            | _ => None
            end
        | None => None
        end
      else None
  | _ => None
  end.

Definition splitSign (l : list ascii) : bool * list ascii :=
  match l with
  | c :: l' =>
      if isChar c "-" "-" then (true, l')
      else if isChar c "+" "+" then (false, l')
      else (false, l)
  | [] => (false, [])
  end.

(** Digits, an optional fraction and an optional exponent. *)
Definition parseUnsignedDecimal (l : list ascii) : option Q :=
  let '(ip, ni, r1) := readDigits 10 l 0 0 in
  let '(m, nf, r2) :=
    match r1 with
    | c :: r => if isChar c "." "." then readDigits 10 r ip 0 else (ip, O, r1)
    | [] => (ip, O, r1)
    end in
  if (ni + nf =? 0)%nat then None
  else
    match r2 with
    | [] => Some (inject_Z m * Qpower 10 (- Z.of_nat nf))%Q
    | e :: r3 =>
        if isChar e "e" "E" then
          let '(negative, r4) := splitSign r3 in
          match readDigits 10 r4 0 0 with
          | (ev, S _, []) =>
              let ex := if negative then (- ev)%Z else ev in
              Some (inject_Z m * Qpower 10 (ex - Z.of_nat nf))%Q
          | _ => None
          end
        else None
    end.

(** [Number(s)] for a string [s]. *)
Definition Number (s : string) : num :=
  match trim (list_ascii_of_string s) with
  | [] => Fin 0
  | l =>
      match parseNonDecimal l with
      | Some z => round (inject_Z z)
      | None =>
          let '(negative, body) := splitSign l in
          if String.eqb (string_of_list_ascii body) "Infinity"
          then (if negative then NegInf else PosInf)
          else
            match parseUnsignedDecimal body with
            | Some q => round (if negative then (- q)%Q else q)
            | None => NaN
            end
      end
  end.

(** [Number(x)] where [x] may be [undefined]. *)
Definition NumberOpt (x : option string) : num :=
  match x with Some s => Number s | None => NaN end.

(** *** Sorting *)

Section Sort.
Context {A : Type}.
Variable cmp : A -> A -> num.

(** [acc] is the part already in order, last element first; [x] moves
    left past every element the comparator places after it. *)
Fixpoint insertSorted (x : A) (acc : list A) : list A :=
  match acc with
  | [] => [x]
  | y :: acc' =>
      if gt0 (cmp y x) then y :: insertSorted x acc' else x :: acc
  end.

Definition sortedPrefix (l : list A) : list A :=
  fold_left (fun acc x => insertSorted x acc) l [].

(** [l.sort(cmp)], for a comparator that is consistent on [l]. *)
Definition sort (l : list A) : list A := List.rev (sortedPrefix l).
End Sort.

End JS.

(** ** The sort of the V8 engine *)

(** Where the comparator is not consistent (the comparator of the run
    merger answers NaN for a NaN time stamp) the order is the engine's
    own.  V8 sorts an array of fewer than 64 elements as a single run: it
    takes the longest run at the start of the array that is ascending or
    strictly descending, reverses it if it is descending, and places the
    remaining elements one by one by binary insertion (CountAndMakeRun and
    BinaryInsertionSort of third_party/v8/builtins/array-sort.tq).  Longer
    arrays are cut into runs of that kind which are then merged; the
    merging is not modelled. *)
Module V8.
Section Sort.
Context {A : Type}.
Variable cmp : A -> A -> JS.num.

(** [order < 0] for what the comparator answers, NaN counting as +0. *)
Definition negative (order : JS.num) : bool :=
  match order with
  | JS.NegInf => true
  | JS.Fin q => negb (Qle_bool 0 q)
  | _ => false
  end.

(** The loop of [CountAndMakeRun]: how many further elements belong to the
    run that ends in [previous]. *)
Fixpoint runTail (isDescending : bool) (previous : A) (rest : list A) : nat :=
  match rest with
  | [] => O
  | current :: rest' =>
      let order := cmp current previous in
      if (if isDescending then negb (negative order) else negative order)
      then O
      else S (runTail isDescending current rest')
  end.

(** [CountAndMakeRun(0, length)]: the length of the run and the array
    with the run put in ascending order. *)
Definition countAndMakeRun (workArray : list A) : nat * list A :=
  match workArray with
  | elementHigh :: elementLow :: rest =>
      let isDescending := negative (cmp elementLow elementHigh) in
      let runLength := (2 + runTail isDescending elementLow rest)%nat in
      (runLength,
       if isDescending
       then List.rev (take runLength workArray) ++ drop runLength workArray
       else workArray)
  | _ => (length workArray, workArray)
  end.

(** The binary search of [BinaryInsertionSort] for the place of [pivot]
    among the elements [left .. right) of [workArray].  The interval
    shrinks at every turn, so [right - left] turns are enough. *)
Fixpoint insertionPoint (turns left right : nat) (pivot : A)
    (workArray : list A) : nat :=
  match turns with
  | O => left
  | S turns' =>
      if (left <? right)%nat
      then
        let mid := (left + Nat.div2 (right - left))%nat in
        match workArray !! mid with
        | Some element =>
            if negative (cmp pivot element)
            then insertionPoint turns' left mid pivot workArray
            else insertionPoint turns' (S mid) right pivot workArray
        | None => left
        end
      else left
  end.

(** One turn of the outer loop of [BinaryInsertionSort]: [pivot], the
    element after the part in order, is moved to its place in it. *)
Definition place (inOrder : list A) (pivot : A) : list A :=
  let left :=
    insertionPoint (length inOrder) 0 (length inOrder) pivot inOrder in
  take left inOrder ++ pivot :: drop left inOrder.

(** [l.sort(cmp)] for an array of fewer than 64 elements. *)
Definition sort (l : list A) : list A :=
  let '(runLength, workArray) := countAndMakeRun l in
  fold_left place (drop runLength workArray) (take runLength workArray).
End Sort.
End V8.

(** ** The data model (types of the client) *)

Module TrainStop.
Record t : Type := mk {
  TrainNumber : Z;
  TrainName : string;
  StationId : Z;
  ArrivalTime : option string;
  IsDayChanged : option Z;
  DayCount : option Z;
  DepartureTime : option string;
  IsUp : Z;
  OrderNumber : Z;
  StationName : string;
  Latitude : JS.num;
  Longitude : JS.num
}.
End TrainStop.

Inductive Direction : Type := up | down | unknown.

Definition Direction_eqb (a b : Direction) : bool :=
  match a, b with
  | up, up | down, down | unknown, unknown => true
  | _, _ => false
  end.

Module LiveTrainDelta.
Record t : Type := mk {
  id : string;
  trainKey : string;
  variantKey : string;
  locomitiveNo : option string;
  lat : JS.num;
  lon : JS.num;
  lastUpdated : JS.num;
  lateBy : option JS.num;
  nextStationId : option JS.num;
  nextStopName : option string;
  prevStationId : option JS.num;
  speed : option JS.num;
  trainNumber : option JS.num;
  dayNumber : option JS.num;
  isTrainStation : bool;
  isTrainStop : bool;
  isFlagged : bool;
  iconUrl : option string;
  statusCode : option string;
  direction : Direction
}.

(** [{ ...delta, dayNumber }]. *)
Definition withDayNumber (delta : t) (day : option JS.num) : t :=
  mk (id delta) (trainKey delta) (variantKey delta) (locomitiveNo delta)
     (lat delta) (lon delta) (lastUpdated delta) (lateBy delta)
     (nextStationId delta) (nextStopName delta) (prevStationId delta)
     (speed delta) (trainNumber delta) day
     (isTrainStation delta) (isTrainStop delta) (isFlagged delta)
     (iconUrl delta) (statusCode delta) (direction delta).
End LiveTrainDelta.

Module TrainWithRoute.
Record t : Type := mk {
  TrainId : Z;
  TrainNumber : Z;
  TrainName : string;
  TrainNameUR : string;
  TrainNameWithNumber : string;
  TrainDescription : option string;
  IsActive : option bool;
  Imei : option string;
  IsLive : bool;
  IsUp : bool;
  LocomotiveNumber : option string;
  TrainRideId : Z;
  AllocatedDate : option string;
  route : list TrainStop.t;
  upcomingStop : option TrainStop.t;
  previousStop : option TrainStop.t;
  livePosition : option LiveTrainDelta.t;
  liveRuns : option (list LiveTrainDelta.t);
  selectedRunId : option string
}.

(** [{ ...train, IsLive, liveRuns, selectedRunId, livePosition,
      upcomingStop, previousStop }]: the live part replaced, the
    schedule part kept. *)
Definition withLiveState (train : t) (isLive : bool)
    (runs : option (list LiveTrainDelta.t)) (selected : option string)
    (position : option LiveTrainDelta.t)
    (upcoming previous : option TrainStop.t) : t :=
  mk (TrainId train) (TrainNumber train) (TrainName train)
     (TrainNameUR train) (TrainNameWithNumber train)
     (TrainDescription train) (IsActive train) (Imei train)
     isLive (IsUp train) (LocomotiveNumber train) (TrainRideId train)
     (AllocatedDate train) (route train)
     upcoming previous position runs selected.
End TrainWithRoute.

Module SocketTrainPayload.
Record t : Type := mk {
  locomitiveNo : option string;
  lat : option string;
  lon : option string;
  last_updated : option string;
  late_by : option string;
  next_station : option string;
  next_stop : option string;
  prev_station : option string;
  sp : option string;
  isTrainStation : option string;
  isTrainStop : option string;
  isFlagged : option string;
  icon : option string;
  st : option string;
  __last_updated : option JS.num
}.
End SocketTrainPayload.

(** [Object.entries] of a message envelope: outer key, then inner key. *)
Definition SocketMessageEnvelope : Type :=
  list (string * list (string * SocketTrainPayload.t)).

(** Truthiness of optional values. *)
Definition truthyStr (x : option string) : bool :=
  match x with Some s => JS.nonEmpty s | None => false end.

Definition truthyNum (x : option JS.num) : bool :=
  match x with Some n => JS.truthy n | None => false end.

Definition truthyId (x : option Z) : bool :=
  match x with Some z => negb (z =? 0)%Z | None => false end.

(** Truthiness of an object reference that may be [undefined]. *)
Definition found {A : Type} (x : option A) : bool :=
  match x with Some _ => true | None => false end.

(** [a === b] for an integer of the dataset and a wire number that may be
    [null]. *)
Definition idEq (a : Z) (b : option JS.num) : bool :=
  match b with Some n => JS.strictEq (JS.ofZ a) n | None => false end.

(** [a === b] on strings that may be [null] or [undefined]. *)
Definition strOptEq (a b : option string) : bool :=
  match a, b with
  | Some x, Some y => String.eqb x y
  | None, None => true
  | _, _ => false
  end.

(** ** src/services/dataLoader.ts: route lookup *)

Definition findStopByStationId (route : list TrainStop.t)
    (stationId : option JS.num) : option TrainStop.t :=
  if negb (truthyNum stationId) then None
  else List.find (fun stop => idEq (TrainStop.StationId stop) stationId) route.

(** ** src/services/liveData.ts *)

Definition parseBoolean (value : option string) : bool :=
  match value with
  | Some s => String.eqb (JS.toLowerCase s) "true"
  | None => false
  end.

Definition parseDirection (iconUrl : option string) : Direction :=
  match iconUrl with
  | None => unknown
  | Some s =>
      if negb (JS.nonEmpty s) then unknown
      else if JS.includes (JS.toLowerCase s) "up" then up
      else if JS.includes (JS.toLowerCase s) "down" then down
      else unknown
  end.

Definition finiteOrNull (parsed : JS.num) : option JS.num :=
  if JS.isFinite parsed then Some parsed else None.

Definition extractTrainNumberFromKey (value : option string) : option JS.num :=
  match value with
  | None => None
  | Some v =>
      if negb (JS.nonEmpty v) then None
      else if JS.endsWith v "9900" then
        finiteOrNull (JS.Number (JS.dropLast 4 v))
      else if JS.endsWith v "099900" then
        finiteOrNull (JS.Number (JS.dropLast 6 v))
      else finiteOrNull (JS.Number v)
  end.

(** [payload.f ? Number(payload.f) : null]. *)
Definition numberIfPresent (field : option string) : option JS.num :=
  if truthyStr field then Some (JS.NumberOpt field) else None.

(** [now] is the reading of [Date.now()]. *)
Definition parseSocketPayload (now : Z) (trainKey variantKey : string)
    (payload : SocketTrainPayload.t) : option LiveTrainDelta.t :=
  let lat := JS.NumberOpt (SocketTrainPayload.lat payload) in
  let lon := JS.NumberOpt (SocketTrainPayload.lon payload) in
  if negb (JS.isFinite lat) || negb (JS.isFinite lon) then None
  else
    let lastUpdated :=
      match SocketTrainPayload.__last_updated payload with
      | Some stamp => stamp
      | None =>
          if truthyStr (SocketTrainPayload.last_updated payload)
          then JS.mul (JS.NumberOpt (SocketTrainPayload.last_updated payload))
                      (JS.ofZ 1000)
          else JS.ofZ now
      end in
    let speed := numberIfPresent (SocketTrainPayload.sp payload) in
    let trainNumber :=
      match extractTrainNumberFromKey (Some trainKey) with
      | Some n => Some n
      | None => extractTrainNumberFromKey (Some variantKey)
      end in
    Some {|
      LiveTrainDelta.id := trainKey +:+ ":" +:+ variantKey;
      LiveTrainDelta.trainKey := trainKey;
      LiveTrainDelta.variantKey := variantKey;
      LiveTrainDelta.locomitiveNo := SocketTrainPayload.locomitiveNo payload;
      LiveTrainDelta.lat := lat;
      LiveTrainDelta.lon := lon;
      LiveTrainDelta.lastUpdated := lastUpdated;
      LiveTrainDelta.lateBy := numberIfPresent (SocketTrainPayload.late_by payload);
      LiveTrainDelta.nextStationId :=
        numberIfPresent (SocketTrainPayload.next_station payload);
      LiveTrainDelta.nextStopName := SocketTrainPayload.next_stop payload;
      LiveTrainDelta.prevStationId :=
        numberIfPresent (SocketTrainPayload.prev_station payload);
      LiveTrainDelta.speed := if JS.isFiniteOpt speed then speed else None;
      LiveTrainDelta.trainNumber :=
        if JS.isFiniteOpt trainNumber then trainNumber else None;
      LiveTrainDelta.dayNumber := None;
      LiveTrainDelta.isTrainStation :=
        parseBoolean (SocketTrainPayload.isTrainStation payload);
      LiveTrainDelta.isTrainStop :=
        parseBoolean (SocketTrainPayload.isTrainStop payload);
      LiveTrainDelta.isFlagged :=
        parseBoolean (SocketTrainPayload.isFlagged payload);
      LiveTrainDelta.iconUrl := SocketTrainPayload.icon payload;
      LiveTrainDelta.statusCode := SocketTrainPayload.st payload;
      LiveTrainDelta.direction := parseDirection (SocketTrainPayload.icon payload)
    |}.

Definition flattenSocketEnvelope (now : Z) (envelope : SocketMessageEnvelope)
  : list LiveTrainDelta.t :=
  List.concat
    (List.map
       (fun '(trainKey, variants) =>
          List.concat
            (List.map
               (fun '(variantKey, payload) =>
                  match parseSocketPayload now trainKey variantKey payload with
                  | Some delta => [delta]
                  | None => []
                  end)
               variants))
       envelope).

(** *** The entity resolver *)

Record CandidateScore : Type := {
  train : TrainWithRoute.t;
  score : Q;
  reasons : list string
}.

(** [score += w; reasons.push(tag)]. *)
Definition credit (w : Q) (tag : string) (acc : Q * list string)
  : Q * list string :=
  ((fst acc + w)%Q, snd acc ++ [tag]).

(** [route.findIndex(stop => stop.StationId === stationId)]. *)
Fixpoint findIndexFrom (i : Z) (route : list TrainStop.t)
    (stationId : option JS.num) : Z :=
  match route with
  | [] => (-1)%Z
  | stop :: rest =>
      if idEq (TrainStop.StationId stop) stationId then i
      else findIndexFrom (i + 1)%Z rest stationId
  end.

Definition findIndex (route : list TrainStop.t) (stationId : option JS.num) : Z :=
  findIndexFrom 0%Z route stationId.

Definition directionFlagOf (delta : LiveTrainDelta.t) : option bool :=
  if Direction_eqb (LiveTrainDelta.direction delta) unknown then None
  else Some (Direction_eqb (LiveTrainDelta.direction delta) up).

(** The callback of [trains.map] in [findMatchingTrainId]. *)
Definition scoreCandidate (delta : LiveTrainDelta.t)
    (directionFlag : option bool) (t : TrainWithRoute.t) : CandidateScore :=
  let acc0 : Q * list string := (0%Q, []) in
  let acc1 :=
    if truthyStr (LiveTrainDelta.locomitiveNo delta)
       && truthyStr (TrainWithRoute.LocomotiveNumber t)
       && strOptEq (LiveTrainDelta.locomitiveNo delta)
                   (TrainWithRoute.LocomotiveNumber t)
    then credit 10 "locomotive" acc0 else acc0 in
  let nextStop :=
    if truthyNum (LiveTrainDelta.nextStationId delta)
    then findStopByStationId (TrainWithRoute.route t)
                             (LiveTrainDelta.nextStationId delta)
    else None in
  let acc2 := if found nextStop then credit 4 "nextStation" acc1 else acc1 in
  let prevStop :=
    if truthyNum (LiveTrainDelta.prevStationId delta)
    then findStopByStationId (TrainWithRoute.route t)
                             (LiveTrainDelta.prevStationId delta)
    else None in
  let acc3 := if found prevStop then credit 4 "prevStation" acc2 else acc2 in
  let acc4 :=
    if found nextStop && found prevStop then
      let nextIndex :=
        findIndex (TrainWithRoute.route t) (LiveTrainDelta.nextStationId delta) in
      let prevIndex :=
        findIndex (TrainWithRoute.route t) (LiveTrainDelta.prevStationId delta) in
      if negb (prevIndex =? -1)%Z && negb (nextIndex =? -1)%Z
         && (prevIndex <? nextIndex)%Z
      then credit 1 "stationOrder" acc3 else acc3
    else acc3 in
  let acc5 :=
    match directionFlag with
    | Some flag =>
        if Bool.eqb (TrainWithRoute.IsUp t) flag
        then credit 1 "direction" acc4 else acc4
    | None => acc4
    end in
  let acc6 :=
    match LiveTrainDelta.nextStopName delta with
    | Some name =>
        if JS.nonEmpty name then
          let nameLower := JS.toLowerCase name in
          let matchesStopName :=
            List.existsb
              (fun stop =>
                 String.eqb (JS.toLowerCase (TrainStop.StationName stop)) nameLower)
              (TrainWithRoute.route t) in
          if matchesStopName then credit 0.5 "nextStopName" acc5
          else if JS.includes (JS.toLowerCase (TrainWithRoute.TrainName t)) nameLower
          then credit 0.25 "trainNameHint" acc5
          else acc5
        else acc5
    | None => acc5
    end in
  {| train := t; score := fst acc6; reasons := snd acc6 |}.

(** [trains.map(...).filter(candidate => candidate.score > 0)]. *)
Definition scoredCandidates (trains : list TrainWithRoute.t)
    (delta : LiveTrainDelta.t) : list CandidateScore :=
  List.filter (fun candidate => negb (Qle_bool (score candidate) 0))
    (List.map (scoreCandidate delta (directionFlagOf delta)) trains).

(** The train-number lookup that opens [findMatchingTrainId]. *)
Definition numberMatch (trains : list TrainWithRoute.t)
    (delta : LiveTrainDelta.t) : option TrainWithRoute.t :=
  if JS.isFiniteOpt (LiveTrainDelta.trainNumber delta) then
    List.find
      (fun t => idEq (TrainWithRoute.TrainNumber t) (LiveTrainDelta.trainNumber delta))
      trains
  else None.

(** [(a, b) => b.score - a.score]. *)
Definition byScoreDesc (a b : CandidateScore) : JS.num :=
  JS.Fin (score b - score a).

(** What [findMatchingTrainId] does with the scored candidates. *)
Definition pickBest (candidates : list CandidateScore) : option Z :=
  if (length candidates =? 0)%nat then None
  else
    let sorted := JS.sort byScoreDesc candidates in
    match sorted with
    | [] => None
    | best :: rest =>
        if Qle_bool (score best) 0 then None
        else
          let tied :=
            List.filter (fun candidate => Qeq_bool (score candidate) (score best))
                        sorted in
          if (1 <? length tied)%nat then None
          else
            match rest with
            | second :: _ =>
                if Qle_bool (score best) (score second) then None
                else Some (TrainWithRoute.TrainId (train best))
            | [] => Some (TrainWithRoute.TrainId (train best))
            end
    end.

Definition findMatchingTrainId (trains : list TrainWithRoute.t)
    (delta : LiveTrainDelta.t) : option Z :=
  match numberMatch trains delta with
  | Some matched => Some (TrainWithRoute.TrainId matched)
  | None => pickBest (scoredCandidates trains delta)
  end.

(** *** The run merger *)

Definition computeStopsForRun (t : TrainWithRoute.t)
    (run : option LiveTrainDelta.t) : option TrainStop.t * option TrainStop.t :=
  match run with
  | None => (None, None)
  | Some r =>
      let upcomingStop :=
        if truthyNum (LiveTrainDelta.nextStationId r)
        then findStopByStationId (TrainWithRoute.route t)
                                 (LiveTrainDelta.nextStationId r)
        else None in
      let previousStop :=
        if truthyNum (LiveTrainDelta.prevStationId r)
        then findStopByStationId (TrainWithRoute.route t)
                                 (LiveTrainDelta.prevStationId r)
        else None in
      (upcomingStop, previousStop)
  end.

Definition dayCountOf (stop : TrainStop.t) : option JS.num :=
  match TrainStop.DayCount stop with
  | Some n => Some (JS.ofZ n)
  | None => None
  end.

Definition deriveDayNumber (t : TrainWithRoute.t) (delta : LiveTrainDelta.t)
  : option JS.num :=
  let upcomingStop :=
    if truthyNum (LiveTrainDelta.nextStationId delta)
    then findStopByStationId (TrainWithRoute.route t)
                             (LiveTrainDelta.nextStationId delta)
    else None in
  match upcomingStop with
  | Some stop => dayCountOf stop
  | None =>
      let previousStop :=
        if truthyNum (LiveTrainDelta.prevStationId delta)
        then findStopByStationId (TrainWithRoute.route t)
                                 (LiveTrainDelta.prevStationId delta)
        else None in
      match previousStop with
      | Some stop => dayCountOf stop
      | None => LiveTrainDelta.dayNumber delta
      end
  end.

(** [(a, b) => b.lastUpdated - a.lastUpdated]. *)
Definition byLastUpdatedDesc (a b : LiveTrainDelta.t) : JS.num :=
  JS.sub (LiveTrainDelta.lastUpdated b) (LiveTrainDelta.lastUpdated a).

Definition hasId (runId : string) (run : LiveTrainDelta.t) : bool :=
  String.eqb (LiveTrainDelta.id run) runId.

(** [mergedRuns] of [updateTrainWithDelta]. *)
Definition mergeRuns (existingRuns : list LiveTrainDelta.t)
    (normalizedDelta : LiveTrainDelta.t) : list LiveTrainDelta.t :=
  let filteredRuns :=
    List.filter (fun run => negb (hasId (LiveTrainDelta.id normalizedDelta) run))
                existingRuns in
  JS.sort byLastUpdatedDesc (filteredRuns ++ [normalizedDelta]).

(** [preferredRunId ?? train.selectedRunId ?? normalizedDelta.id]. *)
Definition desiredRunIdOf (preferredRunId : option string)
    (t : TrainWithRoute.t) (normalizedDelta : LiveTrainDelta.t) : string :=
  match preferredRunId with
  | Some r => r
  | None =>
      match TrainWithRoute.selectedRunId t with
      | Some r => r
      | None => LiveTrainDelta.id normalizedDelta
      end
  end.

(** [mergedRuns.find(run => run.id === desiredRunId) ?? mergedRuns[0]
     ?? normalizedDelta]. *)
Definition selectRun (desiredRunId : string)
    (mergedRuns : list LiveTrainDelta.t) (normalizedDelta : LiveTrainDelta.t)
  : LiveTrainDelta.t :=
  match List.find (hasId desiredRunId) mergedRuns with
  | Some run => run
  | None =>
      match mergedRuns with
      | run :: _ => run
      | [] => normalizedDelta
      end
  end.

Definition updateTrainWithDelta (t : TrainWithRoute.t)
    (delta : LiveTrainDelta.t) (preferredRunId : option string)
  : TrainWithRoute.t :=
  let dayNumber := deriveDayNumber t delta in
  let normalizedDelta := LiveTrainDelta.withDayNumber delta dayNumber in
  let existingRuns := default [] (TrainWithRoute.liveRuns t) in
  let mergedRuns := mergeRuns existingRuns normalizedDelta in
  let desiredRunId := desiredRunIdOf preferredRunId t normalizedDelta in
  let selectedRun := selectRun desiredRunId mergedRuns normalizedDelta in
  let stops := computeStopsForRun t (Some selectedRun) in
  TrainWithRoute.withLiveState t true (Some mergedRuns)
    (Some (LiveTrainDelta.id selectedRun)) (Some selectedRun)
    (fst stops) (snd stops).

Definition applyRunSelectionToTrain (t : TrainWithRoute.t) (runId : string)
  : TrainWithRoute.t :=
  match List.find (hasId runId) (default [] (TrainWithRoute.liveRuns t)) with
  | None => t
  | Some run =>
      let '(upcomingStop, previousStop) := computeStopsForRun t (Some run) in
      TrainWithRoute.withLiveState t true (TrainWithRoute.liveRuns t)
        (Some (LiveTrainDelta.id run)) (Some run) upcomingStop previousStop
  end.

(** *** The run merger on a given engine *)

(** [updateTrainWithDelta] with the [sort] of the engine left open. *)
Section EngineSort.
Variable sort :
  (LiveTrainDelta.t -> LiveTrainDelta.t -> JS.num) ->
  list LiveTrainDelta.t -> list LiveTrainDelta.t.

Definition mergeRunsBy (existingRuns : list LiveTrainDelta.t)
    (normalizedDelta : LiveTrainDelta.t) : list LiveTrainDelta.t :=
  let filteredRuns :=
    List.filter (fun run => negb (hasId (LiveTrainDelta.id normalizedDelta) run))
                existingRuns in
  sort byLastUpdatedDesc (filteredRuns ++ [normalizedDelta]).

Definition updateTrainWithDeltaBy (t : TrainWithRoute.t)
    (delta : LiveTrainDelta.t) (preferredRunId : option string)
  : TrainWithRoute.t :=
  let dayNumber := deriveDayNumber t delta in
  let normalizedDelta := LiveTrainDelta.withDayNumber delta dayNumber in
  let existingRuns := default [] (TrainWithRoute.liveRuns t) in
  let mergedRuns := mergeRunsBy existingRuns normalizedDelta in
  let desiredRunId := desiredRunIdOf preferredRunId t normalizedDelta in
  let selectedRun := selectRun desiredRunId mergedRuns normalizedDelta in
  let stops := computeStopsForRun t (Some selectedRun) in
  TrainWithRoute.withLiveState t true (Some mergedRuns)
    (Some (LiveTrainDelta.id selectedRun)) (Some selectedRun)
    (fst stops) (snd stops).
End EngineSort.

(** ** src/services/dataLoader.ts: staleness sweep and cold start *)

(** Ten minutes, in milliseconds. *)
Definition STALE_LIVE_RUN_TTL_MS : Z := (10 * 60 * 1000)%Z.

Definition sameStop (a b : option TrainStop.t) : bool :=
  match a, b with
  | None, None => true
  | Some x, Some y =>
      (TrainStop.StationId x =? TrainStop.StationId y)%Z
      && (TrainStop.OrderNumber x =? TrainStop.OrderNumber y)%Z
  | _, _ => false
  end.

(** Nothing live is recorded on the train: [resetTrainLiveState] hands the
    same object back. *)
Definition hasNoLiveState (t : TrainWithRoute.t) : bool :=
  negb (found (TrainWithRoute.livePosition t))
  && (length (default [] (TrainWithRoute.liveRuns t)) =? 0)%nat
  && negb (truthyStr (TrainWithRoute.selectedRunId t))
  && negb (TrainWithRoute.IsLive t).

Definition resetTrainLiveState (t : TrainWithRoute.t) : TrainWithRoute.t :=
  if hasNoLiveState t then t
  else
    let defaultUpcoming := List.head (TrainWithRoute.route t) in
    TrainWithRoute.withLiveState t false None None None defaultUpcoming None.

Definition isRunFresh (run : LiveTrainDelta.t) (now : Z) : bool :=
  JS.le (JS.sub (JS.ofZ now) (LiveTrainDelta.lastUpdated run))
        (JS.ofZ STALE_LIVE_RUN_TTL_MS).

(** [route.find(s => s.StationId === stationId)] behind the truthiness test
    of [sanitizeTrainLiveState]. *)
Definition routeStop (route : list TrainStop.t) (stationId : option JS.num)
  : option TrainStop.t :=
  if truthyNum stationId
  then List.find (fun s => idEq (TrainStop.StationId s) stationId) route
  else None.

Definition sanitizeTrainLiveState (t : TrainWithRoute.t) (now : Z)
  : TrainWithRoute.t :=
  match TrainWithRoute.liveRuns t with
  | None => resetTrainLiveState t
  | Some runs =>
      if (length runs =? 0)%nat then resetTrainLiveState t
      else
        let freshRuns := List.filter (fun run => isRunFresh run now) runs in
        match freshRuns with
        | [] => resetTrainLiveState t
        | first :: _ =>
            let selectedRun :=
              match
                List.find
                  (fun run =>
                     strOptEq (Some (LiveTrainDelta.id run))
                              (TrainWithRoute.selectedRunId t))
                  freshRuns
              with
              | Some run => run
              | None => first
              end in
            let upcomingStop :=
              routeStop (TrainWithRoute.route t)
                        (LiveTrainDelta.nextStationId selectedRun) in
            let previousStop :=
              routeStop (TrainWithRoute.route t)
                        (LiveTrainDelta.prevStationId selectedRun) in
            let requiresUpdate :=
              negb (length freshRuns =? length runs)%nat
              || negb (strOptEq (TrainWithRoute.selectedRunId t)
                                (Some (LiveTrainDelta.id selectedRun)))
              || negb (sameStop (TrainWithRoute.upcomingStop t) upcomingStop)
              || negb (sameStop (TrainWithRoute.previousStop t) previousStop)
              || negb (TrainWithRoute.IsLive t) in
            if negb requiresUpdate then t
            else
              TrainWithRoute.withLiveState t true (Some freshRuns)
                (Some (LiveTrainDelta.id selectedRun)) (Some selectedRun)
                upcomingStop previousStop
        end
  end.

(** The sweep.  The source returns the input array itself when no train
    object was replaced; that array has the same contents as the mapped
    one. *)
Definition stripStaleLiveData (trains : list TrainWithRoute.t) (now : Z)
  : list TrainWithRoute.t :=
  List.map (fun t => sanitizeTrainLiveState t now) trains.

Definition hasTrainId (trainId : Z) (t : TrainWithRoute.t) : bool :=
  (TrainWithRoute.TrainId t =? trainId)%Z.

(** [updatedTrain?.selectedRunId], when truthy. *)
Definition selectedRunOf (trainId : Z) (trains : list TrainWithRoute.t)
  : option string :=
  match List.find (hasTrainId trainId) trains with
  | Some updatedTrain =>
      if truthyStr (TrainWithRoute.selectedRunId updatedTrain)
      then TrainWithRoute.selectedRunId updatedTrain else None
  | None => None
  end.

Section ColdStart.
(** [new Date(s).toISOString().split('T')[0]] of the host runtime, for
    the date strings of the dataset. *)
Variable isoDate : string -> string.

(** src/lib/train/index.ts *)
Definition getTrainUniqueKey (t : TrainWithRoute.t) : string :=
  let date :=
    match TrainWithRoute.AllocatedDate t with
    | Some d => if JS.nonEmpty d then isoDate d else "no-date"
    | None => "no-date"
    end in
  pretty (TrainWithRoute.TrainId t) +:+ "-" +:+ date.

(** The variables the [forEach] of [applyStoredLiveDeltas] updates. *)
Record ReplayState : Type := {
  updatedTrains : list TrainWithRoute.t;
  replayKeyToId : gmap string Z;
  replaySelectedRunIds : gmap string string
}.

Definition replayDelta (st : ReplayState) (delta : LiveTrainDelta.t)
  : ReplayState :=
  let targetTrainId :=
    match replayKeyToId st !! LiveTrainDelta.trainKey delta with
    | Some cached => Some cached
    | None => findMatchingTrainId (updatedTrains st) delta
    end in
  match targetTrainId with
  | Some target =>
      if (target =? 0)%Z then st
      else
        let trains' :=
          List.map
            (fun t =>
               if hasTrainId target t
               then updateTrainWithDelta t delta
                      (replaySelectedRunIds st !! getTrainUniqueKey t)
               else t)
            (updatedTrains st) in
        let selected' :=
          match List.find (hasTrainId target) trains' with
          | Some updatedTrain =>
              if truthyStr (TrainWithRoute.selectedRunId updatedTrain)
              then
                match TrainWithRoute.selectedRunId updatedTrain with
                | Some runId =>
                    <[getTrainUniqueKey updatedTrain := runId]>
                      (replaySelectedRunIds st)
                | None => replaySelectedRunIds st
                end
              else replaySelectedRunIds st
          | None => replaySelectedRunIds st
          end in
        {| updatedTrains := trains';
           replayKeyToId :=
             <[LiveTrainDelta.trainKey delta := target]> (replayKeyToId st);
           replaySelectedRunIds := selected' |}
  | None => st
  end.

(** [deltas] is what the delta store returns, [now] the reading of
    [Date.now()] taken by the final sweep. *)
Definition applyStoredLiveDeltas (staticTrains : list TrainWithRoute.t)
    (deltas : list LiveTrainDelta.t) (now : Z) : list TrainWithRoute.t :=
  if (length deltas =? 0)%nat then staticTrains
  else
    let final :=
      fold_left replayDelta deltas
        {| updatedTrains := staticTrains;
           replayKeyToId := ∅;
           replaySelectedRunIds := ∅ |} in
    stripStaleLiveData (updatedTrains final) now.
End ColdStart.

(** ** src/main.tsx: applying a batch of deltas to the store *)

Record StoreSlice : Type := {
  trains : list TrainWithRoute.t;
  liveDeltas : gmap string LiveTrainDelta.t;
  trainKeyToId : gmap string Z;
  selectedRunIds : gmap Z string;
  unresolvedDeltas : gmap string LiveTrainDelta.t
}.

Section ProcessDeltas.
(** [String(n)] of the host runtime. *)
Variable numberToString : JS.num -> string.
(** The resolver the batch step falls back on; the store uses
    [findMatchingTrainId]. *)
Variable resolve : list TrainWithRoute.t -> LiveTrainDelta.t -> option Z.

(** The chain of cache lookups: composite id, train key, variant key,
    stringified train number. *)
Definition mappedTrainId (cache : gmap string Z) (delta : LiveTrainDelta.t)
  : option Z :=
  match cache !! LiveTrainDelta.id delta with
  | Some cached => Some cached
  | None =>
      match cache !! LiveTrainDelta.trainKey delta with
      | Some cached => Some cached
      | None =>
          match cache !! LiveTrainDelta.variantKey delta with
          | Some cached => Some cached
          | None =>
              match LiveTrainDelta.trainNumber delta with
              | Some n => cache !! numberToString n
              | None => None
              end
          end
      end
  end.

(** The branch taken once a target train is known. *)
Definition attribute (st : StoreSlice) (delta : LiveTrainDelta.t)
    (targetTrainId : Z) : StoreSlice :=
  let cache1 := <[LiveTrainDelta.id delta := targetTrainId]> (trainKeyToId st) in
  let cache2 := <[LiveTrainDelta.trainKey delta := targetTrainId]> cache1 in
  let cache3 := <[LiveTrainDelta.variantKey delta := targetTrainId]> cache2 in
  let cache4 :=
    match LiveTrainDelta.trainNumber delta with
    | Some n => <[numberToString n := targetTrainId]> cache3
    | None => cache3
    end in
  let trains' :=
    List.map
      (fun t =>
         if hasTrainId targetTrainId t
         then updateTrainWithDelta t delta
                (selectedRunIds st !! TrainWithRoute.TrainId t)
         else t)
      (trains st) in
  let selected' :=
    match selectedRunOf targetTrainId trains' with
    | Some runId => <[targetTrainId := runId]> (selectedRunIds st)
    | None => selectedRunIds st
    end in
  {| trains := trains';
     liveDeltas := liveDeltas st;
     trainKeyToId := cache4;
     selectedRunIds := selected';
     unresolvedDeltas := delete (LiveTrainDelta.id delta) (unresolvedDeltas st) |}.

(** The branch taken when no target train is known. *)
Definition markUnresolved (st : StoreSlice) (delta : LiveTrainDelta.t)
  : StoreSlice :=
  {| trains := trains st;
     liveDeltas := liveDeltas st;
     trainKeyToId := trainKeyToId st;
     selectedRunIds := selectedRunIds st;
     unresolvedDeltas :=
       <[LiveTrainDelta.id delta := delta]> (unresolvedDeltas st) |}.

(** [mappedTrainId || findMatchingTrainId(trains, delta)]. *)
Definition targetTrainIdOf (st : StoreSlice) (delta : LiveTrainDelta.t)
  : option Z :=
  if truthyId (mappedTrainId (trainKeyToId st) delta)
  then mappedTrainId (trainKeyToId st) delta
  else resolve (trains st) delta.

(** [liveDeltas.set(delta.trainKey, delta)]. *)
Definition recordDelta (st : StoreSlice) (delta : LiveTrainDelta.t)
  : StoreSlice :=
  {| trains := trains st;
     liveDeltas := <[LiveTrainDelta.trainKey delta := delta]> (liveDeltas st);
     trainKeyToId := trainKeyToId st;
     selectedRunIds := selectedRunIds st;
     unresolvedDeltas := unresolvedDeltas st |}.

(** The body of the [forEach] of [processDeltas]. *)
Definition processDelta (st : StoreSlice) (delta : LiveTrainDelta.t)
  : StoreSlice :=
  let st1 := recordDelta st delta in
  match targetTrainIdOf st1 delta with
  | Some target =>
      if (target =? 0)%Z then markUnresolved st1 delta
      else attribute st1 delta target
  | None => markUnresolved st1 delta
  end.

Definition processDeltasWith (currentState : StoreSlice)
    (deltas : list LiveTrainDelta.t) : StoreSlice :=
  fold_left processDelta deltas currentState.
End ProcessDeltas.

Definition processDeltas (numberToString : JS.num -> string)
    (currentState : StoreSlice) (deltas : list LiveTrainDelta.t) : StoreSlice :=
  processDeltasWith numberToString findMatchingTrainId currentState deltas.

(** ** src/services/dataLoader.ts: the static dataset *)

Module TrainSummary.
Record t : Type := mk {
  TrainId : Z;
  TrainNumber : Z;
  TrainName : string;
  TrainNameUR : string;
  TrainNameWithNumber : string;
  TrainDescription : option string;
  IsActive : option bool;
  Imei : option string;
  IsLive : bool;
  IsUp : bool;
  LocomotiveNumber : option string;
  TrainRideId : Z;
  AllocatedDate : option string
}.
End TrainSummary.

Module TrainStationsMapEntry.
Record t : Type := mk {
  TrainId : Z;
  stations : list TrainStop.t
}.
End TrainStationsMapEntry.

(** [(a, b) => a.OrderNumber - b.OrderNumber]. *)
Definition byOrderNumber (a b : TrainStop.t) : JS.num :=
  JS.sub (JS.ofZ (TrainStop.OrderNumber a)) (JS.ofZ (TrainStop.OrderNumber b)).

(** [new Map(entries.map(entry => [entry.TrainId, sorted stations]))]: a
    later entry for the same train replaces an earlier one. *)
Definition buildRouteMap (entries : list TrainStationsMapEntry.t)
  : gmap Z (list TrainStop.t) :=
  fold_left
    (fun routes entry =>
       <[TrainStationsMapEntry.TrainId entry :=
           JS.sort byOrderNumber (TrainStationsMapEntry.stations entry)]> routes)
    entries ∅.

(** [{ ...train, route, upcomingStop: route[0], previousStop: undefined }]. *)
Definition withRoute (summary : TrainSummary.t) (stops : list TrainStop.t)
  : TrainWithRoute.t :=
  {| TrainWithRoute.TrainId := TrainSummary.TrainId summary;
     TrainWithRoute.TrainNumber := TrainSummary.TrainNumber summary;
     TrainWithRoute.TrainName := TrainSummary.TrainName summary;
     TrainWithRoute.TrainNameUR := TrainSummary.TrainNameUR summary;
     TrainWithRoute.TrainNameWithNumber := TrainSummary.TrainNameWithNumber summary;
     TrainWithRoute.TrainDescription := TrainSummary.TrainDescription summary;
     TrainWithRoute.IsActive := TrainSummary.IsActive summary;
     TrainWithRoute.Imei := TrainSummary.Imei summary;
     TrainWithRoute.IsLive := TrainSummary.IsLive summary;
     TrainWithRoute.IsUp := TrainSummary.IsUp summary;
     TrainWithRoute.LocomotiveNumber := TrainSummary.LocomotiveNumber summary;
     TrainWithRoute.TrainRideId := TrainSummary.TrainRideId summary;
     TrainWithRoute.AllocatedDate := TrainSummary.AllocatedDate summary;
     TrainWithRoute.route := stops;
     TrainWithRoute.upcomingStop := List.head stops;
     TrainWithRoute.previousStop := None;
     TrainWithRoute.livePosition := None;
     TrainWithRoute.liveRuns := None;
     TrainWithRoute.selectedRunId := None |}.

(** The trains [buildStaticDataset] assembles from the fetched train
    summaries and the fetched list of per-train stations. *)
Definition buildStaticTrains (summaries : list TrainSummary.t)
    (trainStationsList : list TrainStationsMapEntry.t) : list TrainWithRoute.t :=
  let routeByTrainId := buildRouteMap trainStationsList in
  List.map
    (fun summary =>
       withRoute summary
         (default [] (routeByTrainId !! TrainSummary.TrainId summary)))
    summaries.

(** ** src/lib/train/index.ts: status of a train *)

Inductive TrainStatus : Type := live | active | offline.

(** The [variant] of [getTrainStatus]. *)
Definition getTrainStatus (t : TrainWithRoute.t) : TrainStatus :=
  if found (TrainWithRoute.livePosition t) then live
  else if TrainWithRoute.IsLive t then active
  else offline.

Definition hasMultipleRuns (t : TrainWithRoute.t) : bool :=
  match TrainWithRoute.liveRuns t with
  | Some runs => (1 <? length runs)%nat
  | None => false
  end.

Definition getRunCount (t : TrainWithRoute.t) : nat :=
  match TrainWithRoute.liveRuns t with
  | Some runs => length runs
  | None => O
  end.

(** ** src/main.tsx: the sweep of the store and the run pin *)

(** [x > y] on numbers. *)
Definition numGt (x y : JS.num) : bool :=
  match x, y with
  | JS.NaN, _ | _, JS.NaN => false
  | JS.PosInf, JS.PosInf | JS.NegInf, JS.NegInf => false
  | JS.PosInf, _ | _, JS.NegInf => true
  | JS.NegInf, _ | _, JS.PosInf => false
  | JS.Fin p, JS.Fin q => negb (Qle_bool p q)
  end.

(** [now - delta.lastUpdated > STALE_LIVE_RUN_TTL_MS]. *)
Definition isDeltaStale (delta : LiveTrainDelta.t) (now : Z) : bool :=
  numGt (JS.sub (JS.ofZ now) (LiveTrainDelta.lastUpdated delta))
        (JS.ofZ STALE_LIVE_RUN_TTL_MS).

(** [sanitizeTrainLiveState] hands back the very object it was given (the
    test [sanitized !== train] of [stripStaleLiveData] fails). *)
Definition sanitizeKeepsObject (t : TrainWithRoute.t) (now : Z) : bool :=
  match TrainWithRoute.liveRuns t with
  | None => hasNoLiveState t
  | Some runs =>
      if (length runs =? 0)%nat then hasNoLiveState t
      else
        let freshRuns := List.filter (fun run => isRunFresh run now) runs in
        match freshRuns with
        | [] => hasNoLiveState t
        | first :: _ =>
            let selectedRun :=
              match
                List.find
                  (fun run =>
                     strOptEq (Some (LiveTrainDelta.id run))
                              (TrainWithRoute.selectedRunId t))
                  freshRuns
              with
              | Some run => run
              | None => first
              end in
            let upcomingStop :=
              routeStop (TrainWithRoute.route t)
                        (LiveTrainDelta.nextStationId selectedRun) in
            let previousStop :=
              routeStop (TrainWithRoute.route t)
                        (LiveTrainDelta.prevStationId selectedRun) in
            let requiresUpdate :=
              negb (length freshRuns =? length runs)%nat
              || negb (strOptEq (TrainWithRoute.selectedRunId t)
                                (Some (LiveTrainDelta.id selectedRun)))
              || negb (sameStop (TrainWithRoute.upcomingStop t) upcomingStop)
              || negb (sameStop (TrainWithRoute.previousStop t) previousStop)
              || negb (TrainWithRoute.IsLive t) in
            negb requiresUpdate
        end
  end.

(** The [mutated] flag of [stripStaleLiveData]: some train object was
    replaced, so the array returned is a new one. *)
Definition sweepMutates (trains : list TrainWithRoute.t) (now : Z) : bool :=
  List.existsb (fun t => negb (sanitizeKeepsObject t now)) trains.

(** [sanitizedTrains.forEach(train => { if (!train.selectedRunId)
     selectedRunIds.delete(train.TrainId) })]. *)
Definition dropUnselected (sanitizedTrains : list TrainWithRoute.t)
    (pins : gmap Z string) : gmap Z string :=
  fold_left
    (fun pins t =>
       if truthyStr (TrainWithRoute.selectedRunId t) then pins
       else delete (TrainWithRoute.TrainId t) pins)
    sanitizedTrains pins.

(** [pruneStaleData]; the fields of the store it does not return are kept
    by the store's merge. *)
Definition pruneStaleData (currentState : StoreSlice) (now : Z) : StoreSlice :=
  let sanitizedTrains := stripStaleLiveData (trains currentState) now in
  {| trains := sanitizedTrains;
     liveDeltas :=
       filter (fun entry => isDeltaStale (snd entry) now = false)
              (liveDeltas currentState);
     trainKeyToId := trainKeyToId currentState;
     selectedRunIds :=
       if sweepMutates (trains currentState) now
       then dropUnselected sanitizedTrains (selectedRunIds currentState)
       else selectedRunIds currentState;
     unresolvedDeltas := unresolvedDeltas currentState |}.

(** The state update of the [applyDeltas] action for a non-empty batch:
    the batch, then the sweep at the reading [now] of the clock. *)
Definition applyDeltas (numberToString : JS.num -> string)
    (state : StoreSlice) (deltas : list LiveTrainDelta.t) (now : Z)
  : StoreSlice :=
  if (length deltas =? 0)%nat then state
  else pruneStaleData (processDeltas numberToString state deltas) now.

(** The state update of the [selectTrainRun] action. *)
Definition selectTrainRun (state : StoreSlice) (trainId : Z) (runId : string)
  : StoreSlice :=
  let trains' :=
    List.map
      (fun t =>
         if hasTrainId trainId t then applyRunSelectionToTrain t runId else t)
      (trains state) in
  {| trains := trains';
     liveDeltas := liveDeltas state;
     trainKeyToId := trainKeyToId state;
     selectedRunIds :=
       match selectedRunOf trainId trains' with
       | Some selected => <[trainId := selected]> (selectedRunIds state)
       | None => selectedRunIds state
       end;
     unresolvedDeltas := unresolvedDeltas state |}.

(** ** Vocabulary of the properties *)

(** *** Evidence weights of the resolver, as the design states them

    [presentId] and [presentText] say which identifiers and names count as
    carried by a delta. *)

Section Evidence.
Variable presentId : JS.num -> bool.
Variable presentText : string -> bool.

Definition weight (w : Q) (holds : bool) : Q := if holds then w else 0%Q.

(** Position of the first stop of the route at the given station. *)
Fixpoint stationPosition (route : list TrainStop.t) (n : JS.num) : option nat :=
  match route with
  | [] => None
  | stop :: rest =>
      if JS.strictEq (JS.ofZ (TrainStop.StationId stop)) n then Some O
      else option_map S (stationPosition rest n)
  end.

Definition locomotiveMatches (delta : LiveTrainDelta.t) (t : TrainWithRoute.t)
  : bool :=
  match LiveTrainDelta.locomitiveNo delta, TrainWithRoute.LocomotiveNumber t with
  | Some a, Some b => presentText a && String.eqb a b
  | _, _ => false
  end.

Definition stationInRoute (t : TrainWithRoute.t) (stationId : option JS.num)
  : bool :=
  match stationId with
  | Some n => presentId n && found (stationPosition (TrainWithRoute.route t) n)
  | None => false
  end.

Definition previousPrecedesNext (delta : LiveTrainDelta.t)
    (t : TrainWithRoute.t) : bool :=
  match LiveTrainDelta.prevStationId delta, LiveTrainDelta.nextStationId delta with
  | Some p, Some n =>
      match stationPosition (TrainWithRoute.route t) p,
            stationPosition (TrainWithRoute.route t) n with
      | Some i, Some j => (i <? j)%nat
      | _, _ => false
      end
  | _, _ => false
  end.

Definition directionMatches (delta : LiveTrainDelta.t) (t : TrainWithRoute.t)
  : bool :=
  match LiveTrainDelta.direction delta with
  | up => TrainWithRoute.IsUp t
  | down => negb (TrainWithRoute.IsUp t)
  | unknown => false
  end.

Definition stopNameMatches (delta : LiveTrainDelta.t) (t : TrainWithRoute.t)
  : bool :=
  match LiveTrainDelta.nextStopName delta with
  | Some name =>
      presentText name
      && List.existsb
           (fun stop =>
              String.eqb (JS.toLowerCase (TrainStop.StationName stop))
                         (JS.toLowerCase name))
           (TrainWithRoute.route t)
  | None => false
  end.

Definition trainNameContains (delta : LiveTrainDelta.t) (t : TrainWithRoute.t)
  : bool :=
  match LiveTrainDelta.nextStopName delta with
  | Some name =>
      presentText name
      && JS.includes (JS.toLowerCase (TrainWithRoute.TrainName t))
                     (JS.toLowerCase name)
  | None => false
  end.

Definition evidenceScore (delta : LiveTrainDelta.t) (t : TrainWithRoute.t) : Q :=
  (weight 10 (locomotiveMatches delta t)
   + weight 4 (stationInRoute t (LiveTrainDelta.nextStationId delta))
   + weight 4 (stationInRoute t (LiveTrainDelta.prevStationId delta))
   + weight 1 (stationInRoute t (LiveTrainDelta.nextStationId delta)
               && stationInRoute t (LiveTrainDelta.prevStationId delta)
               && previousPrecedesNext delta t)
   + weight 1 (directionMatches delta t)
   + (if stopNameMatches delta t then 0.5
      else if trainNameContains delta t then 0.25 else 0))%Q.
End Evidence.

(** Every identifier and every name on the delta counts. *)
Definition statedScore : LiveTrainDelta.t -> TrainWithRoute.t -> Q :=
  evidenceScore (fun _ => true) (fun _ => true).

(** A zero or NaN identifier and an empty name or locomotive identifier
    count as absent. *)
Definition guardedScore : LiveTrainDelta.t -> TrainWithRoute.t -> Q :=
  evidenceScore JS.truthy JS.nonEmpty.

(** *** Ties among candidates *)

(** The highest score is held by more than one candidate. *)
Definition topScoreShared (candidates : list CandidateScore) : Prop :=
  exists m : Q,
    (forall c, In c candidates -> (score c <= m)%Q) /\
    (1 < length (List.filter (fun c => Qeq_bool (score c) m) candidates))%nat.

(** A best candidate does not strictly exceed the best of the others. *)
Definition bestNotAboveSecond (candidates : list CandidateScore) : Prop :=
  exists (i j : nat) (best second : CandidateScore),
    i <> j /\
    nth_error candidates i = Some best /\
    nth_error candidates j = Some second /\
    (forall c, In c candidates -> (score c <= score best)%Q) /\
    (score best <= score second)%Q.

(** *** Run sets *)

Definition runsOf (t : TrainWithRoute.t) : list LiveTrainDelta.t :=
  default [] (TrainWithRoute.liveRuns t).

(** The delta was last updated more than the TTL before [now]. *)
Definition olderThanTTL (run : LiveTrainDelta.t) (now : Z) : Prop :=
  match LiveTrainDelta.lastUpdated run with
  | JS.Fin q => (inject_Z STALE_LIVE_RUN_TTL_MS < inject_Z now - q)%Q
  | JS.NegInf => True
  | _ => False
  end.

(** Every run on every train is older than the TTL. *)
Definition allRunsOld (now : Z) (trains : list TrainWithRoute.t) : Prop :=
  forall t run, In t trains -> In run (runsOf t) -> olderThanTTL run now.

(** A train as the static dataset builds it: no live state yet. *)
Definition isStatic (t : TrainWithRoute.t) : Prop :=
  TrainWithRoute.livePosition t = None /\
  TrainWithRoute.liveRuns t = None /\
  TrainWithRoute.selectedRunId t = None.

(** Every identifier the cache holds is a usable (non-zero) TrainId. *)
Definition cacheUsable (cache : gmap string Z) : Prop :=
  forall key cached, cache !! key = Some cached -> cached <> 0%Z.

(** One of the four lookup keys of the delta is in the cache. *)
Definition cachedUnderSomeKey (numberToString : JS.num -> string)
    (cache : gmap string Z) (delta : LiveTrainDelta.t) : Prop :=
  is_Some (cache !! LiveTrainDelta.id delta) \/
  is_Some (cache !! LiveTrainDelta.trainKey delta) \/
  is_Some (cache !! LiveTrainDelta.variantKey delta) \/
  (exists n, LiveTrainDelta.trainNumber delta = Some n /\
             is_Some (cache !! numberToString n)).

(** The cached identifier the batch step is to use: that of the first of
    the four keys, in the order composite id, train key, variant key,
    stringified train number, that the cache holds. *)
Definition firstCachedHit (numberToString : JS.num -> string)
    (cache : gmap string Z) (delta : LiveTrainDelta.t) (cached : Z) : Prop :=
  cache !! LiveTrainDelta.id delta = Some cached
  \/ (cache !! LiveTrainDelta.id delta = None
      /\ cache !! LiveTrainDelta.trainKey delta = Some cached)
  \/ (cache !! LiveTrainDelta.id delta = None
      /\ cache !! LiveTrainDelta.trainKey delta = None
      /\ cache !! LiveTrainDelta.variantKey delta = Some cached)
  \/ (cache !! LiveTrainDelta.id delta = None
      /\ cache !! LiveTrainDelta.trainKey delta = None
      /\ cache !! LiveTrainDelta.variantKey delta = None
      /\ exists n, LiveTrainDelta.trainNumber delta = Some n
                   /\ cache !! numberToString n = Some cached).

(** *** Order left by the insertion sort *)

(** No element of the part in order (last element first) is placed after
    its right neighbour by the comparator. *)
Fixpoint settled {A : Type} (cmp : A -> A -> JS.num) (acc : list A) : Prop :=
  match acc with
  | [] => True
  | a :: rest =>
      match rest with
      | [] => True
      | b :: _ => JS.gt0 (cmp b a) = false
      end /\ settled cmp rest
  end.

(** [x] is placed strictly before [y] by the comparator. *)
Definition placedBefore {A : Type} (cmp : A -> A -> JS.num) (x y : A) : bool :=
  JS.gt0 (cmp y x).

(** The comparator is consistent on the elements that satisfy [ok]: its two
    answers about a pair agree, and being placed before is a strict weak
    order. *)
Definition consistentOn {A : Type} (cmp : A -> A -> JS.num) (ok : A -> Prop)
  : Prop :=
  (forall x y, ok x -> ok y ->
     V8.negative (cmp x y) = placedBefore cmp x y)
  /\ (forall x y, ok x -> ok y ->
        placedBefore cmp x y = true -> placedBefore cmp y x = false)
  /\ (forall x y z, ok x -> ok y -> ok z ->
        placedBefore cmp x y = true ->
        placedBefore cmp x z = true \/ placedBefore cmp z y = true).

(** The part in order, last element first: no element is placed before
    one that follows it in the list. *)
Definition lastFirst {A : Type} (cmp : A -> A -> JS.num) (acc : list A) : Prop :=
  StronglySorted (fun a b => placedBefore cmp a b = false) acc.

(** *** Triples of an envelope *)

(** The (outer key, inner key, fields) triples of an envelope, in the order
    [Object.entries] yields them. *)
Definition triplesOf (envelope : SocketMessageEnvelope)
  : list (string * string * SocketTrainPayload.t) :=
  List.concat
    (List.map
       (fun '(trainKey, variants) =>
          List.map (fun '(variantKey, payload) => (trainKey, variantKey, payload))
                   variants)
       envelope).

(** Both coordinates of the fields parse to finite numbers. *)
Definition hasFinitePosition (triple : string * string * SocketTrainPayload.t)
  : bool :=
  JS.isFinite (JS.NumberOpt (SocketTrainPayload.lat (snd triple)))
  && JS.isFinite (JS.NumberOpt (SocketTrainPayload.lon (snd triple))).

Definition compositeId (triple : string * string * SocketTrainPayload.t)
  : string :=
  fst (fst triple) +:+ ":" +:+ snd (fst triple).

(** *** Order of a run set *)

(** Every run is at least as recent as every run after it. *)
Definition newestFirst (runs : list LiveTrainDelta.t) : Prop :=
  StronglySorted
    (fun a b =>
       JS.le (LiveTrainDelta.lastUpdated b) (LiveTrainDelta.lastUpdated a) = true)
    runs.

(** The timestamp of the run is a number (not NaN). *)
Definition hasTimestamp (run : LiveTrainDelta.t) : Prop :=
  LiveTrainDelta.lastUpdated run <> JS.NaN.

(** The run the merger stores for a delta: the delta with its day number
    derived from the train's route. *)
Definition normalizedRun (t : TrainWithRoute.t) (delta : LiveTrainDelta.t)
  : LiveTrainDelta.t :=
  LiveTrainDelta.withDayNumber delta (deriveDayNumber t delta).

(** *** What the sweep selects *)

(** The run [sanitizeTrainLiveState] selects among the fresh runs: the one
    with the selected id if it is fresh, else the first fresh run. *)
Definition sweepSelection (selected : option string)
    (freshRuns : list LiveTrainDelta.t) : option LiveTrainDelta.t :=
  match
    List.find (fun run => strOptEq (Some (LiveTrainDelta.id run)) selected)
              freshRuns
  with
  | Some run => Some run
  | None => List.head freshRuns
  end.

(** *** The batch step *)

(** [liveDeltas.set(delta.trainKey, delta)] for every delta of a batch. *)
Definition recordAll (deltas : list LiveTrainDelta.t)
    (known : gmap string LiveTrainDelta.t) : gmap string LiveTrainDelta.t :=
  fold_left (fun m delta => <[LiveTrainDelta.trainKey delta := delta]> m)
            deltas known.

(** The last delta of a batch that arrived under the given train key. *)
Definition lastWithTrainKey (key : string) (deltas : list LiveTrainDelta.t)
  : option LiveTrainDelta.t :=
  List.find (fun delta => String.eqb (LiveTrainDelta.trainKey delta) key)
            (List.rev deltas).

(** *** The static dataset *)

(** The last entry of the fetched list that belongs to the train. *)
Definition lastEntryFor (trainId : Z)
    (entries : list TrainStationsMapEntry.t) : option TrainStationsMapEntry.t :=
  List.find (fun entry => (TrainStationsMapEntry.TrainId entry =? trainId)%Z)
            (List.rev entries).

(** Stops in ascending order of their OrderNumber. *)
Definition inRouteOrder (stops : list TrainStop.t) : Prop :=
  StronglySorted
    (fun a b => (TrainStop.OrderNumber a <= TrainStop.OrderNumber b)%Z) stops.

(** What [buildStaticDataset] promises of a train built from a summary. *)
Definition builtFrom (entries : list TrainStationsMapEntry.t)
    (summary : TrainSummary.t) (t : TrainWithRoute.t) : Prop :=
  TrainWithRoute.TrainId t = TrainSummary.TrainId summary
  /\ TrainWithRoute.TrainNumber t = TrainSummary.TrainNumber summary
  /\ isStatic t
  /\ TrainWithRoute.upcomingStop t = List.head (TrainWithRoute.route t)
  /\ TrainWithRoute.previousStop t = None
  /\ inRouteOrder (TrainWithRoute.route t)
  /\ match lastEntryFor (TrainSummary.TrainId summary) entries with
     | Some entry =>
         Permutation (TrainWithRoute.route t)
                     (TrainStationsMapEntry.stations entry)
     | None => TrainWithRoute.route t = []
     end.

(** TrainId, TrainNumber and route of every train, in order. *)
Definition scheduleOf (trains : list TrainWithRoute.t)
  : list (Z * Z * list TrainStop.t) :=
  List.map (fun t => (TrainWithRoute.TrainId t, TrainWithRoute.TrainNumber t,
                      TrainWithRoute.route t))
           trains.

(** *** Cold-start replay *)

(** [trainKeyToId.get(delta.trainKey) ?? findMatchingTrainId(updatedTrains,
    delta)]: the train a step of the replay attributes the delta to. *)
Definition replayTarget (st : ReplayState) (delta : LiveTrainDelta.t)
  : option Z :=
  match replayKeyToId st !! LiveTrainDelta.trainKey delta with
  | Some cached => Some cached
  | None => findMatchingTrainId (updatedTrains st) delta
  end.

(** The variables of the replay before the first persisted delta. *)
Definition replayStart (staticTrains : list TrainWithRoute.t) : ReplayState :=
  {| updatedTrains := staticTrains;
     replayKeyToId := ∅;
     replaySelectedRunIds := ∅ |}.

(** Every train with that TrainId has, among its runs, the run the merger
    stores for the delta. *)
Definition carriesRun (target : Z) (delta : LiveTrainDelta.t)
    (trains : list TrainWithRoute.t) : Prop :=
  forall t, In t trains -> TrainWithRoute.TrainId t = target ->
            In (normalizedRun t delta) (runsOf t).

(** *** The unresolved pool *)

(** Two states of the store that differ at most in the unresolved pool. *)
Definition sameButPool (a b : StoreSlice) : Prop :=
  trains a = trains b
  /\ liveDeltas a = liveDeltas b
  /\ trainKeyToId a = trainKeyToId b
  /\ selectedRunIds a = selectedRunIds b.

(** ** Sample data *)

Module Samples.

Definition plainStop (station order : Z) (name : string) : TrainStop.t :=
  {| TrainStop.TrainNumber := 123;
     TrainStop.TrainName := "Karachi Express";
     TrainStop.StationId := station;
     TrainStop.ArrivalTime := None;
     TrainStop.IsDayChanged := None;
     TrainStop.DayCount := None;
     TrainStop.DepartureTime := Some "10:00:00";
     TrainStop.IsUp := 1;
     TrainStop.OrderNumber := order;
     TrainStop.StationName := name;
     TrainStop.Latitude := JS.Fin 30.1;
     TrainStop.Longitude := JS.Fin 70.2 |}.

Definition lahore : TrainStop.t := plainStop 17 1 "Lahore Jn".
Definition rawalpindi : TrainStop.t := plainStop 18 2 "Rawalpindi".
Definition depot : TrainStop.t := plainStop 0 1 "Depot".

(** A train as [buildStaticDataset] makes it. *)
Definition staticTrain (trainId number : Z) (name : string)
    (locomotive : option string) (stops : list TrainStop.t) : TrainWithRoute.t :=
  {| TrainWithRoute.TrainId := trainId;
     TrainWithRoute.TrainNumber := number;
     TrainWithRoute.TrainName := name;
     TrainWithRoute.TrainNameUR := "";
     TrainWithRoute.TrainNameWithNumber := name;
     TrainWithRoute.TrainDescription := None;
     TrainWithRoute.IsActive := Some true;
     TrainWithRoute.Imei := None;
     TrainWithRoute.IsLive := false;
     TrainWithRoute.IsUp := true;
     TrainWithRoute.LocomotiveNumber := locomotive;
     TrainWithRoute.TrainRideId := 0;
     TrainWithRoute.AllocatedDate := None;
     TrainWithRoute.route := stops;
     TrainWithRoute.upcomingStop := List.head stops;
     TrainWithRoute.previousStop := None;
     TrainWithRoute.livePosition := None;
     TrainWithRoute.liveRuns := None;
     TrainWithRoute.selectedRunId := None |}.

Definition karachiExpress : TrainWithRoute.t :=
  staticTrain 5 123 "Karachi Express" None [lahore; rawalpindi].
Definition karachiRelief : TrainWithRoute.t :=
  staticTrain 6 123 "Karachi Relief" None [lahore; rawalpindi].
Definition khyberMail : TrainWithRoute.t :=
  staticTrain 7 1 "Khyber Mail" (Some "LOCO-9") [lahore].
Definition awamExpress : TrainWithRoute.t :=
  staticTrain 8 13 "Awam Express" (Some "LOCO-9") [rawalpindi].
Definition yardShuttle : TrainWithRoute.t :=
  staticTrain 9 900 "Yard Shuttle" None [depot].

Definition blankPayload : SocketTrainPayload.t :=
  {| SocketTrainPayload.locomitiveNo := None;
     SocketTrainPayload.lat := Some "30.1";
     SocketTrainPayload.lon := Some "70.2";
     SocketTrainPayload.last_updated := None;
     SocketTrainPayload.late_by := None;
     SocketTrainPayload.next_station := None;
     SocketTrainPayload.next_stop := None;
     SocketTrainPayload.prev_station := None;
     SocketTrainPayload.sp := None;
     SocketTrainPayload.isTrainStation := None;
     SocketTrainPayload.isTrainStop := None;
     SocketTrainPayload.isFlagged := None;
     SocketTrainPayload.icon := None;
     SocketTrainPayload.st := None;
     SocketTrainPayload.__last_updated := None |}.

(** A payload whose optional numeric fields hold text that is not a
      number. *)
Definition garbledPayload : SocketTrainPayload.t :=
  {| SocketTrainPayload.locomitiveNo := None;
     SocketTrainPayload.lat := Some "30.1";
     SocketTrainPayload.lon := Some "70.2";
     SocketTrainPayload.last_updated := None;
     SocketTrainPayload.late_by := Some "abc";
     SocketTrainPayload.next_station := Some "n/a";
     SocketTrainPayload.next_stop := None;
     SocketTrainPayload.prev_station := Some "--";
     SocketTrainPayload.sp := Some "fast";
     SocketTrainPayload.isTrainStation := None;
     SocketTrainPayload.isTrainStop := None;
     SocketTrainPayload.isFlagged := None;
     SocketTrainPayload.icon := None;
     SocketTrainPayload.st := None;
     SocketTrainPayload.__last_updated := None |}.

(** A delta with the given keys, timestamp and evidence, everything else
      absent. *)
Definition probe (trainKey variantKey : string) (stamp : JS.num)
    (locomotive : option string) (next : option JS.num)
    (number : option JS.num) : LiveTrainDelta.t :=
  {| LiveTrainDelta.id := trainKey +:+ ":" +:+ variantKey;
     LiveTrainDelta.trainKey := trainKey;
     LiveTrainDelta.variantKey := variantKey;
     LiveTrainDelta.locomitiveNo := locomotive;
     LiveTrainDelta.lat := JS.Fin 30.1;
     LiveTrainDelta.lon := JS.Fin 70.2;
     LiveTrainDelta.lastUpdated := stamp;
     LiveTrainDelta.lateBy := None;
     LiveTrainDelta.nextStationId := next;
     LiveTrainDelta.nextStopName := None;
     LiveTrainDelta.prevStationId := None;
     LiveTrainDelta.speed := None;
     LiveTrainDelta.trainNumber := number;
     LiveTrainDelta.dayNumber := None;
     LiveTrainDelta.isTrainStation := false;
     LiveTrainDelta.isTrainStop := false;
     LiveTrainDelta.isFlagged := false;
     LiveTrainDelta.iconUrl := None;
     LiveTrainDelta.statusCode := None;
     LiveTrainDelta.direction := unknown |}.

(** A delta whose only content is an empty next-stop name. *)
Definition emptyNameProbe : LiveTrainDelta.t :=
  {| LiveTrainDelta.id := "5:1";
     LiveTrainDelta.trainKey := "5";
     LiveTrainDelta.variantKey := "1";
     LiveTrainDelta.locomitiveNo := None;
     LiveTrainDelta.lat := JS.Fin 30.1;
     LiveTrainDelta.lon := JS.Fin 70.2;
     LiveTrainDelta.lastUpdated := JS.Fin 0;
     LiveTrainDelta.lateBy := None;
     LiveTrainDelta.nextStationId := None;
     LiveTrainDelta.nextStopName := Some "";
     LiveTrainDelta.prevStationId := None;
     LiveTrainDelta.speed := None;
     LiveTrainDelta.trainNumber := None;
     LiveTrainDelta.dayNumber := None;
     LiveTrainDelta.isTrainStation := false;
     LiveTrainDelta.isTrainStop := false;
     LiveTrainDelta.isFlagged := false;
     LiveTrainDelta.iconUrl := None;
     LiveTrainDelta.statusCode := None;
     LiveTrainDelta.direction := unknown |}.

(** The payload of the design's first scenario. *)
Definition scenarioPayload : SocketTrainPayload.t :=
  {| SocketTrainPayload.locomitiveNo := None;
     SocketTrainPayload.lat := Some "30.1";
     SocketTrainPayload.lon := Some "70.2";
     SocketTrainPayload.last_updated := None;
     SocketTrainPayload.late_by := None;
     SocketTrainPayload.next_station := Some "17";
     SocketTrainPayload.next_stop := None;
     SocketTrainPayload.prev_station := None;
     SocketTrainPayload.sp := Some "45";
     SocketTrainPayload.isTrainStation := None;
     SocketTrainPayload.isTrainStop := None;
     SocketTrainPayload.isFlagged := None;
     SocketTrainPayload.icon := None;
     SocketTrainPayload.st := None;
     SocketTrainPayload.__last_updated := None |}.

(** A reading of the clock, in milliseconds. *)
Definition clock : Z := 1762000000000.
Definition minute : Z := 60000.

(** Two runs of the Karachi Express, one millisecond either side of the
    TTL at [clock]. *)
Definition staleRun : LiveTrainDelta.t :=
  probe "123" "9900" (JS.ofZ (clock - STALE_LIVE_RUN_TTL_MS - 1)) None
        (Some (JS.Fin 18)) (Some (JS.Fin 123)).
Definition freshRun : LiveTrainDelta.t :=
  probe "123" "0" (JS.ofZ (clock - STALE_LIVE_RUN_TTL_MS + 1)) None
        (Some (JS.Fin 18)) (Some (JS.Fin 123)).

Definition trackedTwice : TrainWithRoute.t :=
  TrainWithRoute.withLiveState karachiExpress true
    (Some [freshRun; staleRun]) (Some "123:9900") (Some staleRun)
    (Some rawalpindi) None.

Definition trackedOnce : TrainWithRoute.t :=
  TrainWithRoute.withLiveState karachiExpress true
    (Some [staleRun]) (Some "123:9900") (Some staleRun)
    (Some rawalpindi) None.

(** A store that has already attributed train key 123 to train 7. *)
Definition warmStore : StoreSlice :=
  {| trains := [karachiExpress; khyberMail];
     liveDeltas := ∅;
     trainKeyToId := {["123" := 7%Z]};
     selectedRunIds := ∅;
     unresolvedDeltas := ∅ |}.

(** A payload whose time stamp is not a number. *)
Definition unstampedPayload : SocketTrainPayload.t :=
  {| SocketTrainPayload.locomitiveNo := None;
     SocketTrainPayload.lat := Some "30.1";
     SocketTrainPayload.lon := Some "70.2";
     SocketTrainPayload.last_updated := Some "abc";
     SocketTrainPayload.late_by := None;
     SocketTrainPayload.next_station := None;
     SocketTrainPayload.next_stop := None;
     SocketTrainPayload.prev_station := None;
     SocketTrainPayload.sp := None;
     SocketTrainPayload.isTrainStation := None;
     SocketTrainPayload.isTrainStop := None;
     SocketTrainPayload.isFlagged := None;
     SocketTrainPayload.icon := None;
     SocketTrainPayload.st := None;
     SocketTrainPayload.__last_updated := None |}.

(** Four variants reported under train key 123: the first and the third
    with a time stamp, the second and the fourth without a usable one. *)
Definition variant (variantKey : string) (stamp : JS.num) : LiveTrainDelta.t :=
  probe "123" variantKey stamp None None (Some (JS.Fin 123)).

Definition firstReport : LiveTrainDelta.t :=
  variant "1" (JS.ofZ (clock - 3 * minute)).
Definition secondReport : LiveTrainDelta.t := variant "2" JS.NaN.
Definition thirdReport : LiveTrainDelta.t :=
  variant "3" (JS.ofZ (clock - 2 * minute)).
Definition fourthReport : LiveTrainDelta.t := variant "4" JS.NaN.
(** The second variant again, now with a time stamp, the latest of all. *)
Definition secondReportAgain : LiveTrainDelta.t :=
  variant "2" (JS.ofZ (clock - 1 * minute)).

(** The Karachi Express after the four reports, on V8. *)
Definition fourReports : TrainWithRoute.t :=
  fold_left (fun t delta => updateTrainWithDeltaBy (@V8.sort _) t delta None)
            [firstReport; secondReport; thirdReport; fourthReport]
            karachiExpress.

(** Integral numbers print in decimal; the samples use no others. *)
Definition printNumber (n : JS.num) : string :=
  match n with
  | JS.Fin q => pretty (Qnum q / Z.pos (Qden q))%Z
  | JS.NaN => "NaN"
  | JS.PosInf => "Infinity"
  | JS.NegInf => "-Infinity"
  end.

(** The samples carry no allocation date. *)
Definition printDate (s : string) : string := s.

(** A store whose only tracked train was last heard of just before the
    TTL, with the user's pin on that run. *)
Definition pinnedStore : StoreSlice :=
  {| trains := [trackedOnce; khyberMail];
     liveDeltas := {["123" := staleRun]};
     trainKeyToId := {["123" := 5%Z]};
     selectedRunIds := {[5%Z := "123:9900"]};
     unresolvedDeltas := ∅ |}.

(** A store tracking two runs of the Karachi Express, sources keyed 123
    attributed to it. *)
Definition busyStore : StoreSlice :=
  {| trains := [trackedTwice; khyberMail];
     liveDeltas := ∅;
     trainKeyToId := {["123" := 5%Z]};
     selectedRunIds := ∅;
     unresolvedDeltas := ∅ |}.

(** The same store with a delta nobody could attribute, last updated at
    the epoch. *)
Definition strandedStore : StoreSlice :=
  {| trains := trains busyStore;
     liveDeltas := liveDeltas busyStore;
     trainKeyToId := trainKeyToId busyStore;
     selectedRunIds := selectedRunIds busyStore;
     unresolvedDeltas :=
       {["x:y" := probe "x" "y" (JS.Fin 0) None None None]} |}.

End Samples.

(** * Properties *)

(** ** The scenarios of the design, run on the embedding *)

(** Train key 123 with variant 9900 resolves to train 5 by its number, and
    the upcoming stop is the route entry of station 17. *)
Example scenario_number_lookup :
  exists delta,
    parseSocketPayload Samples.clock "123" "9900" Samples.scenarioPayload
    = Some delta
    /\ LiveTrainDelta.speed delta = Some (JS.Fin 45)
    /\ findMatchingTrainId [Samples.khyberMail; Samples.karachiExpress] delta
       = Some 5%Z
    /\ TrainWithRoute.upcomingStop
         (updateTrainWithDelta Samples.karachiExpress delta None)
       = Some Samples.lahore.
Proof. eexists. split; [reflexivity|]. repeat split. Qed.

(** One train with locomotive LOCO-9 is resolved by it; two are not. *)
Example scenario_locomotive :
  findMatchingTrainId [Samples.khyberMail; Samples.karachiExpress]
    (Samples.probe "7" "1" (JS.ofZ Samples.clock) (Some "LOCO-9") None None)
  = Some 7%Z
  /\ findMatchingTrainId [Samples.khyberMail; Samples.awamExpress]
       (Samples.probe "7" "1" (JS.ofZ Samples.clock) (Some "LOCO-9") None None)
     = None.
Proof. split; reflexivity. Qed.

(** ** The insertion sort *)

Section SortFacts.
Context {A : Type} (cmp : A -> A -> JS.num).

Lemma insertSorted_Permutation (x : A) (acc : list A) :
  Permutation (JS.insertSorted cmp x acc) (x :: acc).
Proof.
  induction acc as [|y acc IH]; simpl.
  - reflexivity.
  - destruct (JS.gt0 (cmp y x)).
    + rewrite IH. apply perm_swap.
    + reflexivity.
Qed.

Lemma fold_insertSorted_Permutation (l acc : list A) :
  Permutation (fold_left (fun acc x => JS.insertSorted cmp x acc) l acc)
              (l ++ acc).
Proof.
  revert acc. induction l as [|x l IH]; intros acc; simpl.
  - reflexivity.
  - rewrite IH, insertSorted_Permutation. symmetry. apply Permutation_middle.
Qed.

Lemma sort_Permutation (l : list A) : Permutation (JS.sort cmp l) l.
Proof.
  unfold JS.sort, JS.sortedPrefix.
  rewrite <- Permutation_rev, fold_insertSorted_Permutation.
  now rewrite app_nil_r.
Qed.

Lemma sort_In (l : list A) (x : A) : In x (JS.sort cmp l) <-> In x l.
Proof.
  split; apply Permutation_in;
    [apply sort_Permutation | symmetry; apply sort_Permutation].
Qed.

(** Sorting an array with one more element at its end inserts that
    element into the sorted array. *)
Lemma sortedPrefix_snoc (l : list A) (x : A) :
  JS.sortedPrefix cmp (l ++ [x])
  = JS.insertSorted cmp x (JS.sortedPrefix cmp l).
Proof. unfold JS.sortedPrefix. now rewrite fold_left_app. Qed.

Lemma filter_insertSorted_out (p : A -> bool) (x : A) (acc : list A) :
  p x = false ->
  List.filter p (JS.insertSorted cmp x acc) = List.filter p acc.
Proof.
  intros Hx. induction acc as [|y acc IH]; simpl.
  - now rewrite Hx.
  - destruct (JS.gt0 (cmp y x)); simpl.
    + now rewrite IH.
    + now rewrite Hx.
Qed.

Lemma filter_all (p : A -> bool) (l : list A) :
  (forall x, In x l -> p x = true) -> List.filter p l = l.
Proof.
  induction l as [|y l IH]; intros Hall; simpl.
  - reflexivity.
  - rewrite (Hall y (or_introl eq_refl)). f_equal.
    apply IH. intros x Hin. apply Hall. now right.
Qed.

(** The comparator never places two elements after each other. *)
Hypothesis cmp_asym :
  forall a b, JS.gt0 (cmp a b) = true -> JS.gt0 (cmp b a) = false.

Lemma insertSorted_settled (x : A) (acc : list A) :
  settled cmp acc -> settled cmp (JS.insertSorted cmp x acc).
Proof.
  induction acc as [|y acc IH]; intros Hs.
  - simpl. auto.
  - simpl. destruct (JS.gt0 (cmp y x)) eqn:Hyx.
    + destruct Hs as [Hhead Hrest]. specialize (IH Hrest).
      split; [|exact IH].
      destruct acc as [|z acc]; simpl.
      * now apply cmp_asym.
      * destruct (JS.gt0 (cmp z x)); [exact Hhead | now apply cmp_asym].
    + split; [exact Hyx | exact Hs].
Qed.

Lemma fold_insertSorted_settled (l acc : list A) :
  settled cmp acc ->
  settled cmp (fold_left (fun acc x => JS.insertSorted cmp x acc) l acc).
Proof.
  revert acc. induction l as [|x l IH]; intros acc Hs; simpl.
  - exact Hs.
  - apply IH. now apply insertSorted_settled.
Qed.

Lemma sortedPrefix_settled (l : list A) : settled cmp (JS.sortedPrefix cmp l).
Proof. apply fold_insertSorted_settled. exact I. Qed.

(** An array the sort has produced is left as it is when sorted again. *)
Lemma sortedPrefix_rev_settled (acc : list A) :
  settled cmp acc -> JS.sortedPrefix cmp (List.rev acc) = acc.
Proof.
  induction acc as [|a acc IH]; intros Hs.
  - reflexivity.
  - destruct Hs as [Hhead Hrest].
    change (List.rev (a :: acc)) with (List.rev acc ++ [a]).
    rewrite sortedPrefix_snoc, (IH Hrest).
    destruct acc as [|b acc]; simpl.
    + reflexivity.
    + now rewrite Hhead.
Qed.

Lemma sort_sort (l : list A) : JS.sort cmp (JS.sort cmp l) = JS.sort cmp l.
Proof.
  unfold JS.sort at 1 3.
  f_equal. unfold JS.sort.
  apply sortedPrefix_rev_settled, sortedPrefix_settled.
Qed.
End SortFacts.

(** ** The resolver: ties (C1) *)

Lemma byScoreDesc_gt0 (a b : CandidateScore) :
  JS.gt0 (byScoreDesc a b) = true <-> (score a < score b)%Q.
Proof.
  unfold byScoreDesc, JS.gt0. rewrite negb_true_iff.
  split.
  - intros H. apply Qnot_le_lt. intros Hle.
    assert (Qle_bool (score b - score a) 0 = true) as Ht
      by (apply Qle_bool_iff; lra).
    congruence.
  - intros Hlt. destruct (Qle_bool (score b - score a) 0) eqn:E; [|reflexivity].
    apply Qle_bool_iff in E. lra.
Qed.

Lemma insertSorted_ascending (x : CandidateScore) (acc : list CandidateScore) :
  StronglySorted (fun a b => (score a <= score b)%Q) acc ->
  StronglySorted (fun a b => (score a <= score b)%Q)
                 (JS.insertSorted byScoreDesc x acc).
Proof.
  induction acc as [|y acc IH]; intros Hs; cbn [JS.insertSorted].
  - repeat constructor.
  - inversion Hs as [|? ? Hrest Hall]; subst.
    destruct (JS.gt0 (byScoreDesc y x)) eqn:Hyx.
    + apply byScoreDesc_gt0 in Hyx.
      constructor; [now apply IH|].
      apply List.Forall_forall. intros z Hz.
      apply (Permutation_in _ (insertSorted_Permutation byScoreDesc x acc)) in Hz.
      destruct Hz as [<-|Hz]; [lra|].
      rewrite List.Forall_forall in Hall. now apply Hall.
    + assert (score x <= score y)%Q as Hxy.
      { apply Qnot_lt_le. intros Hlt.
        apply byScoreDesc_gt0 in Hlt. congruence. }
      constructor; [exact Hs|].
      constructor; [exact Hxy|].
      apply List.Forall_forall. intros z Hz.
      rewrite List.Forall_forall in Hall. specialize (Hall z Hz). simpl in Hall. lra.
Qed.

Lemma sortedPrefix_ascending (l : list CandidateScore) :
  StronglySorted (fun a b => (score a <= score b)%Q)
                 (JS.sortedPrefix byScoreDesc l).
Proof.
  unfold JS.sortedPrefix.
  assert (forall acc,
    StronglySorted (fun a b => (score a <= score b)%Q) acc ->
    StronglySorted (fun a b => (score a <= score b)%Q)
      (fold_left (fun acc x => JS.insertSorted byScoreDesc x acc) l acc)) as Hgen.
  { induction l as [|x l IH]; intros acc Hs; simpl.
    - exact Hs.
    - apply IH. now apply insertSorted_ascending. }
  apply Hgen. constructor.
Qed.

(** The first candidate after the sort has the highest score. *)
Lemma sort_head_best (l : list CandidateScore) (best : CandidateScore)
    (rest : list CandidateScore) :
  JS.sort byScoreDesc l = best :: rest ->
  forall c, In c l -> (score c <= score best)%Q.
Proof.
  intros Hsort c Hc.
  apply (sort_In byScoreDesc) in Hc. rewrite Hsort in Hc.
  destruct Hc as [<-|Hc]; [lra|].
  unfold JS.sort in Hsort.
  apply (f_equal (@List.rev _)) in Hsort. rewrite rev_involutive in Hsort.
  simpl in Hsort.
  pose proof (sortedPrefix_ascending l) as Hs. rewrite Hsort in Hs.
  apply (StronglySorted_app_1_elem_of _ _ _ c best) in Hs.
  - exact Hs.
  - apply list_elem_of_In. now apply -> in_rev.
  - apply list_elem_of_In. now left.
Qed.

Lemma filter_length_Permutation {A : Type} (p : A -> bool) (l l' : list A) :
  Permutation l l' -> length (List.filter p l) = length (List.filter p l').
Proof.
  induction 1 as [|x l l' _ IH|x y l|l l' l'' _ IH1 _ IH2]; simpl.
  - reflexivity.
  - destruct (p x); simpl; congruence.
  - destruct (p x), (p y); reflexivity.
  - congruence.
Qed.

Lemma two_positions_filter {A : Type} (p : A -> bool) (l : list A)
    (i j : nat) (a b : A) :
  i <> j -> nth_error l i = Some a -> nth_error l j = Some b ->
  p a = true -> p b = true ->
  (1 < length (List.filter p l))%nat.
Proof.
  assert (forall (l : list A) k c, nth_error l k = Some c -> p c = true ->
            (0 < length (List.filter p l))%nat) as Hone.
  { clear. intros l k c Hk Hc.
    apply nth_error_In in Hk.
    assert (In c (List.filter p l)) as Hin by (apply filter_In; auto).
    destruct (List.filter p l); [destruct Hin | simpl; lia]. }
  revert i j. induction l as [|x l IH]; intros i j Hij Hi Hj Ha Hb.
  - destruct i; discriminate.
  - destruct i as [|i], j as [|j]; simpl in Hi, Hj.
    + congruence.
    + injection Hi as ->. simpl. rewrite Ha. simpl.
      specialize (Hone l j b Hj Hb). lia.
    + injection Hj as ->. simpl. rewrite Hb. simpl.
      specialize (Hone l i a Hi Ha). lia.
    + assert (i <> j) as Hij' by congruence.
      specialize (IH i j Hij' Hi Hj Ha Hb).
      simpl. destruct (p x); simpl; lia.
Qed.

Lemma bestNotAboveSecond_shared (candidates : list CandidateScore) :
  bestNotAboveSecond candidates -> topScoreShared candidates.
Proof.
  intros (i & j & best & second & Hij & Hi & Hj & Hmax & Hle).
  exists (score best). split; [exact Hmax|].
  apply (two_positions_filter _ _ i j best second Hij Hi Hj).
  - apply Qeq_bool_iff. reflexivity.
  - apply Qeq_bool_iff.
    specialize (Hmax second (nth_error_In _ _ Hj)). lra.
Qed.

Lemma pickBest_shared (candidates : list CandidateScore) :
  topScoreShared candidates -> pickBest candidates = None.
Proof.
  intros (m & Hmax & Hcount).
  unfold pickBest.
  destruct (length candidates =? 0)%nat; [reflexivity|].
  destruct (JS.sort byScoreDesc candidates) as [|best rest] eqn:Hsort;
    [reflexivity|].
  destruct (Qle_bool (score best) 0); [reflexivity|].
  assert (score best == m)%Q as Hbest.
  { apply Qle_antisym.
    - apply Hmax. apply (sort_In byScoreDesc). rewrite Hsort. now left.
    - destruct (List.filter (fun c => Qeq_bool (score c) m) candidates)
        as [|c0 others] eqn:Hf; [simpl in Hcount; lia|].
      assert (In c0 (c0 :: others)) as Hin by now left.
      rewrite <- Hf in Hin. apply filter_In in Hin as [Hin Heq].
      apply Qeq_bool_iff in Heq.
      pose proof (sort_head_best _ _ _ Hsort c0 Hin). lra. }
  assert (List.filter (fun c => Qeq_bool (score c) (score best)) (best :: rest)
          = List.filter (fun c => Qeq_bool (score c) m) (best :: rest)) as ->.
  { apply filter_ext. intros c.
    destruct (Qeq_bool (score c) m) eqn:E.
    - apply Qeq_bool_iff in E. apply Qeq_bool_iff. lra.
    - destruct (Qeq_bool (score c) (score best)) eqn:E'; [|reflexivity].
      apply Qeq_bool_iff in E'.
      assert (Qeq_bool (score c) m = true) by (apply Qeq_bool_iff; lra).
      congruence. }
  rewrite <- Hsort.
  rewrite (filter_length_Permutation _ _ _ (sort_Permutation byScoreDesc candidates)).
  apply Nat.ltb_lt in Hcount. now rewrite Hcount.
Qed.

(** C1. When the train-number lookup does not settle a delta and the highest
    positive score is held by more than one candidate, or a best candidate
    does not strictly exceed the best of the others, [findMatchingTrainId]
    returns [undefined]: none of the tied candidates is returned. *)
Theorem tie_is_unresolved (trains : list TrainWithRoute.t)
    (delta : LiveTrainDelta.t) :
  numberMatch trains delta = None ->
  topScoreShared (scoredCandidates trains delta)
  \/ bestNotAboveSecond (scoredCandidates trains delta) ->
  findMatchingTrainId trains delta = None.
Proof.
  intros Hnumber Htie.
  unfold findMatchingTrainId. rewrite Hnumber.
  apply pickBest_shared.
  destruct Htie as [Hshared|Hsecond].
  - exact Hshared.
  - now apply bestNotAboveSecond_shared.
Qed.

Lemma tie_is_unresolved_witness :
  findMatchingTrainId [Samples.khyberMail; Samples.awamExpress]
    (Samples.probe "7" "1" (JS.ofZ Samples.clock) (Some "LOCO-9") None None)
  = None.
Proof.
  apply tie_is_unresolved.
  - reflexivity.
  - left. exists 10%Q. split.
    + intros c Hc. vm_compute in Hc.
      destruct Hc as [<-|[<-|[]]]; unfold Qle; simpl; lia.
    + vm_compute. lia.
Defined.

(** ** The resolver: train-number lookup (C2) *)

Lemma find_first {A : Type} (p : A -> bool) (l : list A) (i : nat) (x : A) :
  nth_error l i = Some x -> p x = true ->
  (forall j y, (j < i)%nat -> nth_error l j = Some y -> p y = false) ->
  List.find p l = Some x.
Proof.
  revert i. induction l as [|a l IH]; intros i Hi Hx Hbefore.
  - destruct i; discriminate.
  - destruct i as [|i]; simpl in Hi |- *.
    + injection Hi as ->. now rewrite Hx.
    + rewrite (Hbefore O a); [|lia|reflexivity].
      apply (IH i Hi Hx). intros j y Hj Hy.
      apply (Hbefore (S j) y); [lia|exact Hy].
Qed.

Lemma find_none {A : Type} (p : A -> bool) (l : list A) :
  (forall y, In y l -> p y = false) -> List.find p l = None.
Proof.
  induction l as [|a l IH]; intros Hall; simpl.
  - reflexivity.
  - rewrite (Hall a (or_introl eq_refl)). apply IH.
    intros y Hy. apply Hall. now right.
Qed.

(** C2, as the code has it.  The lookup by train number settles a delta,
    without any scoring, exactly when the delta carries a finite
    train-number hint and at least one train has that number; the train
    returned is the first one in collection order with that number, whether
    or not other trains share it. *)
Theorem number_lookup_takes_first (trains : list TrainWithRoute.t)
    (delta : LiveTrainDelta.t) :
  (forall (i : nat) (t : TrainWithRoute.t),
     JS.isFiniteOpt (LiveTrainDelta.trainNumber delta) = true ->
     nth_error trains i = Some t ->
     idEq (TrainWithRoute.TrainNumber t) (LiveTrainDelta.trainNumber delta) = true ->
     (forall j t', (j < i)%nat -> nth_error trains j = Some t' ->
        idEq (TrainWithRoute.TrainNumber t') (LiveTrainDelta.trainNumber delta)
        = false) ->
     findMatchingTrainId trains delta = Some (TrainWithRoute.TrainId t))
  /\
  (JS.isFiniteOpt (LiveTrainDelta.trainNumber delta) = false
   \/ (forall t, In t trains ->
         idEq (TrainWithRoute.TrainNumber t) (LiveTrainDelta.trainNumber delta)
         = false) ->
   findMatchingTrainId trains delta = pickBest (scoredCandidates trains delta)).
Proof.
  split.
  - intros i t Hfinite Hi Hnumber Hbefore.
    unfold findMatchingTrainId, numberMatch. rewrite Hfinite.
    now rewrite (find_first _ _ i t Hi Hnumber Hbefore).
  - intros [Hnone|Hnone]; unfold findMatchingTrainId, numberMatch.
    + now rewrite Hnone.
    + destruct (JS.isFiniteOpt (LiveTrainDelta.trainNumber delta));
        [|reflexivity].
      now rewrite (find_none _ _ Hnone).
Qed.

Lemma number_lookup_takes_first_witness :
  findMatchingTrainId [Samples.karachiExpress; Samples.karachiRelief]
    (Samples.probe "123" "9900" (JS.ofZ Samples.clock) None None
                   (Some (JS.Fin 123)))
  = Some 5%Z.
Proof.
  apply (proj1 (number_lookup_takes_first
                  [Samples.karachiExpress; Samples.karachiRelief]
                  (Samples.probe "123" "9900" (JS.ofZ Samples.clock) None None
                                 (Some (JS.Fin 123))))
               O Samples.karachiExpress).
  - reflexivity.
  - reflexivity.
  - reflexivity.
  - intros j t' Hj. lia.
Defined.

(** C2, as stated, fails: two trains share number 123, the delta carries
    that number and no other evidence (no candidate scores above zero),
    and the resolver returns the first of the two. *)
Lemma shared_number_first_wins :
  let shared := [Samples.karachiExpress; Samples.karachiRelief] in
  let delta :=
    Samples.probe "123" "9900" (JS.ofZ Samples.clock) None None
                  (Some (JS.Fin 123)) in
  List.map TrainWithRoute.TrainNumber shared = [123%Z; 123%Z]
  /\ scoredCandidates shared delta = []
  /\ findMatchingTrainId shared delta = Some 5%Z.
Proof. repeat split. Qed.

(** ** The resolver: evidence weights (C3) *)

Ltac sum_weights :=
  repeat match goal with
         | |- context [if ?b then _ else _] => destruct b
         end;
  unfold weight, credit; simpl; lra.

Lemma credit_weight (holds : bool) (w : Q) (tag : string)
    (acc : Q * list string) :
  (fst (if holds then credit w tag acc else acc) == fst acc + weight w holds)%Q.
Proof. destruct holds; unfold credit, weight; simpl; lra. Qed.

Lemma locomotive_guard (delta : LiveTrainDelta.t) (t : TrainWithRoute.t) :
  truthyStr (LiveTrainDelta.locomitiveNo delta)
  && truthyStr (TrainWithRoute.LocomotiveNumber t)
  && strOptEq (LiveTrainDelta.locomitiveNo delta)
              (TrainWithRoute.LocomotiveNumber t)
  = locomotiveMatches JS.nonEmpty delta t.
Proof.
  unfold locomotiveMatches.
  destruct (LiveTrainDelta.locomitiveNo delta) as [a|],
           (TrainWithRoute.LocomotiveNumber t) as [b|]; simpl;
    try reflexivity.
  - destruct (String.eqb a b) eqn:E.
    + apply String.eqb_eq in E. subst b.
      destruct (JS.nonEmpty a); reflexivity.
    + now rewrite !andb_false_r.
  - now rewrite andb_false_r.
Qed.

Lemma find_stationPosition (route : list TrainStop.t) (n : JS.num) :
  found (List.find (fun stop => idEq (TrainStop.StationId stop) (Some n)) route)
  = found (stationPosition route n).
Proof.
  induction route as [|stop rest IH]; cbn [List.find stationPosition].
  - reflexivity.
  - change (idEq (TrainStop.StationId stop) (Some n))
      with (JS.strictEq (JS.ofZ (TrainStop.StationId stop)) n).
    destruct (JS.strictEq (JS.ofZ (TrainStop.StationId stop)) n).
    + reflexivity.
    + rewrite IH. now destruct (stationPosition rest n).
Qed.

Lemma lookup_guard (t : TrainWithRoute.t) (stationId : option JS.num) :
  found (if truthyNum stationId
         then findStopByStationId (TrainWithRoute.route t) stationId
         else None)
  = stationInRoute JS.truthy t stationId.
Proof.
  unfold findStopByStationId, stationInRoute.
  destruct stationId as [n|]; simpl; [|reflexivity].
  destruct (JS.truthy n); simpl; [|reflexivity].
  apply find_stationPosition.
Qed.

Lemma findIndexFrom_position (i : Z) (route : list TrainStop.t) (n : JS.num) :
  findIndexFrom i route (Some n)
  = match stationPosition route n with
    | Some k => (i + Z.of_nat k)%Z
    | None => (-1)%Z
    end.
Proof.
  revert i. induction route as [|stop rest IH]; intros i;
    cbn [findIndexFrom stationPosition].
  - reflexivity.
  - change (idEq (TrainStop.StationId stop) (Some n))
      with (JS.strictEq (JS.ofZ (TrainStop.StationId stop)) n).
    destruct (JS.strictEq (JS.ofZ (TrainStop.StationId stop)) n).
    + lia.
    + rewrite IH. destruct (stationPosition rest n); simpl; [lia|reflexivity].
Qed.

Lemma order_guard (delta : LiveTrainDelta.t) (t : TrainWithRoute.t) :
  stationInRoute JS.truthy t (LiveTrainDelta.nextStationId delta) = true ->
  stationInRoute JS.truthy t (LiveTrainDelta.prevStationId delta) = true ->
  (let nextIndex :=
     findIndex (TrainWithRoute.route t) (LiveTrainDelta.nextStationId delta) in
   let prevIndex :=
     findIndex (TrainWithRoute.route t) (LiveTrainDelta.prevStationId delta) in
   negb (prevIndex =? -1)%Z && negb (nextIndex =? -1)%Z
   && (prevIndex <? nextIndex)%Z)
  = previousPrecedesNext delta t.
Proof.
  unfold stationInRoute, previousPrecedesNext, findIndex.
  destruct (LiveTrainDelta.nextStationId delta) as [n|]; [|discriminate].
  destruct (LiveTrainDelta.prevStationId delta) as [p|]; [|discriminate].
  rewrite !findIndexFrom_position.
  destruct (stationPosition (TrainWithRoute.route t) n) as [j|];
    [|rewrite andb_false_r; discriminate].
  destruct (stationPosition (TrainWithRoute.route t) p) as [i|];
    [|rewrite andb_false_r; discriminate].
  intros _ _. cbv zeta.
  destruct (Nat.ltb_spec i j);
    repeat match goal with
    | |- context [(?a =? ?b)%Z] => destruct (Z.eqb_spec a b); try lia
    | |- context [(?a <? ?b)%Z] => destruct (Z.ltb_spec a b); try lia
    end; reflexivity.
Qed.

Lemma direction_guard (delta : LiveTrainDelta.t) (t : TrainWithRoute.t)
    (acc : Q * list string) :
  match directionFlagOf delta with
  | Some flag =>
      if Bool.eqb (TrainWithRoute.IsUp t) flag
      then credit 1 "direction" acc else acc
  | None => acc
  end
  = if directionMatches delta t then credit 1 "direction" acc else acc.
Proof.
  unfold directionFlagOf, directionMatches.
  destruct (LiveTrainDelta.direction delta), (TrainWithRoute.IsUp t);
    reflexivity.
Qed.

Lemma name_guard (delta : LiveTrainDelta.t) (t : TrainWithRoute.t)
    (acc : Q * list string) :
  (fst
     match LiveTrainDelta.nextStopName delta with
     | Some name =>
         if JS.nonEmpty name then
           if List.existsb
                (fun stop =>
                   String.eqb (JS.toLowerCase (TrainStop.StationName stop))
                              (JS.toLowerCase name))
                (TrainWithRoute.route t)
           then credit 0.5 "nextStopName" acc
           else if JS.includes (JS.toLowerCase (TrainWithRoute.TrainName t))
                               (JS.toLowerCase name)
           then credit 0.25 "trainNameHint" acc
           else acc
         else acc
     | None => acc
     end
   == fst acc
      + (if stopNameMatches JS.nonEmpty delta t then 0.5
         else if trainNameContains JS.nonEmpty delta t then 0.25 else 0))%Q.
Proof.
  unfold stopNameMatches, trainNameContains.
  destruct (LiveTrainDelta.nextStopName delta) as [name|]; [|simpl; lra].
  destruct (JS.nonEmpty name); [|simpl; lra].
  destruct (List.existsb _ _); [simpl; lra|].
  destruct (JS.includes _ _); simpl; lra.
Qed.

(** C3, as the code has it.  The score of a (Train, Delta) pair is the sum
    of the stated weights, where a station id of zero (or NaN) and an empty
    locomotive identifier or next-stop name count as absent and earn
    nothing; the candidates kept are exactly the trains whose score is
    above zero. *)
Theorem score_is_guarded_evidence (delta : LiveTrainDelta.t) :
  (forall t : TrainWithRoute.t,
     (score (scoreCandidate delta (directionFlagOf delta) t)
      == guardedScore delta t)%Q)
  /\
  (forall (trains : list TrainWithRoute.t) (c : CandidateScore),
     In c (scoredCandidates trains delta) <->
     exists t, In t trains
               /\ c = scoreCandidate delta (directionFlagOf delta) t
               /\ (0 < guardedScore delta t)%Q).
Proof.
  assert (forall t : TrainWithRoute.t,
     (score (scoreCandidate delta (directionFlagOf delta) t)
      == guardedScore delta t)%Q) as Hscore.
  { intros t. unfold scoreCandidate, guardedScore, evidenceScore.
    cbv zeta. cbn [score].
    rewrite name_guard, direction_guard, credit_weight.
    rewrite !lookup_guard, locomotive_guard.
    destruct (stationInRoute JS.truthy t (LiveTrainDelta.nextStationId delta))
      eqn:Hnext;
    destruct (stationInRoute JS.truthy t (LiveTrainDelta.prevStationId delta))
      eqn:Hprev; cbn [andb].
    - pose proof (order_guard delta t Hnext Hprev) as Horder.
      cbv zeta in Horder. rewrite Horder.
      destruct (previousPrecedesNext delta t); sum_weights.
    - sum_weights.
    - sum_weights.
    - sum_weights. }
  split; [exact Hscore|].
  intros trains c. unfold scoredCandidates.
  rewrite filter_In, in_map_iff. split.
  - intros [(t & <- & Hin) Hpos]. exists t. repeat split; [exact Hin|].
    rewrite <- (Hscore t). apply Qnot_le_lt. intros Hle.
    apply Qle_bool_iff in Hle. rewrite Hle in Hpos. discriminate.
  - intros (t & Hin & -> & Hpos). split; [now exists t|].
    rewrite <- (Hscore t) in Hpos.
    destruct (Qle_bool _ 0) eqn:E; [|reflexivity].
    apply Qle_bool_iff in E. lra.
Qed.

(** C3, as stated, fails: station 0 is on the route and is the delta's next
    station, yet the pair scores 0 where the stated weights give 4; and an
    empty next-stop name, a substring of any train name, earns nothing
    where the stated weights give 0.25. *)
Lemma zero_station_id_earns_nothing :
  let delta :=
    Samples.probe "900" "1" (JS.ofZ Samples.clock) None (Some (JS.Fin 0)) None in
  List.map TrainStop.StationId (TrainWithRoute.route Samples.yardShuttle) = [0%Z]
  /\ (score (scoreCandidate delta (directionFlagOf delta) Samples.yardShuttle)
      == 0)%Q
  /\ (statedScore delta Samples.yardShuttle == 4)%Q
  /\ scoredCandidates [Samples.yardShuttle] delta = []
  /\ (score (scoreCandidate Samples.emptyNameProbe
                (directionFlagOf Samples.emptyNameProbe) Samples.karachiExpress)
      == 0)%Q
  /\ (statedScore Samples.emptyNameProbe Samples.karachiExpress == 0.25)%Q.
Proof. repeat split. Qed.

(** ** Numbers: comparisons after a subtraction *)

Lemma overflow_bound_large : (1000000 < JS.overflow_bound)%Q.
Proof. vm_compute. reflexivity. Qed.

Lemma round_positive (x : Q) :
  JS.gt0 (JS.round x) = negb (Qle_bool x 0).
Proof.
  pose proof overflow_bound_large as Hb.
  unfold JS.round.
  destruct (Qle_bool JS.overflow_bound (Qabs x)) eqn:Hover; [|reflexivity].
  apply Qle_bool_iff in Hover.
  destruct (Qle_bool 0 x) eqn:Hsign; simpl.
  - apply Qle_bool_iff in Hsign.
    rewrite (Qabs_pos x Hsign) in Hover.
    destruct (Qle_bool x 0) eqn:E; [|reflexivity].
    apply Qle_bool_iff in E. lra.
  - destruct (Qle_bool x 0) eqn:E; [reflexivity|].
    assert (0 <= x)%Q as Hpos.
    { apply Qnot_lt_le. intros Hlt.
      assert (Qle_bool x 0 = true) by (apply Qle_bool_iff; lra). congruence. }
    apply Qle_bool_iff in Hpos. congruence.
Qed.

(** [x <= c] after rounding, for a bound [c] well inside the finite range. *)
Lemma round_le (x c : Q) :
  (0 <= c)%Q -> (c <= 1000000)%Q ->
  JS.le (JS.round x) (JS.Fin c) = Qle_bool x c.
Proof.
  intros Hc0 Hc1. pose proof overflow_bound_large as Hb.
  unfold JS.round.
  destruct (Qle_bool JS.overflow_bound (Qabs x)) eqn:Hover; [|reflexivity].
  apply Qle_bool_iff in Hover.
  destruct (Qle_bool 0 x) eqn:Hsign; simpl.
  - apply Qle_bool_iff in Hsign.
    rewrite (Qabs_pos x Hsign) in Hover.
    destruct (Qle_bool x c) eqn:E; [|reflexivity].
    apply Qle_bool_iff in E. lra.
  - destruct (Qle_bool x c) eqn:E; [reflexivity|].
    assert (x <= 0)%Q as Hneg.
    { apply Qnot_lt_le. intros Hlt.
      assert (Qle_bool 0 x = true) by (apply Qle_bool_iff; lra). congruence. }
    assert (Qle_bool x c = true) by (apply Qle_bool_iff; lra). congruence.
Qed.

Lemma byLastUpdatedDesc_asym (a b : LiveTrainDelta.t) :
  JS.gt0 (byLastUpdatedDesc a b) = true ->
  JS.gt0 (byLastUpdatedDesc b a) = false.
Proof.
  unfold byLastUpdatedDesc, JS.sub.
  destruct (LiveTrainDelta.lastUpdated a) as [| | |p],
           (LiveTrainDelta.lastUpdated b) as [| | |q];
    simpl; try discriminate; try reflexivity.
  rewrite !round_positive. intros H.
  apply negb_true_iff in H. apply negb_false_iff.
  apply Qle_bool_iff.
  apply Qnot_lt_le. intros Hlt.
  assert (Qle_bool (q - p) 0 = true) by (apply Qle_bool_iff; lra).
  congruence.
Qed.

(** ** The staleness sweep: freshness of a run *)

Lemma ttl_value : inject_Z STALE_LIVE_RUN_TTL_MS == 600000.
Proof. reflexivity. Qed.

Lemma isRunFresh_finite (run : LiveTrainDelta.t) (now : Z) (q : Q) :
  LiveTrainDelta.lastUpdated run = JS.Fin q ->
  isRunFresh run now
  = Qle_bool (inject_Z now - q) (inject_Z STALE_LIVE_RUN_TTL_MS).
Proof.
  intros Hq. unfold isRunFresh. rewrite Hq. unfold JS.ofZ, JS.sub.
  apply round_le; rewrite ttl_value; lra.
Qed.

Lemma olderThanTTL_not_fresh (run : LiveTrainDelta.t) (now : Z) :
  olderThanTTL run now -> isRunFresh run now = false.
Proof.
  unfold olderThanTTL.
  destruct (LiveTrainDelta.lastUpdated run) as [| | |q] eqn:Hq;
    try contradiction.
  - intros _. unfold isRunFresh. now rewrite Hq.
  - intros Hold. rewrite (isRunFresh_finite run now q Hq).
    destruct (Qle_bool _ _) eqn:E; [|reflexivity].
    apply Qle_bool_iff in E. lra.
Qed.

Lemma fresh_not_olderThanTTL (run : LiveTrainDelta.t) (now : Z) :
  isRunFresh run now = true -> ~ olderThanTTL run now.
Proof.
  intros Hfresh Hold. apply olderThanTTL_not_fresh in Hold. congruence.
Qed.

Lemma filter_same_length {A : Type} (p : A -> bool) (l : list A) :
  length (List.filter p l) = length l -> List.filter p l = l.
Proof.
  induction l as [|x l IH]; simpl; [reflexivity|].
  destruct (p x); simpl; intros Hlen.
  - f_equal. apply IH. lia.
  - pose proof (filter_length_le p l). lia.
Qed.

Lemma resetTrainLiveState_runs (t : TrainWithRoute.t) :
  runsOf (resetTrainLiveState t) = [].
Proof.
  unfold resetTrainLiveState, hasNoLiveState, runsOf.
  destruct (found (TrainWithRoute.livePosition t)); simpl; [reflexivity|].
  destruct (default [] (TrainWithRoute.liveRuns t)) as [|r rs] eqn:Hruns;
    simpl; [|reflexivity].
  destruct (truthyStr (TrainWithRoute.selectedRunId t)); simpl; [reflexivity|].
  destruct (TrainWithRoute.IsLive t); simpl; [reflexivity|exact Hruns].
Qed.

(** What a sweep leaves of a train's runs: the fresh ones, in order. *)
Lemma sanitizeTrainLiveState_runs (t : TrainWithRoute.t) (now : Z) :
  runsOf (sanitizeTrainLiveState t now)
  = List.filter (fun run => isRunFresh run now) (runsOf t).
Proof.
  unfold sanitizeTrainLiveState.
  destruct (TrainWithRoute.liveRuns t) as [runs|] eqn:Hruns.
  - replace (runsOf t) with runs by (unfold runsOf; now rewrite Hruns).
    destruct (length runs =? 0)%nat eqn:Hlen.
    + apply Nat.eqb_eq in Hlen. destruct runs; [|discriminate].
      apply resetTrainLiveState_runs.
    + destruct (List.filter (fun run => isRunFresh run now) runs)
        as [|first others] eqn:Hfresh.
      * apply resetTrainLiveState_runs.
      * match goal with
        | |- context [if negb ?b then _ else _] => destruct b eqn:Hreq
        end; simpl.
        -- reflexivity.
        -- unfold runsOf. rewrite Hruns. simpl.
           repeat (apply orb_false_elim in Hreq as [Hreq _]).
           apply negb_false_iff, Nat.eqb_eq in Hreq.
           rewrite <- Hfresh in Hreq |- *. symmetry.
           now apply filter_same_length.
  - replace (runsOf t) with (@nil LiveTrainDelta.t)
      by (unfold runsOf; now rewrite Hruns).
    apply resetTrainLiveState_runs.
Qed.

Lemma sanitizeTrainLiveState_TrainId (t : TrainWithRoute.t) (now : Z) :
  TrainWithRoute.TrainId (sanitizeTrainLiveState t now) = TrainWithRoute.TrainId t.
Proof.
  unfold sanitizeTrainLiveState, resetTrainLiveState.
  repeat match goal with
         | |- context [match ?x with _ => _ end] => destruct x
         end; reflexivity.
Qed.

(** C4. With a TTL of ten minutes, one sweep at time [now] removes from a
    train's run set every run last updated at [now - TTL - 1] ms and keeps
    every run last updated at [now - TTL + 1] ms. *)
Theorem sweep_evicts_by_ttl (trains : list TrainWithRoute.t) (now : Z)
    (i : nat) (t : TrainWithRoute.t) :
  nth_error trains i = Some t ->
  exists t',
    nth_error (stripStaleLiveData trains now) i = Some t'
    /\ TrainWithRoute.TrainId t' = TrainWithRoute.TrainId t
    /\ (forall run, In run (runsOf t) ->
          LiveTrainDelta.lastUpdated run
          = JS.ofZ (now - STALE_LIVE_RUN_TTL_MS - 1) ->
          ~ In run (runsOf t'))
    /\ (forall run, In run (runsOf t) ->
          LiveTrainDelta.lastUpdated run
          = JS.ofZ (now - STALE_LIVE_RUN_TTL_MS + 1) ->
          In run (runsOf t')).
Proof.
  intros Hi. exists (sanitizeTrainLiveState t now).
  split; [|split; [|split]].
  - unfold stripStaleLiveData.
    exact (map_nth_error (fun t => sanitizeTrainLiveState t now) i trains Hi).
  - apply sanitizeTrainLiveState_TrainId.
  - intros run _ Hstamp Hin.
    rewrite sanitizeTrainLiveState_runs in Hin.
    apply filter_In in Hin as [_ Hfresh].
    rewrite (isRunFresh_finite run now _ Hstamp) in Hfresh.
    apply Qle_bool_iff in Hfresh.
    unfold Z.sub in Hfresh.
    rewrite !inject_Z_plus, !inject_Z_opp in Hfresh.
    change (inject_Z 1) with 1%Q in Hfresh. lra.
  - intros run Hin Hstamp.
    rewrite sanitizeTrainLiveState_runs. apply filter_In. split; [exact Hin|].
    rewrite (isRunFresh_finite run now _ Hstamp).
    apply Qle_bool_iff.
    unfold Z.sub.
    rewrite !inject_Z_plus, !inject_Z_opp.
    change (inject_Z 1) with 1%Q. lra.
Qed.

Lemma sweep_evicts_by_ttl_witness :
  exists t',
    nth_error (stripStaleLiveData [Samples.trackedTwice] Samples.clock) 0
    = Some t'
    /\ TrainWithRoute.TrainId t' = 5%Z
    /\ (forall run, In run (runsOf Samples.trackedTwice) ->
          LiveTrainDelta.lastUpdated run
          = JS.ofZ (Samples.clock - STALE_LIVE_RUN_TTL_MS - 1) ->
          ~ In run (runsOf t'))
    /\ (forall run, In run (runsOf Samples.trackedTwice) ->
          LiveTrainDelta.lastUpdated run
          = JS.ofZ (Samples.clock - STALE_LIVE_RUN_TTL_MS + 1) ->
          In run (runsOf t')).
Proof.
  exact (sweep_evicts_by_ttl [Samples.trackedTwice] Samples.clock 0
           Samples.trackedTwice eq_refl).
Defined.

(** ** The staleness sweep: reset of a train without runs (C5) *)

Lemma filter_none {A : Type} (p : A -> bool) (l : list A) :
  (forall x, In x l -> p x = false) -> List.filter p l = [].
Proof.
  induction l as [|a l IH]; intros Hall; simpl.
  - reflexivity.
  - rewrite (Hall a (or_introl eq_refl)). apply IH.
    intros x Hx. apply Hall. now right.
Qed.

Lemma reset_leaves_nothing_live (t : TrainWithRoute.t) :
  TrainWithRoute.livePosition (resetTrainLiveState t) = None
  /\ truthyStr (TrainWithRoute.selectedRunId (resetTrainLiveState t)) = false
  /\ TrainWithRoute.IsLive (resetTrainLiveState t) = false.
Proof.
  unfold resetTrainLiveState.
  destruct (hasNoLiveState t) eqn:Hnone; [|repeat split].
  unfold hasNoLiveState in Hnone.
  apply andb_prop in Hnone as [Hnone Hlive].
  apply andb_prop in Hnone as [Hnone Hsel].
  apply andb_prop in Hnone as [Hpos _].
  repeat split.
  - destruct (TrainWithRoute.livePosition t); [discriminate|reflexivity].
  - now apply negb_true_iff in Hsel.
  - now apply negb_true_iff in Hlive.
Qed.

Lemma sanitize_empty_nothing_live (t : TrainWithRoute.t) (now : Z) :
  runsOf (sanitizeTrainLiveState t now) = [] ->
  TrainWithRoute.livePosition (sanitizeTrainLiveState t now) = None
  /\ truthyStr (TrainWithRoute.selectedRunId (sanitizeTrainLiveState t now))
     = false
  /\ TrainWithRoute.IsLive (sanitizeTrainLiveState t now) = false.
Proof.
  unfold sanitizeTrainLiveState.
  destruct (TrainWithRoute.liveRuns t) as [runs|] eqn:Hruns.
  - destruct (length runs =? 0)%nat eqn:Hlen.
    + intros _. apply reset_leaves_nothing_live.
    + destruct (List.filter (fun run => isRunFresh run now) runs)
        as [|first others] eqn:Hfresh.
      * intros _. apply reset_leaves_nothing_live.
      * match goal with
        | |- context [if negb ?b then _ else _] => destruct b
        end; simpl; unfold runsOf; simpl; [discriminate|].
        rewrite Hruns. simpl. intros ->. discriminate.
  - intros _. apply reset_leaves_nothing_live.
Qed.

(** C5, as the code has it.  When a sweep removes a train's last remaining
    run, the run set, [selectedRunId], [livePosition], [previousStop] and
    the is-live flag are cleared together and [upcomingStop] is put back to
    the first stop of the train's route (absent only for an empty route);
    and after any sweep a train whose run set is empty has no
    [livePosition], no [selectedRunId] and is not live. *)
Theorem last_run_removed_resets (t : TrainWithRoute.t) (now : Z) :
  (runsOf t <> [] ->
   (forall run, In run (runsOf t) -> isRunFresh run now = false) ->
   TrainWithRoute.liveRuns (sanitizeTrainLiveState t now) = None
   /\ TrainWithRoute.selectedRunId (sanitizeTrainLiveState t now) = None
   /\ TrainWithRoute.livePosition (sanitizeTrainLiveState t now) = None
   /\ TrainWithRoute.previousStop (sanitizeTrainLiveState t now) = None
   /\ TrainWithRoute.IsLive (sanitizeTrainLiveState t now) = false
   /\ TrainWithRoute.upcomingStop (sanitizeTrainLiveState t now)
      = List.head (TrainWithRoute.route t))
  /\
  (runsOf (sanitizeTrainLiveState t now) = [] ->
   TrainWithRoute.livePosition (sanitizeTrainLiveState t now) = None
   /\ truthyStr (TrainWithRoute.selectedRunId (sanitizeTrainLiveState t now))
      = false
   /\ TrainWithRoute.IsLive (sanitizeTrainLiveState t now) = false).
Proof.
  split; [|apply sanitize_empty_nothing_live].
  intros Hsome Hstale.
  unfold sanitizeTrainLiveState.
  unfold runsOf in Hsome, Hstale.
  destruct (TrainWithRoute.liveRuns t) as [runs|] eqn:Hruns;
    [|now destruct Hsome].
  simpl in Hsome, Hstale.
  destruct runs as [|r rs]; [now destruct Hsome|].
  cbn [length Nat.eqb].
  rewrite (filter_none (fun run => isRunFresh run now) (r :: rs) Hstale).
  unfold resetTrainLiveState, hasNoLiveState. rewrite Hruns. simpl.
  rewrite andb_false_r. simpl. repeat split.
Qed.

Lemma last_run_removed_resets_witness :
  TrainWithRoute.liveRuns (sanitizeTrainLiveState Samples.trackedOnce Samples.clock)
  = None
  /\ TrainWithRoute.selectedRunId
       (sanitizeTrainLiveState Samples.trackedOnce Samples.clock) = None
  /\ TrainWithRoute.livePosition
       (sanitizeTrainLiveState Samples.trackedOnce Samples.clock) = None
  /\ TrainWithRoute.previousStop
       (sanitizeTrainLiveState Samples.trackedOnce Samples.clock) = None
  /\ TrainWithRoute.IsLive
       (sanitizeTrainLiveState Samples.trackedOnce Samples.clock) = false
  /\ TrainWithRoute.upcomingStop
       (sanitizeTrainLiveState Samples.trackedOnce Samples.clock)
     = List.head (TrainWithRoute.route Samples.trackedOnce).
Proof.
  apply (proj1 (last_run_removed_resets Samples.trackedOnce Samples.clock)).
  - discriminate.
  - intros run [<-|[]]. vm_compute. reflexivity.
Defined.

(** C5, as stated, fails: the sweep removes the only run of the train, and
    [upcomingStop] is not cleared; it goes from the stop the run pointed at
    back to the first stop of the route. *)
Lemma upcoming_stop_survives_reset :
  runsOf Samples.trackedOnce = [Samples.staleRun]
  /\ TrainWithRoute.upcomingStop Samples.trackedOnce = Some Samples.rawalpindi
  /\ runsOf (sanitizeTrainLiveState Samples.trackedOnce Samples.clock) = []
  /\ TrainWithRoute.upcomingStop
       (sanitizeTrainLiveState Samples.trackedOnce Samples.clock)
     = Some Samples.lahore.
Proof. repeat split. Qed.

(** ** The run merger: merging a delta twice (C6) *)

Lemma hasId_own (run : LiveTrainDelta.t) : hasId (LiveTrainDelta.id run) run = true.
Proof. unfold hasId. apply String.eqb_refl. Qed.

Lemma mergeRuns_shape (runs : list LiveTrainDelta.t) (nd : LiveTrainDelta.t) :
  mergeRuns runs nd
  = List.rev
      (JS.insertSorted byLastUpdatedDesc nd
         (JS.sortedPrefix byLastUpdatedDesc
            (List.filter (fun run => negb (hasId (LiveTrainDelta.id nd) run)) runs))).
Proof. unfold mergeRuns, JS.sort. now rewrite sortedPrefix_snoc. Qed.

(** Merging the same delta into the merged runs changes nothing. *)
Lemma mergeRuns_again (runs : list LiveTrainDelta.t) (nd : LiveTrainDelta.t) :
  mergeRuns (mergeRuns runs nd) nd = mergeRuns runs nd.
Proof.
  rewrite (mergeRuns_shape (mergeRuns runs nd)), (mergeRuns_shape runs).
  set (keep := fun run => negb (hasId (LiveTrainDelta.id nd) run)).
  set (others := List.filter keep runs).
  set (acc := JS.sortedPrefix byLastUpdatedDesc others).
  assert (keep nd = false) as Hnd by (unfold keep; now rewrite hasId_own).
  assert (List.filter keep acc = acc) as Hacc.
  { apply filter_all. intros x Hx.
    assert (In x others) as Hin.
    { apply (Permutation_in x
               (fold_insertSorted_Permutation byLastUpdatedDesc others [])) in Hx.
      now rewrite app_nil_r in Hx. }
    now apply filter_In in Hin as [_ Hkeep]. }
  rewrite filter_rev, (filter_insertSorted_out _ keep nd acc Hnd), Hacc.
  rewrite (sortedPrefix_rev_settled byLastUpdatedDesc acc).
  - reflexivity.
  - apply sortedPrefix_settled. exact byLastUpdatedDesc_asym.
Qed.

Lemma mergeRuns_nonempty (runs : list LiveTrainDelta.t) (nd : LiveTrainDelta.t) :
  mergeRuns runs nd <> [].
Proof.
  intros Hnil.
  assert (In nd (mergeRuns runs nd)) as Hin.
  { unfold mergeRuns. apply (sort_In byLastUpdatedDesc).
    apply in_or_app. right. now left. }
  rewrite Hnil in Hin. destruct Hin.
Qed.

(** Asking for the run that was selected selects it again. *)
Lemma selectRun_again (desired : string) (merged : list LiveTrainDelta.t)
    (nd : LiveTrainDelta.t) :
  merged <> [] ->
  selectRun (LiveTrainDelta.id (selectRun desired merged nd)) merged nd
  = selectRun desired merged nd.
Proof.
  intros Hne. unfold selectRun at 2 3.
  destruct (List.find (hasId desired) merged) as [run|] eqn:Hfind.
  - pose proof (find_some _ _ Hfind) as [_ Hid].
    unfold hasId in Hid. apply String.eqb_eq in Hid.
    unfold selectRun. rewrite Hid. now rewrite Hfind.
  - destruct merged as [|run rest]; [now destruct Hne|].
    unfold selectRun. simpl. now rewrite hasId_own.
Qed.

Lemma mergeRuns_In (runs : list LiveTrainDelta.t) (nd run : LiveTrainDelta.t) :
  In run (mergeRuns runs nd) -> run = nd \/ In run runs.
Proof.
  unfold mergeRuns. intros Hin.
  apply (proj1 (sort_In byLastUpdatedDesc _ _)) in Hin.
  apply in_app_or in Hin as [Hin|[<-|[]]].
  - right. now apply filter_In in Hin as [Hin _].
  - now left.
Qed.

Lemma mergeRuns_In_iff (runs : list LiveTrainDelta.t)
    (nd run : LiveTrainDelta.t) :
  In run (mergeRuns runs nd) <->
  run = nd
  \/ (In run runs /\ LiveTrainDelta.id run <> LiveTrainDelta.id nd).
Proof.
  unfold mergeRuns. rewrite (sort_In byLastUpdatedDesc), in_app_iff, filter_In.
  unfold hasId. split.
  - intros [[Hin Hid]|[<-|[]]]; [right|now left].
    split; [exact Hin|].
    apply negb_true_iff in Hid. now apply String.eqb_neq in Hid.
  - intros [->|[Hin Hid]]; [right; now left|left].
    split; [exact Hin|].
    apply negb_true_iff. now apply String.eqb_neq.
Qed.

Lemma le_trans_number (x y z : JS.num) :
  JS.le x y = true -> JS.le y z = true -> JS.le x z = true.
Proof.
  destruct x as [| | |p], y as [| | |q], z as [| | |r]; simpl;
    try discriminate; try reflexivity.
  rewrite !Qle_bool_iff. lra.
Qed.

(** *** The sort of V8 and the stable sort *)

(** The binary search never uses up its turns: whatever the comparator
    answers, [right - left] turns are as good as any larger number. *)
Lemma insertionPoint_turns {A : Type} (cmp : A -> A -> JS.num) (pivot : A)
    (workArray : list A) (turns turns' left right : nat) :
  (right - left <= turns)%nat -> (right - left <= turns')%nat ->
  V8.insertionPoint cmp turns left right pivot workArray
  = V8.insertionPoint cmp turns' left right pivot workArray.
Proof.
  revert turns' left right.
  induction turns as [|turns IH]; intros turns' left right Hturns Hturns'.
  - destruct turns' as [|turns']; [reflexivity|].
    cbn [V8.insertionPoint].
    destruct (Nat.ltb_spec left right); [lia|reflexivity].
  - destruct turns' as [|turns'].
    + cbn [V8.insertionPoint].
      destruct (Nat.ltb_spec left right); [lia|reflexivity].
    + cbn [V8.insertionPoint].
      destruct (Nat.ltb_spec left right) as [Hlt|_]; [|reflexivity].
      assert (Nat.div2 (right - left) < right - left)%nat as Hhalf
        by (apply Nat.lt_div2; lia).
      remember (Nat.div2 (right - left)) as half eqn:Hhalf'. clear Hhalf'.
      destruct (workArray !! (left + half)%nat) as [element|]; [|reflexivity].
      destruct (V8.negative (cmp pivot element)); apply IH; lia.
Qed.

Section EngineAgreement.
Context {A : Type}.
Variable cmp : A -> A -> JS.num.
Variable ok : A -> Prop.
Hypothesis consistent : consistentOn cmp ok.

Lemma negative_placedBefore (x y : A) :
  ok x -> ok y -> V8.negative (cmp x y) = placedBefore cmp x y.
Proof. apply consistent. Qed.

Lemma placedBefore_asym (x y : A) :
  ok x -> ok y -> placedBefore cmp x y = true -> placedBefore cmp y x = false.
Proof. apply consistent. Qed.

Lemma placedBefore_between (x y z : A) :
  ok x -> ok y -> ok z ->
  placedBefore cmp x y = true ->
  placedBefore cmp x z = true \/ placedBefore cmp z y = true.
Proof. apply consistent. Qed.

Lemma placedBefore_trans (x y z : A) :
  ok x -> ok y -> ok z ->
  placedBefore cmp x y = true -> placedBefore cmp y z = true ->
  placedBefore cmp x z = true.
Proof.
  intros Hx Hy Hz Hxy Hyz.
  destruct (placedBefore_between x y z Hx Hy Hz Hxy) as [Hxz|Hzy];
    [exact Hxz|].
  rewrite (placedBefore_asym y z Hy Hz Hyz) in Hzy. discriminate.
Qed.

(** [x] before [y] and [z] not before [y]: [x] before [z]. *)
Lemma placedBefore_then_not (x y z : A) :
  ok x -> ok y -> ok z ->
  placedBefore cmp x y = true -> placedBefore cmp z y = false ->
  placedBefore cmp x z = true.
Proof.
  intros Hx Hy Hz Hxy Hzy.
  destruct (placedBefore_between x y z Hx Hy Hz Hxy) as [Hxz|Hzy'];
    [exact Hxz|congruence].
Qed.

Lemma not_placedBefore_trans (x y z : A) :
  ok x -> ok y -> ok z ->
  placedBefore cmp y x = false -> placedBefore cmp z y = false ->
  placedBefore cmp z x = false.
Proof.
  intros Hx Hy Hz Hyx Hzy.
  destruct (placedBefore cmp z x) eqn:Hzx; [|reflexivity].
  destruct (placedBefore_between z x y Hz Hx Hy Hzx) as [H|H]; congruence.
Qed.

(** *** One insertion *)

(** The stable insertion passes the elements [x] is placed before and
    stops at the first it is not placed before. *)
Lemma insertSorted_passes (x : A) (passed rest : list A) :
  Forall (fun y => placedBefore cmp x y = true) passed ->
  match rest with
  | [] => True
  | y :: _ => placedBefore cmp x y = false
  end ->
  JS.insertSorted cmp x (passed ++ rest) = passed ++ x :: rest.
Proof.
  intros Hpassed Hrest.
  induction Hpassed as [|y passed Hy _ IH]; cbn [app JS.insertSorted].
  - destruct rest as [|y rest]; [reflexivity|].
    cbn [JS.insertSorted]. unfold placedBefore in Hrest. now rewrite Hrest.
  - unfold placedBefore in Hy. now rewrite Hy, IH.
Qed.

(** In a part in order, the elements [x] is placed before come first. *)
Lemma lastFirst_split (x : A) (acc : list A) :
  ok x -> Forall ok acc -> lastFirst cmp acc ->
  exists passed rest,
    acc = passed ++ rest
    /\ Forall (fun y => placedBefore cmp x y = true) passed
    /\ Forall (fun y => placedBefore cmp x y = false) rest.
Proof.
  intros Hx Hok Hs.
  induction Hs as [|a acc Hs IH Hall].
  - exists [], []. repeat split; constructor.
  - inversion Hok as [|? ? Ha Hok']; subst.
    destruct (placedBefore cmp x a) eqn:Hxa.
    + destruct (IH Hok') as (passed & rest & -> & Hpassed & Hrest).
      exists (a :: passed), rest. repeat split; [|exact Hrest].
      now constructor.
    + exists [], (a :: acc). repeat split; [constructor|].
      constructor; [exact Hxa|].
      apply List.Forall_forall. intros b Hb.
      rewrite List.Forall_forall in Hall, Hok'.
      exact (not_placedBefore_trans b a x (Hok' b Hb) Ha Hx (Hall b Hb) Hxa).
Qed.

Lemma insertSorted_lastFirst (x : A) (acc : list A) :
  ok x -> Forall ok acc -> lastFirst cmp acc ->
  lastFirst cmp (JS.insertSorted cmp x acc).
Proof.
  intros Hx Hok Hs.
  destruct (lastFirst_split x acc Hx Hok Hs)
    as (passed & rest & -> & Hpassed & Hrest).
  rewrite insertSorted_passes;
    [|exact Hpassed|destruct Hrest; [exact I|assumption]].
  unfold lastFirst in *.
  apply StronglySorted_app in Hs as (Hcross & Hs1 & Hs2).
  apply Forall_app in Hok as [Hok1 Hok2].
  apply StronglySorted_app. repeat split.
  - intros a b Ha Hb. apply list_elem_of_In in Hb.
    destruct Hb as [<-|Hb].
    + apply list_elem_of_In in Ha.
      rewrite List.Forall_forall in Hpassed, Hok1.
      apply placedBefore_asym; auto.
    + apply Hcross; [exact Ha|now apply list_elem_of_In].
  - exact Hs1.
  - constructor; [exact Hs2|exact Hrest].
Qed.

Lemma insertSorted_ok (x : A) (acc : list A) :
  ok x -> Forall ok acc -> Forall ok (JS.insertSorted cmp x acc).
Proof.
  intros Hx Hok. apply List.Forall_forall. intros y Hy.
  apply (Permutation_in _ (insertSorted_Permutation cmp x acc)) in Hy.
  destruct Hy as [<-|Hy]; [exact Hx|].
  rewrite List.Forall_forall in Hok. now apply Hok.
Qed.

(** *** The binary search *)

Lemma insertionPoint_found (x : A) (before after : list A) :
  ok x -> Forall ok before -> Forall ok after ->
  Forall (fun y => placedBefore cmp x y = false) before ->
  Forall (fun y => placedBefore cmp x y = true) after ->
  forall turns left right,
    (left <= length before)%nat -> (length before <= right)%nat ->
    (right <= length (before ++ after))%nat ->
    (right - left <= turns)%nat ->
    V8.insertionPoint cmp turns left right x (before ++ after)
    = length before.
Proof.
  intros Hx Hokb Hoka Hbefore Hafter.
  induction turns as [|turns IH]; intros left right Hleft Hright Hlen Hturns;
    cbn [V8.insertionPoint]; [lia|].
  destruct (Nat.ltb_spec left right) as [Hlt|Hge]; [|lia].
  set (mid := (left + Nat.div2 (right - left))%nat).
  assert (Nat.div2 (right - left) < right - left)%nat as Hhalf
    by (apply Nat.lt_div2; lia).
  assert (mid < right)%nat as Hmid by (unfold mid; lia).
  assert (left <= mid)%nat as Hmid' by apply Nat.le_add_r.
  destruct (Nat.lt_ge_cases mid (length before)) as [Hin|Hout].
  - rewrite lookup_app_l by exact Hin.
    destruct (lookup_lt_is_Some_2 before mid Hin) as [element Helement].
    rewrite Helement.
    rewrite negative_placedBefore;
      [|exact Hx|exact (Forall_lookup_1 _ _ _ _ Hokb Helement)].
    rewrite (Forall_lookup_1 _ _ _ _ Hbefore Helement).
    apply IH; lia.
  - rewrite lookup_app_r by exact Hout.
    rewrite length_app in Hlen.
    destruct (lookup_lt_is_Some_2 after (mid - length before)) as [element Helement];
      [lia|].
    rewrite Helement.
    rewrite negative_placedBefore;
      [|exact Hx|exact (Forall_lookup_1 _ _ _ _ Hoka Helement)].
    rewrite (Forall_lookup_1 _ _ _ _ Hafter Helement).
    apply IH; rewrite ?length_app; lia.
Qed.

(** On a part in order the binary insertion of V8 and the stable insertion
    put the element in the same place. *)
Lemma place_insertSorted (x : A) (inOrder : list A) :
  ok x -> Forall ok inOrder -> lastFirst cmp (List.rev inOrder) ->
  V8.place cmp inOrder x
  = List.rev (JS.insertSorted cmp x (List.rev inOrder)).
Proof.
  intros Hx Hok Hs.
  assert (Forall ok (List.rev inOrder)) as Hok' by now apply Forall_rev.
  destruct (lastFirst_split x (List.rev inOrder) Hx Hok' Hs)
    as (passed & rest & Hacc & Hpassed & Hrest).
  rewrite Hacc, insertSorted_passes;
    [|exact Hpassed|destruct Hrest; [exact I|assumption]].
  assert (inOrder = List.rev rest ++ List.rev passed) as ->.
  { rewrite <- rev_app_distr, <- Hacc. now rewrite rev_involutive. }
  rewrite Hacc in Hok'. apply Forall_app in Hok' as [Hok1 Hok2].
  unfold V8.place.
  rewrite (insertionPoint_found x (List.rev rest) (List.rev passed));
    try (now apply Forall_rev); try exact Hx; rewrite ?length_app; try lia.
  rewrite take_app_length, drop_app_length.
  rewrite rev_app_distr. cbn [List.rev]. now rewrite <- app_assoc.
Qed.

Lemma fold_place_insertSorted (pending inOrder : list A) :
  Forall ok pending -> Forall ok inOrder ->
  lastFirst cmp (List.rev inOrder) ->
  fold_left (V8.place cmp) pending inOrder
  = List.rev (fold_left (fun acc x => JS.insertSorted cmp x acc) pending
                        (List.rev inOrder)).
Proof.
  intros Hpending. revert inOrder.
  induction Hpending as [|x pending Hx _ IH]; intros inOrder Hok Hs;
    cbn [fold_left]; [now rewrite rev_involutive|].
  rewrite (place_insertSorted x inOrder Hx Hok Hs).
  rewrite IH.
  - now rewrite rev_involutive.
  - apply Forall_rev. apply insertSorted_ok; [exact Hx|now apply Forall_rev].
  - rewrite rev_involutive.
    apply insertSorted_lastFirst; [exact Hx|now apply Forall_rev|exact Hs].
Qed.

(** *** The run at the start of the array *)

Lemma runTail_le (isDescending : bool) (rest : list A) (previous : A) :
  (V8.runTail cmp isDescending previous rest <= length rest)%nat.
Proof.
  revert previous. induction rest as [|current rest IH]; intros previous;
    cbn [V8.runTail length]; [lia|].
  destruct (if isDescending then _ else _); [lia|].
  specialize (IH current). lia.
Qed.

(** An ascending run is what the stable insertion has made of it, and is
    in order. *)
Lemma runTail_ascending (rest : list A) (previous : A) (acc : list A) :
  ok previous -> Forall ok rest -> Forall ok acc ->
  lastFirst cmp (previous :: acc) ->
  fold_left (fun acc x => JS.insertSorted cmp x acc)
            (take (V8.runTail cmp false previous rest) rest) (previous :: acc)
  = List.rev (take (V8.runTail cmp false previous rest) rest)
    ++ previous :: acc
  /\ lastFirst cmp
       (List.rev (take (V8.runTail cmp false previous rest) rest)
        ++ previous :: acc).
Proof.
  intros Hprevious Hrest. revert previous acc Hprevious.
  induction Hrest as [|current rest Hcurrent _ IH];
    intros previous acc Hprevious Hacc Hs; cbn [V8.runTail].
  - now split.
  - rewrite (negative_placedBefore current previous Hcurrent Hprevious).
    destruct (placedBefore cmp current previous) eqn:Horder; [now split|].
    cbn [take fold_left JS.insertSorted List.rev].
    unfold placedBefore in Horder. rewrite Horder.
    rewrite <- !app_assoc. cbn [app].
    apply IH; [exact Hcurrent|now constructor|].
    constructor; [exact Hs|].
    constructor; [exact Horder|].
    apply List.Forall_forall. intros b Hb.
    inversion Hs as [|? ? _ Hall]; subst.
    rewrite List.Forall_forall in Hall, Hacc.
    exact (not_placedBefore_trans b previous current
             (Hacc b Hb) Hprevious Hcurrent (Hall b Hb) Horder).
Qed.

(** A strictly descending run is left as it stands by the stable insertion
    (last element first), and is in order that way round. *)
Lemma runTail_descending (rest : list A) (previous : A) (acc : list A) :
  ok previous -> Forall ok rest -> Forall ok acc ->
  Forall (fun y => placedBefore cmp previous y = true) acc ->
  lastFirst cmp (acc ++ [previous]) ->
  fold_left (fun acc x => JS.insertSorted cmp x acc)
            (take (V8.runTail cmp true previous rest) rest)
            (acc ++ [previous])
  = acc ++ previous :: take (V8.runTail cmp true previous rest) rest
  /\ lastFirst cmp
       (acc ++ previous :: take (V8.runTail cmp true previous rest) rest).
Proof.
  intros Hprevious Hrest. revert previous acc Hprevious.
  induction Hrest as [|current rest Hcurrent _ IH];
    intros previous acc Hprevious Hacc Hlater Hs; cbn [V8.runTail].
  - now split.
  - rewrite (negative_placedBefore current previous Hcurrent Hprevious).
    destruct (placedBefore cmp current previous) eqn:Horder; cbn [negb];
      [|now split].
    cbn [take fold_left].
    assert (Forall (fun y => placedBefore cmp current y = true)
                   (acc ++ [previous])) as Hall.
    { apply Forall_app. split; [|now repeat constructor].
      apply List.Forall_forall. intros y Hy.
      rewrite List.Forall_forall in Hlater, Hacc.
      exact (placedBefore_trans current previous y Hcurrent Hprevious
               (Hacc y Hy) Horder (Hlater y Hy)). }
    rewrite <- (app_nil_r (acc ++ [previous])) at 1.
    rewrite (insertSorted_passes current (acc ++ [previous]) [] Hall I).
    replace (acc ++ previous :: current :: take (V8.runTail cmp true current rest) rest)
      with ((acc ++ [previous]) ++ current
              :: take (V8.runTail cmp true current rest) rest)
      by now rewrite <- app_assoc.
    apply IH; [exact Hcurrent| |exact Hall|].
    + apply Forall_app. split; [exact Hacc|now repeat constructor].
    + unfold lastFirst in *. apply StronglySorted_app. repeat split.
      * intros a b Ha Hb. apply list_elem_of_In in Ha, Hb.
        destruct Hb as [<-|[]].
        rewrite List.Forall_forall in Hall.
        apply placedBefore_asym; auto.
        apply in_app_or in Ha as [Ha|[<-|[]]]; [|exact Hprevious].
        rewrite List.Forall_forall in Hacc. now apply Hacc.
      * exact Hs.
      * repeat constructor.
Qed.

(** What V8 makes of the run at the start of the array is what the stable
    insertion makes of it. *)
Lemma countAndMakeRun_insertSorted (l : list A) :
  Forall ok l ->
  let runLength := fst (V8.countAndMakeRun cmp l) in
  let workArray := snd (V8.countAndMakeRun cmp l) in
  drop runLength workArray = drop runLength l
  /\ fold_left (fun acc x => JS.insertSorted cmp x acc) (take runLength l) []
     = List.rev (take runLength workArray)
  /\ lastFirst cmp (List.rev (take runLength workArray)).
Proof.
  intros Hok. cbv zeta.
  destruct l as [|elementHigh [|elementLow rest]].
  - repeat split. constructor.
  - repeat split. repeat constructor.
  - inversion Hok as [|? ? Hhigh Hok']; subst.
    inversion Hok' as [|? ? Hlow Hrest]; subst.
    cbn [V8.countAndMakeRun fst snd].
    rewrite (negative_placedBefore elementLow elementHigh Hlow Hhigh).
    destruct (placedBefore cmp elementLow elementHigh) eqn:Horder.
    + pose proof (runTail_le true rest elementLow) as Hle.
      destruct (runTail_descending rest elementLow [elementHigh]
                  Hlow Hrest ltac:(now repeat constructor)
                  ltac:(now repeat constructor)) as [Hfold Hs].
      { unfold lastFirst. repeat constructor.
        now apply placedBefore_asym. }
      cbn [app] in Hfold, Hs.
      remember (V8.runTail cmp true elementLow rest) as n eqn:Hn. clear Hn.
      assert (take (2 + n) (elementHigh :: elementLow :: rest)
              = elementHigh :: elementLow :: take n rest) as -> by reflexivity.
      assert (length (List.rev (elementHigh :: elementLow :: take n rest))
              = (2 + n)%nat) as Hlen.
      { rewrite length_rev. cbn [length]. rewrite length_take. lia. }
      rewrite take_app_length', drop_app_length' by (symmetry; exact Hlen).
      rewrite rev_involutive.
      cbn [fold_left JS.insertSorted].
      unfold placedBefore in Horder. rewrite Horder.
      cbn [JS.insertSorted].
      split; [reflexivity|]. split; [exact Hfold|exact Hs].
    + destruct (runTail_ascending rest elementLow [elementHigh]
                  Hlow Hrest ltac:(now repeat constructor)) as [Hfold Hs].
      { unfold lastFirst. repeat constructor. exact Horder. }
      remember (V8.runTail cmp false elementLow rest) as n eqn:Hn. clear Hn.
      assert (take (2 + n) (elementHigh :: elementLow :: rest)
              = elementHigh :: elementLow :: take n rest) as -> by reflexivity.
      cbn [fold_left JS.insertSorted List.rev].
      unfold placedBefore in Horder. rewrite Horder.
      rewrite <- !app_assoc. cbn [app].
      split; [reflexivity|]. split; [exact Hfold|exact Hs].
Qed.

(** For a consistent comparator the sort of V8 is the stable sort. *)
Lemma V8_sort_stable (l : list A) :
  Forall ok l -> V8.sort cmp l = JS.sort cmp l.
Proof.
  intros Hok. unfold V8.sort.
  destruct (countAndMakeRun_insertSorted l Hok) as (Hdrop & Hrun & Hs).
  destruct (V8.countAndMakeRun cmp l) as [runLength workArray].
  cbn [fst snd] in *.
  assert (Permutation (take runLength workArray)
                      (take runLength l)) as Hperm.
  { rewrite <- (rev_involutive (take runLength workArray)), <- Hrun.
    rewrite <- Permutation_rev.
    rewrite (fold_insertSorted_Permutation cmp). now rewrite app_nil_r. }
  rewrite Hdrop, fold_place_insertSorted.
  - rewrite <- Hrun. unfold JS.sort, JS.sortedPrefix.
    rewrite <- (take_drop runLength l) at 3.
    now rewrite fold_left_app.
  - now apply Forall_drop.
  - apply List.Forall_forall. intros x Hx.
    apply (Permutation_in _ Hperm) in Hx.
    rewrite List.Forall_forall in Hok. apply Hok.
    rewrite <- (take_drop runLength l). apply in_or_app. now left.
  - exact Hs.
Qed.

End EngineAgreement.

(** *** The comparator of the run merger *)

Lemma round_negative (x : Q) :
  V8.negative (JS.round x) = negb (Qle_bool 0 x).
Proof.
  pose proof overflow_bound_large as Hb.
  unfold JS.round.
  destruct (Qle_bool JS.overflow_bound (Qabs x)) eqn:Hover; [|reflexivity].
  apply Qle_bool_iff in Hover.
  destruct (Qle_bool 0 x) eqn:Hsign; reflexivity.
Qed.

Lemma difference_le (p q : Q) :
  Qle_bool 0 (q - p) = Qle_bool p q /\ Qle_bool (p - q) 0 = Qle_bool p q.
Proof.
  destruct (Qle_bool p q) eqn:Hpq.
  - apply Qle_bool_iff in Hpq. split; apply Qle_bool_iff; lra.
  - split.
    + destruct (Qle_bool 0 (q - p)) eqn:E; [|reflexivity].
      apply Qle_bool_iff in E.
      assert (Qle_bool p q = true) by (apply Qle_bool_iff; lra). congruence.
    + destruct (Qle_bool (p - q) 0) eqn:E; [|reflexivity].
      apply Qle_bool_iff in E.
      assert (Qle_bool p q = true) by (apply Qle_bool_iff; lra). congruence.
Qed.

(** With time stamps that are numbers, a run is placed before another
    exactly when it is the more recent. *)
Lemma byLastUpdatedDesc_placedBefore (x y : LiveTrainDelta.t) :
  hasTimestamp x -> hasTimestamp y ->
  placedBefore byLastUpdatedDesc x y
  = negb (JS.le (LiveTrainDelta.lastUpdated x) (LiveTrainDelta.lastUpdated y))
  /\ V8.negative (byLastUpdatedDesc x y)
     = negb (JS.le (LiveTrainDelta.lastUpdated x)
                   (LiveTrainDelta.lastUpdated y)).
Proof.
  unfold hasTimestamp, placedBefore, byLastUpdatedDesc, JS.sub.
  destruct (LiveTrainDelta.lastUpdated x) as [| | |p],
           (LiveTrainDelta.lastUpdated y) as [| | |q];
    intros Hx Hy; try (now destruct Hx); try (now destruct Hy);
    try (split; reflexivity).
  rewrite round_positive, round_negative. cbn [JS.le].
  destruct (difference_le p q) as [-> ->]. now split.
Qed.

Lemma byLastUpdatedDesc_consistent :
  consistentOn byLastUpdatedDesc hasTimestamp.
Proof.
  split; [|split].
  - intros x y Hx Hy.
    destruct (byLastUpdatedDesc_placedBefore x y Hx Hy) as [-> ->].
    reflexivity.
  - intros x y _ _. unfold placedBefore. apply byLastUpdatedDesc_asym.
  - intros x y z Hx Hy Hz.
    destruct (byLastUpdatedDesc_placedBefore x y Hx Hy) as [-> _].
    destruct (byLastUpdatedDesc_placedBefore x z Hx Hz) as [-> _].
    destruct (byLastUpdatedDesc_placedBefore z y Hz Hy) as [-> _].
    destruct (JS.le (LiveTrainDelta.lastUpdated x)
                    (LiveTrainDelta.lastUpdated z)) eqn:Hxz; [|now left].
    destruct (JS.le (LiveTrainDelta.lastUpdated z)
                    (LiveTrainDelta.lastUpdated y)) eqn:Hzy; [|now right].
    rewrite (le_trans_number _ _ _ Hxz Hzy). discriminate.
Qed.

(** With time stamps that are numbers the merger on V8 is the merger on
    the stable sort. *)
Lemma mergeRunsBy_V8 (runs : list LiveTrainDelta.t) (nd : LiveTrainDelta.t) :
  hasTimestamp nd -> Forall hasTimestamp runs ->
  mergeRunsBy (@V8.sort _) runs nd = mergeRuns runs nd.
Proof.
  intros Hnd Hruns. unfold mergeRunsBy, mergeRuns.
  apply (V8_sort_stable byLastUpdatedDesc hasTimestamp
           byLastUpdatedDesc_consistent).
  apply Forall_app. split; [|now repeat constructor].
  apply List.Forall_forall. intros run Hrun.
  apply filter_In in Hrun as [Hrun _].
  rewrite List.Forall_forall in Hruns. now apply Hruns.
Qed.

Lemma updateTrainWithDeltaBy_V8 (t : TrainWithRoute.t)
    (delta : LiveTrainDelta.t) (preferredRunId : option string) :
  hasTimestamp delta -> Forall hasTimestamp (runsOf t) ->
  updateTrainWithDeltaBy (@V8.sort _) t delta preferredRunId
  = updateTrainWithDelta t delta preferredRunId.
Proof.
  intros Hdelta Hruns. unfold updateTrainWithDeltaBy, updateTrainWithDelta.
  cbv zeta. fold (runsOf t).
  now rewrite (mergeRunsBy_V8 (runsOf t)
                 (LiveTrainDelta.withDayNumber delta (deriveDayNumber t delta))
                 Hdelta Hruns).
Qed.

Lemma updateTrainWithDelta_stamped (t : TrainWithRoute.t)
    (delta : LiveTrainDelta.t) (preferredRunId : option string) :
  hasTimestamp delta -> Forall hasTimestamp (runsOf t) ->
  Forall hasTimestamp (runsOf (updateTrainWithDelta t delta preferredRunId)).
Proof.
  intros Hdelta Hruns. apply List.Forall_forall. intros run Hrun.
  change (runsOf (updateTrainWithDelta t delta preferredRunId))
    with (mergeRuns (runsOf t)
            (LiveTrainDelta.withDayNumber delta (deriveDayNumber t delta)))
    in Hrun.
  apply mergeRuns_In in Hrun as [->|Hrun]; [exact Hdelta|].
  rewrite List.Forall_forall in Hruns. now apply Hruns.
Qed.

(** On the stable sort the merger with the engine left open is the
    merger. *)
Lemma updateTrainWithDeltaBy_stable (t : TrainWithRoute.t)
    (delta : LiveTrainDelta.t) (preferredRunId : option string) :
  updateTrainWithDeltaBy (@JS.sort _) t delta preferredRunId
  = updateTrainWithDelta t delta preferredRunId.
Proof. reflexivity. Qed.




(** The same on a run set that is not in the order a sort would leave:
    runs stamped one, three and not at all, and a delta stamped two. *)
Example nan_stamp_reorders_unsorted_runs :
  let stamped (variantKey : string) (stamp : JS.num) :=
    Samples.variant variantKey stamp in
  let t :=
    TrainWithRoute.withLiveState Samples.karachiExpress true
      (Some [stamped "d" (JS.Fin 1); stamped "c" (JS.Fin 3);
             stamped "b" JS.NaN])
      (Some "123:d") (Some (stamped "d" (JS.Fin 1))) None None in
  let once :=
    updateTrainWithDeltaBy (@V8.sort _) t (stamped "a" (JS.Fin 2)) None in
  let twice :=
    updateTrainWithDeltaBy (@V8.sort _) once (stamped "a" (JS.Fin 2)) None in
  List.map LiveTrainDelta.id (runsOf once)
  = ["123:c"; "123:a"; "123:d"; "123:b"]
  /\ List.map LiveTrainDelta.id (runsOf twice)
     = ["123:c"; "123:d"; "123:b"; "123:a"]
  /\ List.map LiveTrainDelta.id
       (runsOf (updateTrainWithDelta
                  (updateTrainWithDelta t (stamped "a" (JS.Fin 2)) None)
                  (stamped "a" (JS.Fin 2)) None))
     = ["123:c"; "123:d"; "123:b"; "123:a"].
Proof. cbv zeta. repeat split; vm_compute; reflexivity. Qed.

(** ** Cold start: replay of the persisted deltas (C7) *)

Lemma updateTrainWithDelta_runs (t : TrainWithRoute.t)
    (delta : LiveTrainDelta.t) (preferred : option string)
    (run : LiveTrainDelta.t) :
  In run (runsOf (updateTrainWithDelta t delta preferred)) ->
  LiveTrainDelta.lastUpdated run = LiveTrainDelta.lastUpdated delta
  \/ In run (runsOf t).
Proof.
  intros Hin.
  change (runsOf (updateTrainWithDelta t delta preferred))
    with (mergeRuns (runsOf t)
            (LiveTrainDelta.withDayNumber delta (deriveDayNumber t delta)))
    in Hin.
  apply mergeRuns_In in Hin as [->|Hin]; [left; reflexivity|now right].
Qed.

Section ReplayFacts.
Variable isoDate : string -> string.
Variable now : Z.

Lemma replayDelta_allRunsOld (st : ReplayState) (delta : LiveTrainDelta.t) :
  olderThanTTL delta now ->
  allRunsOld now (updatedTrains st) ->
  allRunsOld now (updatedTrains (replayDelta isoDate st delta)).
Proof.
  intros Hold Hall. unfold replayDelta.
  destruct (match replayKeyToId st !! LiveTrainDelta.trainKey delta with
            | Some cached => Some cached
            | None => findMatchingTrainId (updatedTrains st) delta
            end) as [target|]; [|exact Hall].
  destruct (target =? 0)%Z; [exact Hall|].
  cbn [updatedTrains].
  intros t run Ht Hrun.
  apply in_map_iff in Ht as (t0 & <- & Ht0).
  destruct (hasTrainId target t0).
  - apply updateTrainWithDelta_runs in Hrun as [Hstamp|Hrun].
    + unfold olderThanTTL in *. now rewrite Hstamp.
    + now apply (Hall t0).
  - now apply (Hall t0).
Qed.

Lemma replay_allRunsOld (deltas : list LiveTrainDelta.t) (st : ReplayState) :
  (forall d, In d deltas -> olderThanTTL d now) ->
  allRunsOld now (updatedTrains st) ->
  allRunsOld now (updatedTrains (fold_left (replayDelta isoDate) deltas st)).
Proof.
  revert st. induction deltas as [|d deltas IH]; intros st Hold Hall; simpl.
  - exact Hall.
  - apply IH.
    + intros d' Hd'. apply Hold. now right.
    + apply replayDelta_allRunsOld; [|exact Hall]. apply Hold. now left.
Qed.

Lemma normalizedRun_route (t t' : TrainWithRoute.t)
    (delta : LiveTrainDelta.t) :
  TrainWithRoute.route t' = TrainWithRoute.route t ->
  normalizedRun t' delta = normalizedRun t delta.
Proof. unfold normalizedRun, deriveDayNumber. now intros ->. Qed.

Lemma updateTrainWithDelta_carries (t : TrainWithRoute.t)
    (delta : LiveTrainDelta.t) (preferred : option string) :
  In (normalizedRun (updateTrainWithDelta t delta preferred) delta)
     (runsOf (updateTrainWithDelta t delta preferred)).
Proof.
  rewrite (normalizedRun_route t) by reflexivity.
  change (runsOf (updateTrainWithDelta t delta preferred))
    with (mergeRuns (runsOf t) (normalizedRun t delta)).
  apply mergeRuns_In_iff. now left.
Qed.

Lemma updateTrainWithDelta_keeps_run (t : TrainWithRoute.t)
    (delta later : LiveTrainDelta.t) (preferred : option string) :
  LiveTrainDelta.id later <> LiveTrainDelta.id delta ->
  In (normalizedRun t delta) (runsOf t) ->
  In (normalizedRun (updateTrainWithDelta t later preferred) delta)
     (runsOf (updateTrainWithDelta t later preferred)).
Proof.
  intros Hne Hin.
  rewrite (normalizedRun_route t) by reflexivity.
  change (runsOf (updateTrainWithDelta t later preferred))
    with (mergeRuns (runsOf t) (normalizedRun t later)).
  apply mergeRuns_In_iff. right. split; [exact Hin|].
  change (LiveTrainDelta.id delta <> LiveTrainDelta.id later). congruence.
Qed.

Lemma replayDelta_target (st : ReplayState) (delta : LiveTrainDelta.t) :
  updatedTrains (replayDelta isoDate st delta)
  = match replayTarget st delta with
    | Some target =>
        if (target =? 0)%Z then updatedTrains st
        else
          List.map
            (fun t =>
               if hasTrainId target t
               then updateTrainWithDelta t delta
                      (replaySelectedRunIds st !! getTrainUniqueKey isoDate t)
               else t)
            (updatedTrains st)
    | None => updatedTrains st
    end.
Proof.
  unfold replayDelta, replayTarget.
  destruct (match replayKeyToId st !! LiveTrainDelta.trainKey delta with
            | Some cached => Some cached
            | None => findMatchingTrainId (updatedTrains st) delta
            end) as [target|]; [|reflexivity].
  now destruct (target =? 0)%Z.
Qed.

(** The step that attributes a delta puts its run on the train. *)
Lemma replayDelta_carries (st : ReplayState) (delta : LiveTrainDelta.t)
    (target : Z) :
  replayTarget st delta = Some target -> target <> 0%Z ->
  carriesRun target delta (updatedTrains (replayDelta isoDate st delta)).
Proof.
  intros Htarget Hnz. rewrite replayDelta_target, Htarget.
  destruct (Z.eqb_spec target 0) as [|_]; [contradiction|].
  intros t' Ht' Hid. apply in_map_iff in Ht' as (t & <- & _).
  unfold hasTrainId in *.
  destruct (Z.eqb_spec (TrainWithRoute.TrainId t) target) as [_|Hother].
  - apply updateTrainWithDelta_carries.
  - now destruct Hother.
Qed.

(** A later step leaves the run where it is, unless it merges a delta of
    the same id. *)
Lemma replayDelta_keeps_run (st : ReplayState)
    (delta later : LiveTrainDelta.t) (target : Z) :
  LiveTrainDelta.id later <> LiveTrainDelta.id delta ->
  carriesRun target delta (updatedTrains st) ->
  carriesRun target delta (updatedTrains (replayDelta isoDate st later)).
Proof.
  intros Hne Hcarries. rewrite replayDelta_target.
  destruct (replayTarget st later) as [other|]; [|exact Hcarries].
  destruct (other =? 0)%Z; [exact Hcarries|].
  intros t' Ht' Hid. apply in_map_iff in Ht' as (t & <- & Ht).
  destruct (hasTrainId other t).
  - apply updateTrainWithDelta_keeps_run; [exact Hne|].
    now apply Hcarries.
  - now apply Hcarries.
Qed.

Lemma replay_keeps_run (after : list LiveTrainDelta.t) (st : ReplayState)
    (delta : LiveTrainDelta.t) (target : Z) :
  Forall (fun later => LiveTrainDelta.id later <> LiveTrainDelta.id delta)
         after ->
  carriesRun target delta (updatedTrains st) ->
  carriesRun target delta
    (updatedTrains (fold_left (replayDelta isoDate) after st)).
Proof.
  intros Hafter. revert st.
  induction Hafter as [|later after Hne _ IH]; intros st Hcarries;
    [exact Hcarries|].
  cbn [fold_left]. apply IH. now apply replayDelta_keeps_run.
Qed.

(** A train that keeps a run through the sweep is live. *)
Lemma sanitize_with_runs_is_live (t : TrainWithRoute.t) :
  runsOf (sanitizeTrainLiveState t now) <> [] ->
  TrainWithRoute.IsLive (sanitizeTrainLiveState t now) = true.
Proof.
  destruct (TrainWithRoute.IsLive (sanitizeTrainLiveState t now)) eqn:Hlive;
    [reflexivity|].
  intros Hruns. exfalso. apply Hruns. clear Hruns. revert Hlive.
  unfold sanitizeTrainLiveState, resetTrainLiveState, runsOf.
  destruct (TrainWithRoute.liveRuns t) as [runs|] eqn:Hliveruns.
  - destruct (length runs =? 0)%nat eqn:Hlen.
    + apply Nat.eqb_eq in Hlen. destruct runs; [|discriminate].
      destruct (hasNoLiveState t); [now rewrite Hliveruns|reflexivity].
    + destruct (List.filter _ runs) as [|first others] eqn:Hfresh.
      * destruct (hasNoLiveState t) eqn:Hnone; [|reflexivity].
        unfold hasNoLiveState in Hnone. rewrite Hliveruns in Hnone.
        change (default [] (Some runs)) with runs in Hnone.
        rewrite Hlen, andb_false_r in Hnone. discriminate.
      * cbv zeta.
        match goal with
        | |- context [if negb ?b then _ else _] => destruct b eqn:Hreq
        end; cbn [negb]; [discriminate|].
        apply orb_false_elim in Hreq as [_ Hreq].
        apply negb_false_iff in Hreq. congruence.
  - destruct (hasNoLiveState t); [now rewrite Hliveruns|reflexivity].
Qed.

(** The sweep leaves a run that is within the TTL where it is. *)
Lemma sweep_keeps_fresh_run (trains : list TrainWithRoute.t)
    (delta : LiveTrainDelta.t) (target : Z) :
  isRunFresh delta now = true ->
  carriesRun target delta trains ->
  forall t', In t' (stripStaleLiveData trains now) ->
             TrainWithRoute.TrainId t' = target ->
             In (normalizedRun t' delta) (runsOf t')
             /\ TrainWithRoute.IsLive t' = true.
Proof.
  intros Hfresh Hcarries t' Ht' Hid.
  apply in_map_iff in Ht' as (t & <- & Ht).
  rewrite sanitizeTrainLiveState_TrainId in Hid.
  assert (In (normalizedRun (sanitizeTrainLiveState t now) delta)
             (runsOf (sanitizeTrainLiveState t now))) as Hin.
  { rewrite (normalizedRun_route t)
      by (unfold sanitizeTrainLiveState, resetTrainLiveState;
          repeat match goal with
                 | |- context [match ?x with _ => _ end] => destruct x
                 end; reflexivity).
    rewrite sanitizeTrainLiveState_runs. apply filter_In.
    split; [now apply Hcarries|exact Hfresh]. }
  split; [exact Hin|].
  apply sanitize_with_runs_is_live. intros Hnone.
  rewrite Hnone in Hin. destruct Hin.
Qed.

End ReplayFacts.

Lemma sweep_leaves_fresh_runs (trains : list TrainWithRoute.t) (now : Z)
    (t' : TrainWithRoute.t) (run : LiveTrainDelta.t) :
  In t' (stripStaleLiveData trains now) -> In run (runsOf t') ->
  isRunFresh run now = true.
Proof.
  unfold stripStaleLiveData. intros Ht Hrun.
  apply in_map_iff in Ht as (t & <- & _).
  rewrite sanitizeTrainLiveState_runs in Hrun.
  now apply filter_In in Hrun as [_ Hfresh].
Qed.

Lemma sweep_of_old_runs (trains : list TrainWithRoute.t) (now : Z)
    (t' : TrainWithRoute.t) :
  allRunsOld now trains -> In t' (stripStaleLiveData trains now) ->
  runsOf t' = [] /\ TrainWithRoute.livePosition t' = None.
Proof.
  unfold stripStaleLiveData. intros Hold Ht.
  apply in_map_iff in Ht as (t & <- & Ht).
  assert (runsOf (sanitizeTrainLiveState t now) = []) as Hruns.
  { rewrite sanitizeTrainLiveState_runs. apply filter_none.
    intros run Hrun. apply olderThanTTL_not_fresh. now apply (Hold t). }
  split; [exact Hruns|].
  now apply sanitize_empty_nothing_live.
Qed.




(** ** The normalizer: position (C8) *)

Lemma parseSocketPayload_position (now : Z) (trainKey variantKey : string)
    (payload : SocketTrainPayload.t) (delta : LiveTrainDelta.t) :
  parseSocketPayload now trainKey variantKey payload = Some delta ->
  LiveTrainDelta.lat delta = JS.NumberOpt (SocketTrainPayload.lat payload)
  /\ LiveTrainDelta.lon delta = JS.NumberOpt (SocketTrainPayload.lon payload)
  /\ JS.isFinite (LiveTrainDelta.lat delta) = true
  /\ JS.isFinite (LiveTrainDelta.lon delta) = true.
Proof.
  unfold parseSocketPayload.
  destruct (JS.isFinite (JS.NumberOpt (SocketTrainPayload.lat payload)))
    eqn:Hlat; [|discriminate].
  destruct (JS.isFinite (JS.NumberOpt (SocketTrainPayload.lon payload)))
    eqn:Hlon; [|discriminate].
  simpl. intros [= <-]. simpl. auto.
Qed.

(** C8. The normalizer returns [null] for a triple exactly when its [lat]
    or its [lon] does not parse to a finite number; a delta it does produce
    carries the parsed, finite position, and so does every delta of a
    flattened envelope. *)
Theorem non_finite_position_is_dropped (now : Z) :
  (forall (trainKey variantKey : string) (payload : SocketTrainPayload.t),
     parseSocketPayload now trainKey variantKey payload = None <->
     JS.isFinite (JS.NumberOpt (SocketTrainPayload.lat payload)) = false
     \/ JS.isFinite (JS.NumberOpt (SocketTrainPayload.lon payload)) = false)
  /\
  (forall (trainKey variantKey : string) (payload : SocketTrainPayload.t)
          (delta : LiveTrainDelta.t),
     parseSocketPayload now trainKey variantKey payload = Some delta ->
     LiveTrainDelta.lat delta = JS.NumberOpt (SocketTrainPayload.lat payload)
     /\ LiveTrainDelta.lon delta = JS.NumberOpt (SocketTrainPayload.lon payload)
     /\ JS.isFinite (LiveTrainDelta.lat delta) = true
     /\ JS.isFinite (LiveTrainDelta.lon delta) = true)
  /\
  (forall (envelope : SocketMessageEnvelope) (delta : LiveTrainDelta.t),
     In delta (flattenSocketEnvelope now envelope) ->
     JS.isFinite (LiveTrainDelta.lat delta) = true
     /\ JS.isFinite (LiveTrainDelta.lon delta) = true).
Proof.
  split; [|split].
  - intros trainKey variantKey payload. unfold parseSocketPayload.
    destruct (JS.isFinite (JS.NumberOpt (SocketTrainPayload.lat payload)));
      destruct (JS.isFinite (JS.NumberOpt (SocketTrainPayload.lon payload)));
      simpl; split; auto; try discriminate.
    intros [H|H]; discriminate.
  - apply parseSocketPayload_position.
  - intros envelope delta Hin.
    unfold flattenSocketEnvelope in Hin.
    apply in_concat in Hin as (inner & Hinner & Hdelta).
    apply in_map_iff in Hinner as ([trainKey variants] & <- & _).
    apply in_concat in Hdelta as (cell & Hcell & Hdelta).
    apply in_map_iff in Hcell as ([variantKey payload] & <- & _).
    destruct (parseSocketPayload now trainKey variantKey payload) as [d|] eqn:Hp;
      [|destruct Hdelta].
    destruct Hdelta as [<-|[]].
    now destruct (parseSocketPayload_position _ _ _ _ _ Hp) as (_ & _ & ? & ?).
Qed.

(** ** The normalizer: optional numeric fields (C9) *)

(** The speed is checked for finiteness before it is stored. *)
Lemma speed_is_finite_or_null (now : Z) (trainKey variantKey : string)
    (payload : SocketTrainPayload.t) (delta : LiveTrainDelta.t) :
  parseSocketPayload now trainKey variantKey payload = Some delta ->
  LiveTrainDelta.speed delta = None
  \/ exists q, LiveTrainDelta.speed delta = Some (JS.Fin q).
Proof.
  unfold parseSocketPayload.
  destruct (negb _ || negb _); [discriminate|].
  intros [= <-]. simpl.
  destruct (numberIfPresent (SocketTrainPayload.sp payload)) as [[| | |q]|];
    simpl; eauto.
Qed.

(** The other optional numeric fields are stored as parsed, finite or not. *)
Lemma lateness_is_stored_as_parsed (now : Z) (trainKey variantKey : string)
    (payload : SocketTrainPayload.t) (delta : LiveTrainDelta.t) :
  parseSocketPayload now trainKey variantKey payload = Some delta ->
  LiveTrainDelta.lateBy delta
  = numberIfPresent (SocketTrainPayload.late_by payload)
  /\ LiveTrainDelta.nextStationId delta
     = numberIfPresent (SocketTrainPayload.next_station payload)
  /\ LiveTrainDelta.prevStationId delta
     = numberIfPresent (SocketTrainPayload.prev_station payload).
Proof.
  unfold parseSocketPayload.
  destruct (negb _ || negb _); [discriminate|].
  intros [= <-]. simpl. auto.
Qed.

(** C9, on an accepted payload whose optional fields hold text that is not
    a number: the speed is stored as [null], but lateness and the two
    station ids are stored as NaN. *)
Theorem unparseable_fields_are_stored_as_NaN :
  exists delta,
    parseSocketPayload Samples.clock "123" "9900" Samples.garbledPayload
    = Some delta
    /\ LiveTrainDelta.speed delta = None
    /\ LiveTrainDelta.lateBy delta = Some JS.NaN
    /\ LiveTrainDelta.nextStationId delta = Some JS.NaN
    /\ LiveTrainDelta.prevStationId delta = Some JS.NaN.
Proof. eexists. split; [reflexivity|]. repeat split. Qed.

(** ** The store: deltas whose source is already cached (C10) *)

Lemma mappedTrainId_hit (numberToString : JS.num -> string)
    (cache : gmap string Z) (delta : LiveTrainDelta.t) :
  cacheUsable cache ->
  cachedUnderSomeKey numberToString cache delta ->
  exists cached,
    mappedTrainId numberToString cache delta = Some cached /\ cached <> 0%Z.
Proof.
  intros Husable Hcached. unfold mappedTrainId.
  destruct (cache !! LiveTrainDelta.id delta) as [c|] eqn:Hid;
    [exists c; split; [reflexivity|now apply (Husable _ _ Hid)]|].
  destruct (cache !! LiveTrainDelta.trainKey delta) as [c|] eqn:Hkey;
    [exists c; split; [reflexivity|now apply (Husable _ _ Hkey)]|].
  destruct (cache !! LiveTrainDelta.variantKey delta) as [c|] eqn:Hvariant;
    [exists c; split; [reflexivity|now apply (Husable _ _ Hvariant)]|].
  destruct Hcached as [[c Hc]|[[c Hc]|[[c Hc]|(n & Hn & [c Hc])]]];
    try congruence.
  rewrite Hn. exists c. split; [exact Hc|now apply (Husable _ _ Hc)].
Qed.

Lemma mappedTrainId_firstCachedHit (numberToString : JS.num -> string)
    (cache : gmap string Z) (delta : LiveTrainDelta.t) (cached : Z) :
  mappedTrainId numberToString cache delta = Some cached ->
  firstCachedHit numberToString cache delta cached.
Proof.
  unfold mappedTrainId, firstCachedHit.
  destruct (cache !! LiveTrainDelta.id delta) as [c|];
    [intros [= ->]; now left|].
  destruct (cache !! LiveTrainDelta.trainKey delta) as [c|];
    [intros [= ->]; right; left; now split|].
  destruct (cache !! LiveTrainDelta.variantKey delta) as [c|];
    [intros [= ->]; right; right; left; now repeat split|].
  destruct (LiveTrainDelta.trainNumber delta) as [n|]; [|discriminate].
  intros Hn. right. right. right. repeat split. now exists n.
Qed.

(** The cache only ever receives usable identifiers. *)
Lemma processDelta_cacheUsable (numberToString : JS.num -> string)
    (resolve : list TrainWithRoute.t -> LiveTrainDelta.t -> option Z)
    (st : StoreSlice) (delta : LiveTrainDelta.t) :
  cacheUsable (trainKeyToId st) ->
  cacheUsable (trainKeyToId (processDelta numberToString resolve st delta)).
Proof.
  intros Husable. unfold processDelta.
  destruct (targetTrainIdOf numberToString resolve (recordDelta st delta) delta)
    as [target|]; [|exact Husable].
  destruct (Z.eqb_spec target 0) as [|Hnz]; [exact Husable|].
  unfold attribute. cbn [trainKeyToId recordDelta].
  assert (forall (m : gmap string Z) k,
            cacheUsable m -> cacheUsable (<[k := target]> m)) as Hins.
  { intros m k Hm key cached Hlookup.
    destruct (decide (k = key)) as [->|Hne].
    - rewrite lookup_insert_eq in Hlookup. congruence.
    - rewrite lookup_insert_ne in Hlookup by exact Hne.
      now apply (Hm key). }
  destruct (LiveTrainDelta.trainNumber delta); repeat apply Hins; exact Husable.
Qed.

Lemma processDeltasWith_cacheUsable (numberToString : JS.num -> string)
    (resolve : list TrainWithRoute.t -> LiveTrainDelta.t -> option Z)
    (deltas : list LiveTrainDelta.t) (st : StoreSlice) :
  cacheUsable (trainKeyToId st) ->
  cacheUsable
    (trainKeyToId (processDeltasWith numberToString resolve st deltas)).
Proof.
  unfold processDeltasWith. revert st.
  induction deltas as [|d deltas IH]; intros st Husable; simpl.
  - exact Husable.
  - apply IH. now apply processDelta_cacheUsable.
Qed.

Lemma insert_keeps_value (m : gmap string Z) (k k' : string) (v : Z) :
  m !! k = Some v -> <[k' := v]> m !! k = Some v.
Proof.
  intros Hk. destruct (decide (k' = k)) as [->|Hne].
  - apply lookup_insert_eq.
  - now rewrite lookup_insert_ne.
Qed.

Lemma attribute_cache (numberToString : JS.num -> string) (st : StoreSlice)
    (delta : LiveTrainDelta.t) (target : Z) :
  let cache := trainKeyToId (attribute numberToString st delta target) in
  cache !! LiveTrainDelta.id delta = Some target
  /\ cache !! LiveTrainDelta.trainKey delta = Some target
  /\ cache !! LiveTrainDelta.variantKey delta = Some target
  /\ (forall n, LiveTrainDelta.trainNumber delta = Some n ->
        cache !! numberToString n = Some target).
Proof.
  cbv zeta. unfold attribute. cbn [trainKeyToId].
  destruct (LiveTrainDelta.trainNumber delta) as [n|].
  - repeat split.
    + do 3 apply insert_keeps_value. apply lookup_insert_eq.
    + do 2 apply insert_keeps_value. apply lookup_insert_eq.
    + apply insert_keeps_value. apply lookup_insert_eq.
    + intros ? [= <-]. apply lookup_insert_eq.
  - repeat split.
    + do 2 apply insert_keeps_value. apply lookup_insert_eq.
    + apply insert_keeps_value. apply lookup_insert_eq.
    + apply lookup_insert_eq.
    + discriminate.
Qed.

Lemma attribute_trains (numberToString : JS.num -> string)
    (st : StoreSlice) (delta : LiveTrainDelta.t) (target : Z) :
  carriesRun target delta (trains (attribute numberToString st delta target))
  /\ (forall t', In t' (trains (attribute numberToString st delta target)) ->
        TrainWithRoute.TrainId t' = target ->
        TrainWithRoute.IsLive t' = true)
  /\ (forall t', In t' (trains (attribute numberToString st delta target)) ->
        TrainWithRoute.TrainId t' <> target -> In t' (trains st))
  /\ List.map TrainWithRoute.TrainId
       (trains (attribute numberToString st delta target))
     = List.map TrainWithRoute.TrainId (trains st).
Proof.
  unfold attribute. cbn [trains]. unfold hasTrainId. repeat split.
  - intros t' Ht' Hid. apply in_map_iff in Ht' as (t & <- & _).
    destruct (Z.eqb_spec (TrainWithRoute.TrainId t) target) as [_|Hother].
    + apply updateTrainWithDelta_carries.
    + now destruct Hother.
  - intros t' Ht' Hid. apply in_map_iff in Ht' as (t & <- & _).
    destruct (Z.eqb_spec (TrainWithRoute.TrainId t) target) as [_|Hother].
    + reflexivity.
    + now destruct Hother.
  - intros t' Ht' Hid. apply in_map_iff in Ht' as (t & <- & Ht).
    destruct (Z.eqb_spec (TrainWithRoute.TrainId t) target) as [Hsame|_].
    + now destruct Hid.
    + exact Ht.
  - rewrite map_map. apply map_ext. intros t.
    now destruct (TrainWithRoute.TrainId t =? target)%Z.
Qed.



(** On that store the resolver would answer train 5 for the delta (it
    carries train number 123), and the batch step gives it to train 7. *)
Example cache_overrides_evidence :
  let delta :=
    Samples.probe "123" "9900" (JS.ofZ Samples.clock) None None
                  (Some (JS.Fin 123)) in
  findMatchingTrainId (trains Samples.warmStore) delta = Some 5%Z
  /\ List.map (fun t => (TrainWithRoute.TrainId t, length (runsOf t)))
       (trains (processDeltas Samples.printNumber Samples.warmStore [delta]))
     = [(5%Z, 0%nat); (7%Z, 1%nat)].
Proof. split; vm_compute; reflexivity. Qed.

(** * Further properties of the engine *)

(** ** The resolver *)

Lemma pickBest_In (candidates : list CandidateScore) (trainId : Z) :
  pickBest candidates = Some trainId ->
  exists c, In c candidates /\ trainId = TrainWithRoute.TrainId (train c).
Proof.
  unfold pickBest.
  destruct (length candidates =? 0)%nat; [discriminate|].
  destruct (JS.sort byScoreDesc candidates) as [|best rest] eqn:Hsort;
    [discriminate|].
  assert (In best candidates) as Hbest.
  { apply (sort_In byScoreDesc). rewrite Hsort. now left. }
  destruct (Qle_bool (score best) 0); [discriminate|].
  destruct (1 <? _)%nat; [discriminate|].
  destruct rest as [|second rest'].
  - intros [= <-]. now exists best.
  - destruct (Qle_bool (score best) (score second)); [discriminate|].
    intros [= <-]. now exists best.
Qed.

Lemma scoredCandidates_In (trains : list TrainWithRoute.t)
    (delta : LiveTrainDelta.t) (c : CandidateScore) :
  In c (scoredCandidates trains delta) ->
  In (train c) trains /\ (0 < score c)%Q.
Proof.
  unfold scoredCandidates. intros Hin.
  apply filter_In in Hin as [Hin Hpos].
  apply in_map_iff in Hin as (t & <- & Ht).
  split; [exact Ht|].
  apply Qnot_le_lt. intros Hle. apply Qle_bool_iff in Hle.
  rewrite Hle in Hpos. discriminate.
Qed.

(** X1. The resolver never invents an identifier: whatever it returns is
    the TrainId of a train of the collection, found by its number or scored
    above zero. *)
Theorem resolver_returns_known_train (trains : list TrainWithRoute.t)
    (delta : LiveTrainDelta.t) (trainId : Z) :
  findMatchingTrainId trains delta = Some trainId ->
  exists t, In t trains /\ TrainWithRoute.TrainId t = trainId
    /\ (idEq (TrainWithRoute.TrainNumber t) (LiveTrainDelta.trainNumber delta)
        = true
        \/ (0 < score (scoreCandidate delta (directionFlagOf delta) t))%Q).
Proof.
  unfold findMatchingTrainId.
  destruct (numberMatch trains delta) as [matched|] eqn:Hnumber.
  - intros [= <-]. exists matched.
    unfold numberMatch in Hnumber.
    destruct (JS.isFiniteOpt _); [|discriminate].
    apply find_some in Hnumber as [Hin Heq]. auto.
  - intros Hpick.
    apply pickBest_In in Hpick as (c & Hc & ->).
    pose proof (scoredCandidates_In _ _ _ Hc) as [Hin Hpos].
    exists (train c). repeat split; [exact Hin|].
    right.
    unfold scoredCandidates in Hc.
    apply filter_In in Hc as [Hc _].
    apply in_map_iff in Hc as (t & <- & _). exact Hpos.
Qed.

Lemma resolver_returns_known_train_witness :
  exists t,
    In t [Samples.khyberMail; Samples.karachiExpress]
    /\ TrainWithRoute.TrainId t = 7%Z
    /\ (idEq (TrainWithRoute.TrainNumber t)
             (LiveTrainDelta.trainNumber
                (Samples.probe "7" "1" (JS.ofZ Samples.clock) (Some "LOCO-9")
                               None None)) = true
        \/ (0 < score
                  (scoreCandidate
                     (Samples.probe "7" "1" (JS.ofZ Samples.clock)
                                    (Some "LOCO-9") None None)
                     (directionFlagOf
                        (Samples.probe "7" "1" (JS.ofZ Samples.clock)
                                       (Some "LOCO-9") None None))
                     t))%Q).
Proof.
  exact (resolver_returns_known_train
           [Samples.khyberMail; Samples.karachiExpress]
           (Samples.probe "7" "1" (JS.ofZ Samples.clock) (Some "LOCO-9")
                          None None)
           7%Z eq_refl).
Defined.

(** X2. A delta that carries no evidence at all (no finite train number, no
    locomotive identifier, no station ids, unknown direction, no next-stop
    name) is unresolved against every collection. *)
Theorem no_evidence_is_unresolved (trains : list TrainWithRoute.t)
    (delta : LiveTrainDelta.t) :
  JS.isFiniteOpt (LiveTrainDelta.trainNumber delta) = false ->
  truthyStr (LiveTrainDelta.locomitiveNo delta) = false ->
  truthyNum (LiveTrainDelta.nextStationId delta) = false ->
  truthyNum (LiveTrainDelta.prevStationId delta) = false ->
  LiveTrainDelta.direction delta = unknown ->
  truthyStr (LiveTrainDelta.nextStopName delta) = false ->
  findMatchingTrainId trains delta = None.
Proof.
  intros Hnumber Hloco Hnext Hprev Hdir Hname.
  unfold findMatchingTrainId, numberMatch. rewrite Hnumber.
  assert (scoredCandidates trains delta = []) as ->; [|reflexivity].
  unfold scoredCandidates. apply filter_none.
  intros c Hc. apply in_map_iff in Hc as (t & <- & _).
  unfold scoreCandidate, directionFlagOf.
  rewrite Hloco, Hnext, Hprev, Hdir. cbn.
  unfold truthyStr in Hname.
  destruct (LiveTrainDelta.nextStopName delta) as [name|]; [|reflexivity].
  now rewrite Hname.
Qed.

Lemma no_evidence_is_unresolved_witness :
  findMatchingTrainId [Samples.khyberMail; Samples.karachiExpress]
    (Samples.probe "x" "y" (JS.ofZ Samples.clock) None None None)
  = None.
Proof.
  apply no_evidence_is_unresolved; reflexivity.
Defined.

Lemma one_position_filter {A : Type} (p : A -> bool) (l : list A)
    (i : nat) (a : A) :
  nth_error l i = Some a -> p a = true ->
  (forall j b, j <> i -> nth_error l j = Some b -> p b = false) ->
  List.filter p l = [a].
Proof.
  revert i. induction l as [|x l IH]; intros i Hi Ha Hothers.
  - destruct i; discriminate.
  - destruct i as [|i]; simpl in Hi.
    + injection Hi as ->. simpl. rewrite Ha. f_equal.
      apply filter_none. intros b Hb.
      apply In_nth_error in Hb as [j Hj].
      apply (Hothers (S j) b); [lia|exact Hj].
    + simpl. rewrite (Hothers O x); [|lia|reflexivity].
      apply (IH i Hi Ha). intros j b Hj Hb.
      apply (Hothers (S j) b); [lia|exact Hb].
Qed.

Lemma filter_singleton_Permutation {A : Type} (p : A -> bool) (l l' : list A)
    (a : A) :
  Permutation l l' -> List.filter p l = [a] -> List.filter p l' = [a].
Proof.
  intros Hperm Hl.
  assert (Permutation (List.filter p l) (List.filter p l')) as Hf.
  { clear Hl. induction Hperm as [|x l l' _ IH|x y l|l l' l'' _ IH1 _ IH2];
      simpl.
    - reflexivity.
    - destruct (p x); [now apply perm_skip|exact IH].
    - destruct (p x), (p y); try reflexivity. apply perm_swap.
    - now transitivity (List.filter p l'). }
  rewrite Hl in Hf. now apply Permutation_length_1_inv in Hf.
Qed.

(** X3. When the train-number lookup does not settle a delta and one
    candidate scores strictly above every other candidate, the resolver
    returns the train of that candidate. *)
Theorem strict_best_is_returned (trains : list TrainWithRoute.t)
    (delta : LiveTrainDelta.t) (i : nat) (best : CandidateScore) :
  numberMatch trains delta = None ->
  nth_error (scoredCandidates trains delta) i = Some best ->
  (forall j c, j <> i -> nth_error (scoredCandidates trains delta) j = Some c ->
     (score c < score best)%Q) ->
  findMatchingTrainId trains delta
  = Some (TrainWithRoute.TrainId (train best)).
Proof.
  intros Hnumber Hi Hstrict.
  unfold findMatchingTrainId. rewrite Hnumber.
  set (candidates := scoredCandidates trains delta) in *.
  assert (In best candidates) as Hin by exact (nth_error_In _ _ Hi).
  assert (List.filter (fun c => Qeq_bool (score c) (score best)) candidates
          = [best]) as Honly.
  { apply (one_position_filter _ _ i best Hi).
    - apply Qeq_bool_iff. reflexivity.
    - intros j c Hj Hc. specialize (Hstrict j c Hj Hc).
      destruct (Qeq_bool (score c) (score best)) eqn:E; [|reflexivity].
      apply Qeq_bool_iff in E. lra. }
  assert (forall c, In c candidates -> (score c <= score best)%Q) as Hmax.
  { intros c Hc. apply In_nth_error in Hc as [j Hj].
    destruct (Nat.eq_dec j i) as [->|Hne].
    - rewrite Hi in Hj. injection Hj as <-. lra.
    - apply Qlt_le_weak. now apply (Hstrict j c). }
  unfold pickBest.
  destruct candidates as [|c0 cs] eqn:Hcands; [destruct Hin|].
  cbn [length Nat.eqb]. rewrite <- Hcands in *.
  destruct (JS.sort byScoreDesc candidates) as [|top rest] eqn:Hsort.
  { pose proof (sort_Permutation byScoreDesc candidates) as Hperm.
    rewrite Hsort in Hperm. apply Permutation_nil in Hperm.
    rewrite Hperm in Hin. destruct Hin. }
  assert (In top candidates) as Htop.
  { apply (sort_In byScoreDesc). rewrite Hsort. now left. }
  assert (score top == score best)%Q as Hscore.
  { apply Qle_antisym; [now apply Hmax|].
    now apply (sort_head_best _ _ _ Hsort). }
  pose proof (filter_singleton_Permutation _ _ _ best
                (Permutation_sym (sort_Permutation byScoreDesc candidates))
                Honly) as Hsorted.
  rewrite Hsort in Hsorted.
  assert (top = best) as ->.
  { cbn [List.filter] in Hsorted.
    assert (Qeq_bool (score top) (score best) = true) as E
      by now apply Qeq_bool_iff.
    rewrite E in Hsorted. now injection Hsorted. }
  destruct (Qle_bool (score best) 0) eqn:Hzero.
  { apply Qle_bool_iff in Hzero.
    subst candidates.
    pose proof (scoredCandidates_In _ _ _ Hin) as [_ Hpos]. lra. }
  rewrite Hsorted. cbn [length Nat.ltb Nat.leb].
  destruct rest as [|second rest']; [reflexivity|].
  destruct (Qle_bool (score best) (score second)) eqn:Hsecond; [|reflexivity].
  exfalso. apply Qle_bool_iff in Hsecond.
  cbn [List.filter] in Hsorted.
  rewrite Qeq_bool_refl in Hsorted.
  assert (In second candidates) as Hsec.
  { apply (sort_In byScoreDesc). rewrite Hsort. right. now left. }
  assert (Qeq_bool (score second) (score best) = true) as E.
  { apply Qeq_bool_iff. apply Qle_antisym; [now apply Hmax|exact Hsecond]. }
  rewrite E in Hsorted. discriminate.
Qed.

Lemma strict_best_is_returned_witness :
  findMatchingTrainId
    [Samples.khyberMail; Samples.karachiExpress; Samples.awamExpress]
    (Samples.probe "7" "1" (JS.ofZ Samples.clock) (Some "LOCO-9")
                   (Some (JS.Fin 17)) None)
  = Some 7%Z.
Proof.
  apply (strict_best_is_returned
           [Samples.khyberMail; Samples.karachiExpress; Samples.awamExpress]
           (Samples.probe "7" "1" (JS.ofZ Samples.clock) (Some "LOCO-9")
                          (Some (JS.Fin 17)) None)
           O
           (scoreCandidate
              (Samples.probe "7" "1" (JS.ofZ Samples.clock) (Some "LOCO-9")
                             (Some (JS.Fin 17)) None)
              None Samples.khyberMail)).
  - reflexivity.
  - reflexivity.
  - intros j c Hj Hc.
    destruct j as [|[|[|j]]]; [congruence| | |destruct j; discriminate];
      vm_compute in Hc; injection Hc as <-; vm_compute; reflexivity.
Defined.

(** ** The normalizer *)

Lemma append_cons (c : ascii) (a b : string) :
  String c a +:+ b = String c (a +:+ b).
Proof. reflexivity. Qed.

Lemma substring_whole (s : string) : String.substring 0 (String.length s) s = s.
Proof. induction s as [|c s IH]; simpl; [reflexivity|now rewrite IH]. Qed.

Lemma length_append (a b : string) :
  String.length (a +:+ b) = (String.length a + String.length b)%nat.
Proof.
  induction a as [|c a IH]; [reflexivity|].
  rewrite append_cons. simpl. now rewrite IH.
Qed.

Lemma substring_append_tail (a b : string) :
  String.substring (String.length a) (String.length b) (a +:+ b) = b.
Proof.
  induction a as [|c a IH]; [apply substring_whole|].
  rewrite append_cons. simpl. exact IH.
Qed.

Lemma substring_append_head (a b : string) :
  String.substring 0 (String.length a) (a +:+ b) = a.
Proof.
  induction a as [|c a IH]; [now destruct b|].
  rewrite append_cons. simpl. now rewrite IH.
Qed.

Lemma append_assoc (a b c : string) : (a +:+ b) +:+ c = a +:+ (b +:+ c).
Proof.
  induction a as [|x a IH]; [reflexivity|].
  rewrite !append_cons. now rewrite IH.
Qed.

Lemma substring_split (n : nat) (s : string) :
  (n <= String.length s)%nat ->
  s = String.substring 0 n s +:+ String.substring n (String.length s - n) s.
Proof.
  revert s. induction n as [|n IH]; intros s Hn.
  - rewrite Nat.sub_0_r, substring_whole. now destruct s.
  - destruct s as [|c s]; simpl in Hn; [lia|].
    simpl. rewrite append_cons. f_equal. apply IH. lia.
Qed.

Lemma endsWith_append (s suffix : string) :
  JS.endsWith s suffix = true <-> exists head, s = head +:+ suffix.
Proof.
  unfold JS.endsWith. split.
  - intros H. apply andb_prop in H as [Hlen Heq].
    apply Nat.leb_le in Hlen. apply String.eqb_eq in Heq.
    exists (String.substring 0 (String.length s - String.length suffix) s).
    pose proof (substring_split (String.length s - String.length suffix) s)
      as Hsplit.
    replace (String.length s - (String.length s - String.length suffix))%nat
      with (String.length suffix) in Hsplit by lia.
    rewrite Heq in Hsplit. apply Hsplit. lia.
  - intros [head ->]. rewrite length_append.
    replace (String.length head + String.length suffix - String.length suffix)%nat
      with (String.length head) by lia.
    rewrite substring_append_tail, String.eqb_refl.
    rewrite andb_true_r. apply Nat.leb_le. lia.
Qed.

Lemma dropLast_append (head suffix : string) :
  JS.dropLast (String.length suffix) (head +:+ suffix) = head.
Proof.
  unfold JS.dropLast. rewrite length_append.
  replace (String.length head + String.length suffix - String.length suffix)%nat
    with (String.length head) by lia.
  apply substring_append_head.
Qed.

(** X4. Of the two suffix rules of [extractTrainNumberFromKey] only the
    first ever applies: a key that ends in 099900 also ends in 9900, so the
    number of a non-empty key is that of the key with a trailing 9900
    removed (or null if that is not finite), and a key [p099900] yields the
    number of [p09], not of [p]. *)
Theorem six_digit_suffix_never_stripped (key : string) :
  extractTrainNumberFromKey (Some key)
  = (if JS.nonEmpty key
     then finiteOrNull
            (JS.Number (if JS.endsWith key "9900" then JS.dropLast 4 key else key))
     else None)
  /\ (forall head, key = head +:+ "099900" ->
        extractTrainNumberFromKey (Some key)
        = finiteOrNull (JS.Number (head +:+ "09"))).
Proof.
  assert (JS.endsWith key "099900" = true -> JS.endsWith key "9900" = true)
    as Hdead.
  { intros H. apply endsWith_append in H as [head ->].
    apply endsWith_append. exists (head +:+ "09").
    now rewrite append_assoc. }
  split.
  - unfold extractTrainNumberFromKey.
    destruct (JS.nonEmpty key); [|reflexivity]. simpl.
    destruct (JS.endsWith key "9900") eqn:H4; [reflexivity|].
    destruct (JS.endsWith key "099900") eqn:H6; [|reflexivity].
    discriminate (Hdead eq_refl).
  - intros head ->. unfold extractTrainNumberFromKey.
    assert (JS.nonEmpty (head +:+ "099900") = true) as ->
      by (induction head; reflexivity).
    simpl negb. cbv iota.
    assert (JS.endsWith (head +:+ "099900") "9900" = true) as ->.
    { apply endsWith_append. exists (head +:+ "09").
      now rewrite append_assoc. }
    change (head +:+ "099900") with (head +:+ ("09" +:+ "9900")).
    rewrite <- append_assoc.
    pose proof (dropLast_append (head +:+ "09") "9900") as Hdrop.
    cbn [String.length] in Hdrop. now rewrite Hdrop.
Qed.

Lemma flatten_cell (now : Z) (trainKey : string)
    (variants : list (string * SocketTrainPayload.t)) :
  List.map LiveTrainDelta.id
    (List.concat
       (List.map
          (fun '(variantKey, payload) =>
             match parseSocketPayload now trainKey variantKey payload with
             | Some delta => [delta]
             | None => []
             end)
          variants))
  = List.map compositeId
      (List.filter hasFinitePosition
         (List.map (fun '(variantKey, payload) => (trainKey, variantKey, payload))
                   variants)).
Proof.
  induction variants as [|[variantKey payload] rest IH]; [reflexivity|].
  cbn [List.map List.concat List.filter].
  rewrite map_app, IH.
  generalize (List.filter hasFinitePosition
                (List.map
                   (fun '(variantKey, payload) =>
                      (trainKey, variantKey, payload))
                   rest)).
  intros tail. unfold hasFinitePosition, parseSocketPayload. cbn [snd].
  destruct (JS.isFinite (JS.NumberOpt (SocketTrainPayload.lat payload)));
    destruct (JS.isFinite (JS.NumberOpt (SocketTrainPayload.lon payload)));
    cbn [negb orb andb List.map app]; reflexivity.
Qed.

(** X5. Flattening an envelope neither reorders nor duplicates nor invents
    anything: the ids of the deltas it yields are, in envelope order, the
    [outerKey:innerKey] of exactly the triples whose position is finite. *)
Theorem flatten_keeps_finite_triples_in_order (now : Z)
    (envelope : SocketMessageEnvelope) :
  List.map LiveTrainDelta.id (flattenSocketEnvelope now envelope)
  = List.map compositeId (List.filter hasFinitePosition (triplesOf envelope)).
Proof.
  unfold flattenSocketEnvelope, triplesOf.
  induction envelope as [|[trainKey variants] rest IH]; [reflexivity|].
  cbn [List.map List.concat].
  rewrite map_app, List.filter_app, map_app, IH.
  f_equal. apply flatten_cell.
Qed.

Lemma finiteOrNull_finite (parsed n : JS.num) :
  finiteOrNull parsed = Some n -> JS.isFinite n = true.
Proof.
  unfold finiteOrNull. destruct (JS.isFinite parsed) eqn:E; [|discriminate].
  now intros [= <-].
Qed.

Lemma extractTrainNumberFromKey_finite (value : option string) (n : JS.num) :
  extractTrainNumberFromKey value = Some n -> JS.isFinite n = true.
Proof.
  unfold extractTrainNumberFromKey.
  destruct value as [v|]; [|discriminate].
  destruct (negb (JS.nonEmpty v)); [discriminate|].
  destruct (JS.endsWith v "9900"); [apply finiteOrNull_finite|].
  destruct (JS.endsWith v "099900"); apply finiteOrNull_finite.
Qed.

(** X6. Every delta the normalizer produces keeps the two keys it was
    reported under and is identified by [trainKey:variantKey]; it carries
    a train-number hint that is null or finite and comes from the train key
    whenever that key yields a number (the variant key is consulted only
    otherwise), and a speed that is null or finite. *)
Theorem normalized_hint_and_speed (now : Z) (trainKey variantKey : string)
    (payload : SocketTrainPayload.t) (delta : LiveTrainDelta.t) :
  parseSocketPayload now trainKey variantKey payload = Some delta ->
  LiveTrainDelta.id delta = trainKey +:+ ":" +:+ variantKey
  /\ LiveTrainDelta.trainKey delta = trainKey
  /\ LiveTrainDelta.variantKey delta = variantKey
  /\ LiveTrainDelta.trainNumber delta
     = match extractTrainNumberFromKey (Some trainKey) with
       | Some n => Some n
       | None => extractTrainNumberFromKey (Some variantKey)
       end
  /\ (forall n, LiveTrainDelta.trainNumber delta = Some n ->
        JS.isFinite n = true)
  /\ (forall v, LiveTrainDelta.speed delta = Some v -> JS.isFinite v = true).
Proof.
  intros Hparse.
  pose proof (speed_is_finite_or_null _ _ _ _ _ Hparse) as Hspeed.
  remember (match extractTrainNumberFromKey (Some trainKey) with
            | Some n => Some n
            | None => extractTrainNumberFromKey (Some variantKey)
            end) as hint eqn:Hhint.
  assert (forall n, hint = Some n -> JS.isFinite n = true) as Hfinite.
  { intros n Hn. rewrite Hn in Hhint. symmetry in Hhint.
    destruct (extractTrainNumberFromKey (Some trainKey)) as [m|] eqn:Hkey.
    - injection Hhint as ->.
      now apply (extractTrainNumberFromKey_finite _ _ Hkey).
    - now apply (extractTrainNumberFromKey_finite _ _ Hhint). }
  assert (LiveTrainDelta.id delta = trainKey +:+ ":" +:+ variantKey
          /\ LiveTrainDelta.trainKey delta = trainKey
          /\ LiveTrainDelta.variantKey delta = variantKey
          /\ LiveTrainDelta.trainNumber delta
             = (if JS.isFiniteOpt hint then hint else None))
    as (Hid & Hkey & Hvariant & Hnumber).
  { unfold parseSocketPayload in Hparse.
    destruct (negb _ || negb _); [discriminate|].
    injection Hparse as <-. subst hint. repeat split; reflexivity. }
  assert (LiveTrainDelta.trainNumber delta = hint) as Hsame.
  { rewrite Hnumber. destruct hint as [n|]; [|reflexivity].
    cbn [JS.isFiniteOpt]. now rewrite (Hfinite n eq_refl). }
  split; [exact Hid|]. split; [exact Hkey|]. split; [exact Hvariant|].
  split; [exact Hsame|]. split.
  - intros n Hn. apply Hfinite. congruence.
  - intros v Hv. destruct Hspeed as [Hnone|[q Hq]]; [congruence|].
    rewrite Hv in Hq. now injection Hq as ->.
Qed.

Lemma normalized_hint_and_speed_witness :
  exists delta,
    parseSocketPayload Samples.clock "x9900" "41" Samples.garbledPayload
    = Some delta
    /\ LiveTrainDelta.id delta = "x9900:41"
    /\ LiveTrainDelta.trainKey delta = "x9900"
    /\ LiveTrainDelta.variantKey delta = "41"
    /\ LiveTrainDelta.trainNumber delta
       = match extractTrainNumberFromKey (Some "x9900") with
         | Some n => Some n
         | None => extractTrainNumberFromKey (Some "41")
         end
    /\ (forall n, LiveTrainDelta.trainNumber delta = Some n ->
          JS.isFinite n = true)
    /\ (forall v, LiveTrainDelta.speed delta = Some v -> JS.isFinite v = true).
Proof.
  eexists. split; [reflexivity|].
  exact (normalized_hint_and_speed Samples.clock "x9900" "41"
           Samples.garbledPayload _ eq_refl).
Defined.

(** ** The run merger *)

Lemma NoDup_map_filter {A B : Type} (f : A -> B) (p : A -> bool) (l : list A) :
  List.NoDup (List.map f l) -> List.NoDup (List.map f (List.filter p l)).
Proof.
  induction l as [|x l IH]; simpl; intros Hnd; [constructor|].
  inversion Hnd as [|? ? Hx Hrest]; subst.
  destruct (p x); simpl; [|now apply IH].
  constructor; [|now apply IH].
  intros Hin. apply Hx.
  apply in_map_iff in Hin as (y & Hy & Hin).
  apply filter_In in Hin as [Hin _].
  apply in_map_iff. now exists y.
Qed.

(** X7. Merging a delta into a train replaces the run that has the delta's
    id and keeps every other run: a run is in the merged set exactly when
    it is the delta's normalized run or a previous run with another id; if
    the run ids were pairwise distinct they still are. *)
Theorem merge_replaces_same_id (t : TrainWithRoute.t)
    (delta : LiveTrainDelta.t) (preferredRunId : option string) :
  (forall run,
     In run (runsOf (updateTrainWithDelta t delta preferredRunId)) <->
     run = normalizedRun t delta
     \/ (In run (runsOf t)
         /\ LiveTrainDelta.id run <> LiveTrainDelta.id delta))
  /\
  (List.NoDup (List.map LiveTrainDelta.id (runsOf t)) ->
   List.NoDup
     (List.map LiveTrainDelta.id
        (runsOf (updateTrainWithDelta t delta preferredRunId)))).
Proof.
  change (runsOf (updateTrainWithDelta t delta preferredRunId))
    with (mergeRuns (runsOf t) (normalizedRun t delta)).
  split.
  - intros run.
    exact (mergeRuns_In_iff (runsOf t) (normalizedRun t delta) run).
  - intros Hnd. unfold mergeRuns.
    apply (Permutation_NoDup
             (Permutation_map LiveTrainDelta.id
                (Permutation_sym (sort_Permutation byLastUpdatedDesc _)))).
    rewrite map_app. cbn [List.map].
    apply List.NoDup_app.
    + now apply NoDup_map_filter.
    + constructor; [intros []|constructor].
    + intros x Hx Hnew.
      destruct Hnew as [<-|[]].
      apply in_map_iff in Hx as (run & Hid & Hin).
      apply filter_In in Hin as [_ Hkeep].
      unfold hasId in Hkeep. apply negb_true_iff, String.eqb_neq in Hkeep.
      congruence.
Qed.

Lemma selectRun_In (desired : string) (merged : list LiveTrainDelta.t)
    (nd : LiveTrainDelta.t) :
  merged <> [] -> In (selectRun desired merged nd) merged.
Proof.
  intros Hne. unfold selectRun.
  destruct (List.find (hasId desired) merged) as [run|] eqn:Hfind.
  - now apply find_some in Hfind as [Hin _].
  - destruct merged as [|run rest]; [now destruct Hne|now left].
Qed.

(** X8. After every merge the train is live, its [livePosition] is one of
    its runs, [selectedRunId] is the id of that run, and the upcoming and
    previous stops are the ones computed for that run. *)
Theorem merge_selects_a_present_run (t : TrainWithRoute.t)
    (delta : LiveTrainDelta.t) (preferredRunId : option string) :
  exists selected,
    In selected (runsOf (updateTrainWithDelta t delta preferredRunId))
    /\ TrainWithRoute.livePosition
         (updateTrainWithDelta t delta preferredRunId) = Some selected
    /\ TrainWithRoute.selectedRunId
         (updateTrainWithDelta t delta preferredRunId)
       = Some (LiveTrainDelta.id selected)
    /\ TrainWithRoute.IsLive (updateTrainWithDelta t delta preferredRunId)
       = true
    /\ (TrainWithRoute.upcomingStop
          (updateTrainWithDelta t delta preferredRunId),
        TrainWithRoute.previousStop
          (updateTrainWithDelta t delta preferredRunId))
       = computeStopsForRun t (Some selected).
Proof.
  set (nd := normalizedRun t delta).
  set (merged := mergeRuns (runsOf t) nd).
  exists (selectRun (desiredRunIdOf preferredRunId t nd) merged nd).
  split; [apply selectRun_In, mergeRuns_nonempty|].
  repeat split.
Qed.

Lemma find_hasId_present (r : string) (runs : list LiveTrainDelta.t) :
  (exists run, In run runs /\ LiveTrainDelta.id run = r) ->
  exists run, List.find (hasId r) runs = Some run /\ LiveTrainDelta.id run = r.
Proof.
  intros (run & Hin & Hid).
  destruct (List.find (hasId r) runs) as [x|] eqn:Hfind.
  - exists x. split; [reflexivity|].
    apply find_some in Hfind as [_ Hx]. unfold hasId in Hx.
    now apply String.eqb_eq in Hx.
  - pose proof (List.find_none _ _ Hfind run Hin) as Hno.
    unfold hasId in Hno. rewrite Hid, String.eqb_refl in Hno. discriminate.
Qed.

(** X9. The pin is honoured: when a preferred run id is given and the
    train already has a run with that id (or the delta itself has it), that
    id is the selection after the merge; without a pin, an earlier
    selection that is still among the runs is kept; and with neither pin
    nor earlier selection the incoming delta becomes the selection. *)
Theorem merge_honours_pin (t : TrainWithRoute.t)
    (delta : LiveTrainDelta.t) :
  (forall r,
     (exists run, In run (runsOf t) /\ LiveTrainDelta.id run = r)
     \/ LiveTrainDelta.id delta = r ->
     TrainWithRoute.selectedRunId (updateTrainWithDelta t delta (Some r))
     = Some r)
  /\
  (forall r,
     TrainWithRoute.selectedRunId t = Some r ->
     (exists run, In run (runsOf t) /\ LiveTrainDelta.id run = r) ->
     TrainWithRoute.selectedRunId (updateTrainWithDelta t delta None) = Some r)
  /\
  (TrainWithRoute.selectedRunId t = None ->
   TrainWithRoute.selectedRunId (updateTrainWithDelta t delta None)
   = Some (LiveTrainDelta.id delta)).
Proof.
  set (nd := normalizedRun t delta).
  assert (forall r,
            (exists run, In run (runsOf t) /\ LiveTrainDelta.id run = r)
            \/ LiveTrainDelta.id delta = r ->
            LiveTrainDelta.id (selectRun r (mergeRuns (runsOf t) nd) nd) = r)
    as Hpresent.
  { intros r Hr.
    assert (exists run, In run (mergeRuns (runsOf t) nd)
                        /\ LiveTrainDelta.id run = r) as Hin.
    { destruct (String.eqb_spec (LiveTrainDelta.id delta) r) as [Heq|Hne].
      - exists nd. split; [|exact Heq]. apply mergeRuns_In_iff. now left.
      - destruct Hr as [(run & Hin & Hid)|Hid]; [|contradiction].
        exists run. split; [|exact Hid].
        apply mergeRuns_In_iff. right. split; [exact Hin|].
        change (LiveTrainDelta.id nd) with (LiveTrainDelta.id delta).
        congruence. }
    apply find_hasId_present in Hin as (x & Hfind & Hx).
    unfold selectRun. now rewrite Hfind. }
  split; [|split].
  - intros r Hr.
    change (TrainWithRoute.selectedRunId
              (updateTrainWithDelta t delta (Some r)))
      with (Some (LiveTrainDelta.id
                    (selectRun r (mergeRuns (runsOf t) nd) nd))).
    now rewrite (Hpresent r Hr).
  - intros r Hsel Hr.
    replace (TrainWithRoute.selectedRunId (updateTrainWithDelta t delta None))
      with (Some (LiveTrainDelta.id
                    (selectRun r (mergeRuns (runsOf t) nd) nd))).
    + rewrite (Hpresent r); [reflexivity|now left].
    + unfold updateTrainWithDelta, desiredRunIdOf. rewrite Hsel. reflexivity.
  - intros Hsel.
    replace (TrainWithRoute.selectedRunId (updateTrainWithDelta t delta None))
      with (Some (LiveTrainDelta.id
                    (selectRun (LiveTrainDelta.id delta)
                               (mergeRuns (runsOf t) nd) nd))).
    + rewrite (Hpresent (LiveTrainDelta.id delta)); [reflexivity|now right].
    + unfold updateTrainWithDelta, desiredRunIdOf. rewrite Hsel. reflexivity.
Qed.

Lemma le_refl_number (x : JS.num) : x <> JS.NaN -> JS.le x x = true.
Proof.
  destruct x as [| | |q]; intros H; try reflexivity; [now destruct H|].
  apply Qle_bool_iff. lra.
Qed.

(** What the comparator of the merger says about two timestamps. *)
Lemma byLastUpdatedDesc_order (y x : LiveTrainDelta.t) :
  hasTimestamp x -> hasTimestamp y ->
  if JS.gt0 (byLastUpdatedDesc y x)
  then JS.le (LiveTrainDelta.lastUpdated y) (LiveTrainDelta.lastUpdated x) = true
  else JS.le (LiveTrainDelta.lastUpdated x) (LiveTrainDelta.lastUpdated y) = true.
Proof.
  unfold hasTimestamp, byLastUpdatedDesc, JS.sub.
  destruct (LiveTrainDelta.lastUpdated x) as [| | |p],
           (LiveTrainDelta.lastUpdated y) as [| | |q];
    intros Hx Hy; try (now destruct Hx); try (now destruct Hy);
    try reflexivity.
  rewrite round_positive. simpl.
  destruct (Qle_bool (p - q) 0) eqn:E; simpl.
  - apply Qle_bool_iff in E. apply Qle_bool_iff. lra.
  - apply Qle_bool_iff. apply Qnot_lt_le. intros Hlt.
    assert (Qle_bool (p - q) 0 = true) by (apply Qle_bool_iff; lra).
    congruence.
Qed.

Lemma insertSorted_oldestFirst (x : LiveTrainDelta.t)
    (acc : list LiveTrainDelta.t) :
  hasTimestamp x -> Forall hasTimestamp acc ->
  StronglySorted
    (fun a b =>
       JS.le (LiveTrainDelta.lastUpdated a) (LiveTrainDelta.lastUpdated b) = true)
    acc ->
  StronglySorted
    (fun a b =>
       JS.le (LiveTrainDelta.lastUpdated a) (LiveTrainDelta.lastUpdated b) = true)
    (JS.insertSorted byLastUpdatedDesc x acc).
Proof.
  intros Hx. induction acc as [|y acc IH]; intros Hstamps Hs;
    cbn [JS.insertSorted].
  - repeat constructor.
  - inversion Hs as [|? ? Hrest Hall]; subst.
    inversion Hstamps as [|? ? Hy Hstamps']; subst.
    pose proof (byLastUpdatedDesc_order y x Hx Hy) as Horder.
    destruct (JS.gt0 (byLastUpdatedDesc y x)).
    + constructor; [now apply IH|].
      apply List.Forall_forall. intros z Hz.
      apply (Permutation_in _ (insertSorted_Permutation byLastUpdatedDesc x acc))
        in Hz.
      destruct Hz as [<-|Hz]; [exact Horder|].
      rewrite List.Forall_forall in Hall. now apply Hall.
    + constructor; [exact Hs|].
      constructor; [exact Horder|].
      apply List.Forall_forall. intros z Hz.
      rewrite List.Forall_forall in Hall.
      exact (le_trans_number _ _ _ Horder (Hall z Hz)).
Qed.

Lemma sortedPrefix_oldestFirst (l : list LiveTrainDelta.t) :
  Forall hasTimestamp l ->
  StronglySorted
    (fun a b =>
       JS.le (LiveTrainDelta.lastUpdated a) (LiveTrainDelta.lastUpdated b) = true)
    (JS.sortedPrefix byLastUpdatedDesc l).
Proof.
  unfold JS.sortedPrefix. intros Hl.
  assert (forall acc,
    Forall hasTimestamp acc ->
    StronglySorted
      (fun a b =>
         JS.le (LiveTrainDelta.lastUpdated a) (LiveTrainDelta.lastUpdated b)
         = true) acc ->
    Forall hasTimestamp
      (fold_left (fun acc x => JS.insertSorted byLastUpdatedDesc x acc) l acc)
    /\ StronglySorted
      (fun a b =>
         JS.le (LiveTrainDelta.lastUpdated a) (LiveTrainDelta.lastUpdated b)
         = true)
      (fold_left (fun acc x => JS.insertSorted byLastUpdatedDesc x acc) l acc))
    as Hgen.
  { induction l as [|x l IH]; intros acc Hacc Hs; simpl; [now split|].
    inversion Hl as [|? ? Hx Hl']; subst.
    apply (IH Hl').
    - apply List.Forall_forall. intros z Hz.
      apply (Permutation_in _ (insertSorted_Permutation byLastUpdatedDesc x acc))
        in Hz.
      destruct Hz as [<-|Hz]; [exact Hx|].
      rewrite List.Forall_forall in Hacc. now apply Hacc.
    - now apply insertSorted_oldestFirst. }
  apply Hgen; constructor.
Qed.

Lemma StronglySorted_rev {A : Type} (R : A -> A -> Prop) (l : list A) :
  StronglySorted R l -> StronglySorted (fun a b => R b a) (List.rev l).
Proof.
  induction 1 as [|x l Hs IH Hall]; simpl; [constructor|].
  apply StronglySorted_app_2.
  - intros a b Ha Hb.
    apply list_elem_of_In in Ha, Hb.
    destruct Hb as [<-|[]].
    rewrite List.Forall_forall in Hall. apply Hall. now apply in_rev.
  - exact IH.
  - repeat constructor.
Qed.

(** X10. Whatever the order of the runs before, the run set of a merged
    train is ordered most recent first, provided no timestamp involved is
    NaN; and its first run is at least as recent as every run of the set. *)
Theorem merged_runs_newest_first (t : TrainWithRoute.t)
    (delta : LiveTrainDelta.t) (preferredRunId : option string) :
  hasTimestamp delta ->
  Forall hasTimestamp (runsOf t) ->
  newestFirst (runsOf (updateTrainWithDelta t delta preferredRunId))
  /\ (forall first rest run,
        runsOf (updateTrainWithDelta t delta preferredRunId) = first :: rest ->
        In run (runsOf (updateTrainWithDelta t delta preferredRunId)) ->
        JS.le (LiveTrainDelta.lastUpdated run)
              (LiveTrainDelta.lastUpdated first) = true).
Proof.
  intros Hdelta Hruns.
  change (runsOf (updateTrainWithDelta t delta preferredRunId))
    with (mergeRuns (runsOf t) (normalizedRun t delta)).
  set (merged := mergeRuns (runsOf t) (normalizedRun t delta)).
  assert (Forall hasTimestamp
            (List.filter
               (fun run =>
                  negb (hasId (LiveTrainDelta.id (normalizedRun t delta)) run))
               (runsOf t) ++ [normalizedRun t delta])) as Hall.
  { apply List.Forall_forall. intros z Hz.
    apply in_app_or in Hz as [Hz|[<-|[]]]; [|exact Hdelta].
    apply filter_In in Hz as [Hz _].
    rewrite List.Forall_forall in Hruns. now apply Hruns. }
  assert (newestFirst merged) as Hsorted.
  { unfold newestFirst, merged, mergeRuns, JS.sort.
    apply (StronglySorted_rev
             (fun a b =>
                JS.le (LiveTrainDelta.lastUpdated a)
                      (LiveTrainDelta.lastUpdated b) = true)).
    now apply sortedPrefix_oldestFirst. }
  split; [exact Hsorted|].
  intros first rest run Hshape Hin.
  rewrite Hshape in Hsorted, Hin.
  inversion Hsorted as [|? ? _ Hfirst]; subst.
  destruct Hin as [<-|Hin].
  - apply le_refl_number.
    assert (In first merged) as Hmem by (rewrite Hshape; now left).
    unfold merged, mergeRuns in Hmem.
    apply (proj1 (sort_In byLastUpdatedDesc _ _)) in Hmem.
    rewrite List.Forall_forall in Hall. exact (Hall first Hmem).
  - rewrite List.Forall_forall in Hfirst. now apply Hfirst.
Qed.

Lemma merged_runs_newest_first_witness :
  newestFirst
    (runsOf (updateTrainWithDelta Samples.trackedTwice
               (Samples.probe "123" "7" (JS.ofZ Samples.clock) None None None)
               None))
  /\ (forall first rest run,
        runsOf (updateTrainWithDelta Samples.trackedTwice
                  (Samples.probe "123" "7" (JS.ofZ Samples.clock) None None None)
                  None) = first :: rest ->
        In run
          (runsOf (updateTrainWithDelta Samples.trackedTwice
                     (Samples.probe "123" "7" (JS.ofZ Samples.clock)
                                    None None None)
                     None)) ->
        JS.le (LiveTrainDelta.lastUpdated run)
              (LiveTrainDelta.lastUpdated first) = true).
Proof.
  apply merged_runs_newest_first.
  - discriminate.
  - repeat constructor; discriminate.
Defined.

Lemma findStopByStationId_route (route : list TrainStop.t)
    (stationId : option JS.num) (stop : TrainStop.t) :
  (if truthyNum stationId then findStopByStationId route stationId else None)
  = Some stop ->
  In stop route /\ idEq (TrainStop.StationId stop) stationId = true
  /\ truthyNum stationId = true.
Proof.
  unfold findStopByStationId.
  destruct (truthyNum stationId); [|discriminate]. simpl.
  intros Hfind. apply find_some in Hfind as [Hin Heq]. auto.
Qed.

Lemma truthyNum_zero (q : Q) : (q == 0)%Q -> truthyNum (Some (JS.Fin q)) = false.
Proof.
  intros Hq. cbn [truthyNum JS.truthy]. apply negb_false_iff.
  now apply Qeq_bool_iff.
Qed.

Lemma guarded_stop_absent (route : list TrainStop.t)
    (stationId : option JS.num) :
  (truthyNum stationId = false
   \/ (forall stop, In stop route ->
                    idEq (TrainStop.StationId stop) stationId = false)) ->
  (if truthyNum stationId then findStopByStationId route stationId else None)
  = None.
Proof.
  intros [Hfalsy|Habsent].
  - now rewrite Hfalsy.
  - destruct (truthyNum stationId); [|reflexivity].
    unfold findStopByStationId.
    destruct (negb (truthyNum _)); [reflexivity|].
    now apply find_none.
Qed.

(** X11. The stops shown for a merged train come from its own route: an
    upcoming (previous) stop, when present, is a stop of the route whose
    StationId equals the next (previous) station id of the selected run,
    and that id is truthy: present, not zero and not NaN.  A station id
    that is absent, zero or NaN yields no stop even when the route has a
    station with that id, and so does a station id no stop of the route
    has. *)
Theorem merged_stops_come_from_route (t : TrainWithRoute.t)
    (delta : LiveTrainDelta.t) (preferredRunId : option string) :
  exists selected,
    TrainWithRoute.livePosition (updateTrainWithDelta t delta preferredRunId)
    = Some selected
    /\ (forall stop,
          TrainWithRoute.upcomingStop
            (updateTrainWithDelta t delta preferredRunId) = Some stop ->
          In stop (TrainWithRoute.route t)
          /\ idEq (TrainStop.StationId stop)
                  (LiveTrainDelta.nextStationId selected) = true
          /\ truthyNum (LiveTrainDelta.nextStationId selected) = true)
    /\ (forall stop,
          TrainWithRoute.previousStop
            (updateTrainWithDelta t delta preferredRunId) = Some stop ->
          In stop (TrainWithRoute.route t)
          /\ idEq (TrainStop.StationId stop)
                  (LiveTrainDelta.prevStationId selected) = true
          /\ truthyNum (LiveTrainDelta.prevStationId selected) = true)
    /\ (truthyNum (LiveTrainDelta.nextStationId selected) = false
        \/ (forall stop, In stop (TrainWithRoute.route t) ->
              idEq (TrainStop.StationId stop)
                   (LiveTrainDelta.nextStationId selected) = false) ->
        TrainWithRoute.upcomingStop
          (updateTrainWithDelta t delta preferredRunId) = None)
    /\ (truthyNum (LiveTrainDelta.prevStationId selected) = false
        \/ (forall stop, In stop (TrainWithRoute.route t) ->
              idEq (TrainStop.StationId stop)
                   (LiveTrainDelta.prevStationId selected) = false) ->
        TrainWithRoute.previousStop
          (updateTrainWithDelta t delta preferredRunId) = None)
    /\ (forall q, (q == 0)%Q ->
          (LiveTrainDelta.nextStationId selected = Some (JS.Fin q) ->
           TrainWithRoute.upcomingStop
             (updateTrainWithDelta t delta preferredRunId) = None)
          /\ (LiveTrainDelta.prevStationId selected = Some (JS.Fin q) ->
              TrainWithRoute.previousStop
                (updateTrainWithDelta t delta preferredRunId) = None))
    /\ (LiveTrainDelta.nextStationId selected = Some JS.NaN
        \/ LiveTrainDelta.nextStationId selected = None ->
        TrainWithRoute.upcomingStop
          (updateTrainWithDelta t delta preferredRunId) = None)
    /\ (LiveTrainDelta.prevStationId selected = Some JS.NaN
        \/ LiveTrainDelta.prevStationId selected = None ->
        TrainWithRoute.previousStop
          (updateTrainWithDelta t delta preferredRunId) = None).
Proof.
  set (nd := normalizedRun t delta).
  set (selected :=
         selectRun (desiredRunIdOf preferredRunId t nd)
                   (mergeRuns (runsOf t) nd) nd).
  exists selected. split; [reflexivity|].
  change (TrainWithRoute.upcomingStop
            (updateTrainWithDelta t delta preferredRunId))
    with (if truthyNum (LiveTrainDelta.nextStationId selected)
          then findStopByStationId (TrainWithRoute.route t)
                 (LiveTrainDelta.nextStationId selected)
          else None).
  change (TrainWithRoute.previousStop
            (updateTrainWithDelta t delta preferredRunId))
    with (if truthyNum (LiveTrainDelta.prevStationId selected)
          then findStopByStationId (TrainWithRoute.route t)
                 (LiveTrainDelta.prevStationId selected)
          else None).
  split; [|split; [|split; [|split; [|split; [|split]]]]].
  - intros stop Hstop. now apply findStopByStationId_route.
  - intros stop Hstop. now apply findStopByStationId_route.
  - apply guarded_stop_absent.
  - apply guarded_stop_absent.
  - intros q Hq. split; intros Hid; apply guarded_stop_absent; left;
      rewrite Hid; now apply truthyNum_zero.
  - intros [Hid|Hid]; apply guarded_stop_absent; left; now rewrite Hid.
  - intros [Hid|Hid]; apply guarded_stop_absent; left; now rewrite Hid.
Qed.

(** The yard shuttle calls at the station numbered 0; a report naming 0 as
    next and as previous station shows no stop. *)
Example station_zero_shows_no_stop :
  let report :=
    {| LiveTrainDelta.id := "900:1";
       LiveTrainDelta.trainKey := "900";
       LiveTrainDelta.variantKey := "1";
       LiveTrainDelta.locomitiveNo := None;
       LiveTrainDelta.lat := JS.Fin 30.1;
       LiveTrainDelta.lon := JS.Fin 70.2;
       LiveTrainDelta.lastUpdated := JS.ofZ Samples.clock;
       LiveTrainDelta.lateBy := None;
       LiveTrainDelta.nextStationId := Some (JS.Fin 0);
       LiveTrainDelta.nextStopName := None;
       LiveTrainDelta.prevStationId := Some (JS.Fin 0);
       LiveTrainDelta.speed := None;
       LiveTrainDelta.trainNumber := Some (JS.Fin 900);
       LiveTrainDelta.dayNumber := None;
       LiveTrainDelta.isTrainStation := false;
       LiveTrainDelta.isTrainStop := false;
       LiveTrainDelta.isFlagged := false;
       LiveTrainDelta.iconUrl := None;
       LiveTrainDelta.statusCode := None;
       LiveTrainDelta.direction := unknown |} in
  let merged := updateTrainWithDelta Samples.yardShuttle report None in
  List.map TrainStop.StationId (TrainWithRoute.route Samples.yardShuttle)
  = [0%Z]
  /\ TrainWithRoute.livePosition merged = Some report
  /\ TrainWithRoute.upcomingStop merged = None
  /\ TrainWithRoute.previousStop merged = None.
Proof. cbv zeta. repeat split. Qed.

(** ** Choosing among concurrent runs *)

(** X12. Choosing a run never changes the run set; an id that no run of the
    train has changes nothing at all; an id some run has becomes the
    selection, with that run as live position; and choosing the same id a
    second time changes nothing more. *)
Theorem run_selection_keeps_runs (t : TrainWithRoute.t) (runId : string) :
  TrainWithRoute.liveRuns (applyRunSelectionToTrain t runId)
  = TrainWithRoute.liveRuns t
  /\ ((forall run, In run (runsOf t) -> LiveTrainDelta.id run <> runId) ->
      applyRunSelectionToTrain t runId = t)
  /\ ((exists run, In run (runsOf t) /\ LiveTrainDelta.id run = runId) ->
      TrainWithRoute.selectedRunId (applyRunSelectionToTrain t runId)
      = Some runId
      /\ exists selected,
           In selected (runsOf t)
           /\ LiveTrainDelta.id selected = runId
           /\ TrainWithRoute.livePosition (applyRunSelectionToTrain t runId)
              = Some selected)
  /\ applyRunSelectionToTrain (applyRunSelectionToTrain t runId) runId
     = applyRunSelectionToTrain t runId.
Proof.
  unfold applyRunSelectionToTrain at 1 2 3 4 6. fold (runsOf t).
  destruct (List.find (hasId runId) (runsOf t)) as [run|] eqn:Hfind.
  - pose proof (find_some _ _ Hfind) as [Hin Hid].
    unfold hasId in Hid. apply String.eqb_eq in Hid.
    split; [now destruct (computeStopsForRun t (Some run))|].
    split.
    { intros Hnone. now destruct (Hnone run Hin). }
    split.
    { intros _. destruct (computeStopsForRun t (Some run)) eqn:Hstops.
      cbn. rewrite Hid. split; [reflexivity|]. now exists run. }
    destruct (computeStopsForRun t (Some run)) as [upcoming previous] eqn:Hstops.
    unfold applyRunSelectionToTrain. cbn [TrainWithRoute.liveRuns
      TrainWithRoute.withLiveState].
    fold (runsOf t). rewrite Hfind.
    change (computeStopsForRun
              (TrainWithRoute.withLiveState t true (TrainWithRoute.liveRuns t)
                 (Some (LiveTrainDelta.id run)) (Some run) upcoming previous)
              (Some run))
      with (computeStopsForRun t (Some run)).
    rewrite Hstops. reflexivity.
  - split; [reflexivity|]. split; [reflexivity|]. split.
    + intros (run & Hin & Hid).
      pose proof (List.find_none _ _ Hfind run Hin) as Hno.
      unfold hasId in Hno. rewrite Hid, String.eqb_refl in Hno. discriminate.
    + unfold applyRunSelectionToTrain. fold (runsOf t). now rewrite Hfind.
Qed.

(** ** The staleness sweep *)

Lemma sameStop_refl (stop : option TrainStop.t) : sameStop stop stop = true.
Proof. destruct stop; simpl; [now rewrite !Z.eqb_refl|reflexivity]. Qed.

Lemma filter_filter {A : Type} (p : A -> bool) (l : list A) :
  List.filter p (List.filter p l) = List.filter p l.
Proof.
  apply filter_all. intros x Hx. now apply filter_In in Hx as [_ Hp].
Qed.

Lemma hasNoLiveState_keeps (t : TrainWithRoute.t) (now : Z) :
  hasNoLiveState t = true -> sanitizeKeepsObject t now = true.
Proof.
  intros Hnone. unfold sanitizeKeepsObject.
  destruct (TrainWithRoute.liveRuns t) as [runs|] eqn:Hruns; [|exact Hnone].
  destruct (length runs =? 0)%nat eqn:Hlen; [exact Hnone|].
  unfold hasNoLiveState in Hnone. rewrite Hruns in Hnone. simpl in Hnone.
  rewrite Hlen, andb_false_r in Hnone. discriminate.
Qed.

(** Where the sweep hands back the object it was given, the train is
    unchanged. *)
Lemma sanitizeKeepsObject_same (t : TrainWithRoute.t) (now : Z) :
  sanitizeKeepsObject t now = true -> sanitizeTrainLiveState t now = t.
Proof.
  unfold sanitizeKeepsObject, sanitizeTrainLiveState, resetTrainLiveState.
  destruct (TrainWithRoute.liveRuns t) as [runs|].
  - destruct (length runs =? 0)%nat; [now intros ->|].
    destruct (List.filter (fun run => isRunFresh run now) runs);
      [now intros ->|].
    cbv zeta. now intros ->.
  - now intros ->.
Qed.

Lemma find_selected_again (selected : option string)
    (first : LiveTrainDelta.t) (others : list LiveTrainDelta.t) :
  let pick :=
    match
      List.find (fun run => strOptEq (Some (LiveTrainDelta.id run)) selected)
                (first :: others)
    with
    | Some run => run
    | None => first
    end in
  match
    List.find
      (fun run =>
         strOptEq (Some (LiveTrainDelta.id run)) (Some (LiveTrainDelta.id pick)))
      (first :: others)
  with
  | Some run => run
  | None => first
  end = pick.
Proof.
  cbv zeta.
  destruct (List.find
              (fun run => strOptEq (Some (LiveTrainDelta.id run)) selected)
              (first :: others)) as [run|] eqn:Hfind.
  - pose proof (find_some _ _ Hfind) as [_ Hid].
    destruct selected as [r|]; [|discriminate].
    simpl in Hid. apply String.eqb_eq in Hid. rewrite Hid.
    now rewrite Hfind.
  - cbn [List.find strOptEq]. now rewrite String.eqb_refl.
Qed.

(** What the sweep returns is a train the sweep leaves alone. *)
Lemma sanitize_result_kept (t : TrainWithRoute.t) (now : Z) :
  sanitizeKeepsObject (sanitizeTrainLiveState t now) now = true.
Proof.
  assert (sanitizeKeepsObject (resetTrainLiveState t) now = true) as Hreset.
  { unfold resetTrainLiveState.
    destruct (hasNoLiveState t) eqn:Hnone; [|reflexivity].
    now apply hasNoLiveState_keeps. }
  unfold sanitizeTrainLiveState.
  destruct (TrainWithRoute.liveRuns t) as [runs|] eqn:Hruns; [|exact Hreset].
  destruct (length runs =? 0)%nat eqn:Hlen; [exact Hreset|].
  destruct (List.filter (fun run => isRunFresh run now) runs)
    as [|first others] eqn:Hfresh; [exact Hreset|].
  cbv zeta.
  match goal with
  | |- context [if negb ?b then _ else _] => destruct b eqn:Hreq
  end; cbn [negb].
  - unfold sanitizeKeepsObject.
    cbn [TrainWithRoute.liveRuns TrainWithRoute.withLiveState
         TrainWithRoute.selectedRunId TrainWithRoute.route
         TrainWithRoute.upcomingStop TrainWithRoute.previousStop
         TrainWithRoute.IsLive length Nat.eqb].
    rewrite <- Hfresh, filter_filter, Hfresh.
    cbv zeta.
    rewrite (find_selected_again (TrainWithRoute.selectedRunId t) first others).
    rewrite Nat.eqb_refl, !sameStop_refl.
    cbn [strOptEq]. now rewrite String.eqb_refl.
  - unfold sanitizeKeepsObject. rewrite Hruns, Hlen, Hfresh.
    cbv zeta. now rewrite Hreq.
Qed.

(** X13. A second sweep at the same instant changes nothing: sweeping a
    swept collection returns it as it is, and replaces no train object. *)
Theorem sweep_is_idempotent (trains : list TrainWithRoute.t) (now : Z) :
  stripStaleLiveData (stripStaleLiveData trains now) now
  = stripStaleLiveData trains now
  /\ sweepMutates (stripStaleLiveData trains now) now = false.
Proof.
  unfold stripStaleLiveData, sweepMutates. split.
  - rewrite map_map. apply map_ext. intros t.
    apply sanitizeKeepsObject_same, sanitize_result_kept.
  - induction trains as [|t trains IH]; [reflexivity|].
    cbn [List.map List.existsb].
    now rewrite sanitize_result_kept, IH.
Qed.

Lemma sanitizeTrainLiveState_schedule (t : TrainWithRoute.t) (now : Z) :
  TrainWithRoute.TrainNumber (sanitizeTrainLiveState t now)
  = TrainWithRoute.TrainNumber t
  /\ TrainWithRoute.route (sanitizeTrainLiveState t now)
     = TrainWithRoute.route t.
Proof.
  unfold sanitizeTrainLiveState, resetTrainLiveState.
  repeat match goal with
         | |- context [match ?x with _ => _ end] => destruct x
         end; split; reflexivity.
Qed.

(** X14. The sweep only removes stale runs: the swept collection has the
    same trains in the same order (same TrainId, TrainNumber and route at
    every position), and the run set of each is its previous run set with
    the runs that are not fresh taken out, order kept. *)
Theorem sweep_only_drops_stale_runs (trains : list TrainWithRoute.t)
    (now : Z) :
  List.map TrainWithRoute.TrainId (stripStaleLiveData trains now)
  = List.map TrainWithRoute.TrainId trains
  /\ List.map TrainWithRoute.TrainNumber (stripStaleLiveData trains now)
     = List.map TrainWithRoute.TrainNumber trains
  /\ List.map TrainWithRoute.route (stripStaleLiveData trains now)
     = List.map TrainWithRoute.route trains
  /\ List.map runsOf (stripStaleLiveData trains now)
     = List.map
         (fun t => List.filter (fun run => isRunFresh run now) (runsOf t))
         trains.
Proof.
  unfold stripStaleLiveData. rewrite !map_map.
  repeat split; apply map_ext; intros t.
  - apply sanitizeTrainLiveState_TrainId.
  - apply sanitizeTrainLiveState_schedule.
  - apply sanitizeTrainLiveState_schedule.
  - apply sanitizeTrainLiveState_runs.
Qed.

Lemma sweepSelection_In (selected : option string)
    (freshRuns : list LiveTrainDelta.t) (run : LiveTrainDelta.t) :
  sweepSelection selected freshRuns = Some run -> In run freshRuns.
Proof.
  unfold sweepSelection.
  destruct (List.find _ freshRuns) as [x|] eqn:Hfind.
  - intros [= <-]. now apply find_some in Hfind as [Hin _].
  - destruct freshRuns; [discriminate|]. intros [= <-]. now left.
Qed.

Lemma sanitize_selection (t : TrainWithRoute.t) (now : Z)
    (first : LiveTrainDelta.t) (others : list LiveTrainDelta.t)
    (selected : LiveTrainDelta.t) :
  List.filter (fun run => isRunFresh run now) (runsOf t) = first :: others ->
  sweepSelection (TrainWithRoute.selectedRunId t) (first :: others)
  = Some selected ->
  TrainWithRoute.selectedRunId (sanitizeTrainLiveState t now)
  = Some (LiveTrainDelta.id selected)
  /\ TrainWithRoute.IsLive (sanitizeTrainLiveState t now) = true.
Proof.
  unfold runsOf, sanitizeTrainLiveState, sweepSelection.
  destruct (TrainWithRoute.liveRuns t) as [runs|]; [|discriminate].
  change (default [] (Some runs)) with runs. intros Hfresh.
  destruct (length runs =? 0)%nat eqn:Hlen.
  { apply Nat.eqb_eq in Hlen. destruct runs; discriminate. }
  rewrite Hfresh. cbv zeta. cbn [List.head].
  intros Hselected.
  assert (match
            List.find
              (fun run =>
                 strOptEq (Some (LiveTrainDelta.id run))
                          (TrainWithRoute.selectedRunId t))
              (first :: others)
          with
          | Some run => run
          | None => first
          end = selected) as ->.
  { destruct (List.find _ (first :: others)); congruence. }
  clear Hselected.
  match goal with
  | |- context [if negb ?b then _ else _] => destruct b eqn:Hreq
  end; cbn [negb]; [split; reflexivity|].
  apply orb_false_elim in Hreq as [Hreq Hlive].
  apply orb_false_elim in Hreq as [Hreq _].
  apply orb_false_elim in Hreq as [Hreq _].
  apply orb_false_elim in Hreq as [_ Hsel].
  apply negb_false_iff in Hsel, Hlive.
  split; [|exact Hlive].
  destruct (TrainWithRoute.selectedRunId t) as [r|]; [|discriminate].
  simpl in Hsel. apply String.eqb_eq in Hsel. now rewrite Hsel.
Qed.

(** X15. After a sweep a train that still has runs is live and its
    [selectedRunId] names one of its runs: the previously selected run if
    it is fresh, else the first fresh run. *)
Theorem sweep_selects_a_fresh_run (t : TrainWithRoute.t) (now : Z) :
  runsOf (sanitizeTrainLiveState t now) <> [] ->
  exists selected,
    sweepSelection (TrainWithRoute.selectedRunId t)
      (List.filter (fun run => isRunFresh run now) (runsOf t))
    = Some selected
    /\ In selected (runsOf (sanitizeTrainLiveState t now))
    /\ TrainWithRoute.selectedRunId (sanitizeTrainLiveState t now)
       = Some (LiveTrainDelta.id selected)
    /\ TrainWithRoute.IsLive (sanitizeTrainLiveState t now) = true.
Proof.
  intros Hsome.
  rewrite sanitizeTrainLiveState_runs in Hsome |- *.
  destruct (List.filter (fun run => isRunFresh run now) (runsOf t))
    as [|first others] eqn:Hfresh; [now destruct Hsome|].
  clear Hsome.
  destruct (sweepSelection (TrainWithRoute.selectedRunId t) (first :: others))
    as [selected|] eqn:Hselected.
  2:{ unfold sweepSelection in Hselected.
      destruct (List.find _ (first :: others)); discriminate. }
  exists selected. split; [reflexivity|].
  split; [exact (sweepSelection_In _ _ _ Hselected)|].
  now apply (sanitize_selection t now first others).
Qed.

Lemma sweep_selects_a_fresh_run_witness :
  exists selected,
    sweepSelection (TrainWithRoute.selectedRunId Samples.trackedTwice)
      (List.filter (fun run => isRunFresh run Samples.clock)
                   (runsOf Samples.trackedTwice))
    = Some selected
    /\ In selected
         (runsOf (sanitizeTrainLiveState Samples.trackedTwice Samples.clock))
    /\ TrainWithRoute.selectedRunId
         (sanitizeTrainLiveState Samples.trackedTwice Samples.clock)
       = Some (LiveTrainDelta.id selected)
    /\ TrainWithRoute.IsLive
         (sanitizeTrainLiveState Samples.trackedTwice Samples.clock) = true.
Proof.
  apply sweep_selects_a_fresh_run. discriminate.
Defined.

Lemma routeStop_findStop (route : list TrainStop.t) (stationId : option JS.num) :
  (if truthyNum stationId then findStopByStationId route stationId else None)
  = routeStop route stationId.
Proof.
  unfold findStopByStationId, routeStop.
  now destruct (truthyNum stationId).
Qed.

(** X16. A sweep leaves a train that has just been merged exactly as it
    is, handing back the same object, whenever all runs of the merged train
    are fresh. *)
Theorem sweep_keeps_fresh_merge (t : TrainWithRoute.t)
    (delta : LiveTrainDelta.t) (preferredRunId : option string) (now : Z) :
  (forall run,
     In run (runsOf (updateTrainWithDelta t delta preferredRunId)) ->
     isRunFresh run now = true) ->
  sanitizeKeepsObject (updateTrainWithDelta t delta preferredRunId) now = true
  /\ sanitizeTrainLiveState (updateTrainWithDelta t delta preferredRunId) now
     = updateTrainWithDelta t delta preferredRunId.
Proof.
  intros Hfresh.
  assert (sanitizeKeepsObject (updateTrainWithDelta t delta preferredRunId) now
          = true) as Hkept; [|split; [exact Hkept|]].
  2:{ now apply sanitizeKeepsObject_same. }
  revert Hfresh.
  change (runsOf (updateTrainWithDelta t delta preferredRunId))
    with (mergeRuns (runsOf t) (normalizedRun t delta)).
  unfold sanitizeKeepsObject, updateTrainWithDelta. cbv zeta.
  fold (runsOf t). fold (normalizedRun t delta).
  set (nd := normalizedRun t delta).
  set (merged := mergeRuns (runsOf t) nd).
  set (desired := desiredRunIdOf preferredRunId t nd).
  cbn [TrainWithRoute.liveRuns TrainWithRoute.withLiveState
       TrainWithRoute.selectedRunId TrainWithRoute.route
       TrainWithRoute.upcomingStop TrainWithRoute.previousStop
       TrainWithRoute.IsLive].
  intros Hfresh.
  rewrite (filter_all (fun run => isRunFresh run now) merged Hfresh).
  pose proof (mergeRuns_nonempty (runsOf t) nd) as Hne. fold merged in Hne.
  pose proof (selectRun_again desired merged nd Hne) as Hagain.
  destruct merged as [|first others] eqn:Hmerged; [now destruct Hne|].
  cbn [length Nat.eqb].
  unfold selectRun at 1 in Hagain.
  change (hasId (LiveTrainDelta.id (selectRun desired (first :: others) nd)))
    with (fun run =>
            strOptEq (Some (LiveTrainDelta.id run))
                     (Some (LiveTrainDelta.id
                              (selectRun desired (first :: others) nd))))
    in Hagain.
  rewrite Hagain.
  unfold computeStopsForRun. cbn [fst snd].
  rewrite !routeStop_findStop, !sameStop_refl, Nat.eqb_refl.
  cbn [strOptEq]. now rewrite String.eqb_refl.
Qed.

Lemma sweep_keeps_fresh_merge_witness :
  sanitizeKeepsObject
    (updateTrainWithDelta Samples.karachiExpress Samples.freshRun None)
    Samples.clock = true
  /\ sanitizeTrainLiveState
       (updateTrainWithDelta Samples.karachiExpress Samples.freshRun None)
       Samples.clock
     = updateTrainWithDelta Samples.karachiExpress Samples.freshRun None.
Proof.
  apply sweep_keeps_fresh_merge.
  intros run [<-|[]]. vm_compute. reflexivity.
Defined.

(** ** The store: one batch step *)



(** X18. A delta that is not attributed (nothing usable cached, resolver
    without answer or answering zero) goes to the unresolved pool under its
    id, replacing what was there, and touches neither the trains nor the
    cache nor the pins. *)
Theorem unattributed_goes_to_pool (numberToString : JS.num -> string)
    (resolve : list TrainWithRoute.t -> LiveTrainDelta.t -> option Z)
    (st : StoreSlice) (delta : LiveTrainDelta.t) :
  truthyId (targetTrainIdOf numberToString resolve (recordDelta st delta) delta)
  = false ->
  let st' := processDelta numberToString resolve st delta in
  unresolvedDeltas st' !! LiveTrainDelta.id delta = Some delta
  /\ (forall other, other <> LiveTrainDelta.id delta ->
        unresolvedDeltas st' !! other = unresolvedDeltas st !! other)
  /\ trains st' = trains st
  /\ trainKeyToId st' = trainKeyToId st
  /\ selectedRunIds st' = selectedRunIds st.
Proof.
  intros Hnone. cbv zeta.
  assert (processDelta numberToString resolve st delta
          = markUnresolved (recordDelta st delta) delta) as ->.
  { unfold processDelta, truthyId in *.
    destruct (targetTrainIdOf _ _ _ _) as [target|]; [|reflexivity].
    apply negb_false_iff in Hnone. now rewrite Hnone. }
  unfold markUnresolved, recordDelta. cbn. repeat split.
  - apply lookup_insert_eq.
  - intros other Hne. now apply lookup_insert_ne.
Qed.

Lemma unattributed_goes_to_pool_witness :
  let delta :=
    Samples.probe "x" "y" (JS.ofZ Samples.clock) None None None in
  let st' :=
    processDelta Samples.printNumber findMatchingTrainId Samples.warmStore
                 delta in
  unresolvedDeltas st' !! LiveTrainDelta.id delta = Some delta
  /\ (forall other, other <> LiveTrainDelta.id delta ->
        unresolvedDeltas st' !! other
        = unresolvedDeltas Samples.warmStore !! other)
  /\ trains st' = trains Samples.warmStore
  /\ trainKeyToId st' = trainKeyToId Samples.warmStore
  /\ selectedRunIds st' = selectedRunIds Samples.warmStore.
Proof.
  cbv zeta.
  apply (unattributed_goes_to_pool Samples.printNumber findMatchingTrainId
           Samples.warmStore
           (Samples.probe "x" "y" (JS.ofZ Samples.clock) None None None)).
  vm_compute. reflexivity.
Defined.

Lemma updateTrainWithDelta_schedule (t : TrainWithRoute.t)
    (delta : LiveTrainDelta.t) (preferred : option string) :
  TrainWithRoute.TrainId (updateTrainWithDelta t delta preferred)
  = TrainWithRoute.TrainId t
  /\ TrainWithRoute.TrainNumber (updateTrainWithDelta t delta preferred)
     = TrainWithRoute.TrainNumber t
  /\ TrainWithRoute.route (updateTrainWithDelta t delta preferred)
     = TrainWithRoute.route t.
Proof. repeat split. Qed.

Lemma processDelta_schedule (numberToString : JS.num -> string)
    (resolve : list TrainWithRoute.t -> LiveTrainDelta.t -> option Z)
    (st : StoreSlice) (delta : LiveTrainDelta.t) :
  List.map (fun t => (TrainWithRoute.TrainId t, TrainWithRoute.TrainNumber t,
                      TrainWithRoute.route t))
           (trains (processDelta numberToString resolve st delta))
  = List.map (fun t => (TrainWithRoute.TrainId t, TrainWithRoute.TrainNumber t,
                        TrainWithRoute.route t))
             (trains st).
Proof.
  unfold processDelta.
  destruct (targetTrainIdOf _ _ _ _) as [target|]; [|reflexivity].
  destruct (target =? 0)%Z; [reflexivity|].
  unfold attribute. cbn [trains recordDelta].
  rewrite map_map. apply map_ext. intros t.
  now destruct (hasTrainId target t).
Qed.

Lemma processDeltasWith_schedule (numberToString : JS.num -> string)
    (resolve : list TrainWithRoute.t -> LiveTrainDelta.t -> option Z)
    (st : StoreSlice) (deltas : list LiveTrainDelta.t) :
  List.map (fun t => (TrainWithRoute.TrainId t, TrainWithRoute.TrainNumber t,
                      TrainWithRoute.route t))
           (trains (processDeltasWith numberToString resolve st deltas))
  = List.map (fun t => (TrainWithRoute.TrainId t, TrainWithRoute.TrainNumber t,
                        TrainWithRoute.route t))
             (trains st).
Proof.
  unfold processDeltasWith. revert st.
  induction deltas as [|delta deltas IH]; intros st; [reflexivity|].
  cbn [fold_left]. rewrite IH. apply processDelta_schedule.
Qed.

(** X19. A batch never adds, removes or reorders trains and never touches
    the schedule: after [processDeltas] the collection has, position by
    position, the same TrainId, TrainNumber and route as before, whatever
    the deltas and whatever the resolver answers. *)
Theorem batch_keeps_schedule (numberToString : JS.num -> string)
    (resolve : list TrainWithRoute.t -> LiveTrainDelta.t -> option Z)
    (st : StoreSlice) (deltas : list LiveTrainDelta.t) :
  List.map (fun t => (TrainWithRoute.TrainId t, TrainWithRoute.TrainNumber t,
                      TrainWithRoute.route t))
           (trains (processDeltasWith numberToString resolve st deltas))
  = List.map (fun t => (TrainWithRoute.TrainId t, TrainWithRoute.TrainNumber t,
                        TrainWithRoute.route t))
             (trains st).
Proof. apply processDeltasWith_schedule. Qed.

Lemma processDelta_liveDeltas (numberToString : JS.num -> string)
    (resolve : list TrainWithRoute.t -> LiveTrainDelta.t -> option Z)
    (st : StoreSlice) (delta : LiveTrainDelta.t) :
  liveDeltas (processDelta numberToString resolve st delta)
  = <[LiveTrainDelta.trainKey delta := delta]> (liveDeltas st).
Proof.
  unfold processDelta.
  destruct (targetTrainIdOf _ _ _ _) as [target|]; [|reflexivity].
  now destruct (target =? 0)%Z.
Qed.

Lemma find_app_first {A : Type} (f : A -> bool) (l1 l2 : list A) :
  List.find f (l1 ++ l2)
  = match List.find f l1 with
    | Some x => Some x
    | None => List.find f l2
    end.
Proof.
  induction l1 as [|x l1 IH]; [reflexivity|].
  cbn [app List.find]. now destruct (f x).
Qed.

Lemma recordAll_lookup (deltas : list LiveTrainDelta.t)
    (known : gmap string LiveTrainDelta.t) (key : string) :
  recordAll deltas known !! key
  = match lastWithTrainKey key deltas with
    | Some delta => Some delta
    | None => known !! key
    end.
Proof.
  unfold recordAll, lastWithTrainKey.
  revert known. induction deltas as [|delta deltas IH]; intros known;
    [reflexivity|].
  cbn [fold_left List.rev]. rewrite IH.
  rewrite find_app_first.
  destruct (List.find _ (List.rev deltas)); [reflexivity|].
  cbn [List.find].
  destruct (String.eqb_spec (LiveTrainDelta.trainKey delta) key) as [<-|Hne].
  - apply lookup_insert_eq.
  - now apply lookup_insert_ne.
Qed.

(** X20. The live-delta register is keyed by train key alone and does not
    depend on resolution: after a batch it holds, under each train key, the
    last delta of the batch that arrived under that key (resolved or not,
    whatever its variant key), and what it held before under the other
    keys. *)
Theorem register_holds_last_delta_per_train_key
    (numberToString : JS.num -> string)
    (resolve : list TrainWithRoute.t -> LiveTrainDelta.t -> option Z)
    (st : StoreSlice) (deltas : list LiveTrainDelta.t) (key : string) :
  liveDeltas (processDeltasWith numberToString resolve st deltas) !! key
  = match lastWithTrainKey key deltas with
    | Some delta => Some delta
    | None => liveDeltas st !! key
    end.
Proof.
  rewrite <- recordAll_lookup. f_equal.
  unfold processDeltasWith, recordAll. revert st.
  induction deltas as [|delta deltas IH]; intros st; [reflexivity|].
  cbn [fold_left]. rewrite IH. now rewrite processDelta_liveDeltas.
Qed.

(** ** The store: the sweep after a batch *)

Lemma numGt_le (x : JS.num) (c : Q) :
  x <> JS.NaN -> numGt x (JS.Fin c) = negb (JS.le x (JS.Fin c)).
Proof. destruct x; intros Hx; try reflexivity. contradiction. Qed.

Lemma sub_defined (now : Z) (stamp : JS.num) :
  stamp <> JS.NaN -> JS.sub (JS.ofZ now) stamp <> JS.NaN.
Proof.
  destruct stamp as [| | |q]; intros Hstamp; try discriminate;
    [contradiction|].
  unfold JS.ofZ, JS.sub, JS.round.
  destruct (Qle_bool _ _); [destruct (Qle_bool _ _)|]; discriminate.
Qed.

Lemma isDeltaStale_not_fresh (delta : LiveTrainDelta.t) (now : Z) :
  hasTimestamp delta -> isDeltaStale delta now = negb (isRunFresh delta now).
Proof.
  intros Hstamp. unfold isDeltaStale, isRunFresh.
  apply numGt_le. now apply sub_defined.
Qed.

Lemma isDeltaStale_unstamped (delta : LiveTrainDelta.t) (now : Z) :
  LiveTrainDelta.lastUpdated delta = JS.NaN ->
  isDeltaStale delta now = false /\ isRunFresh delta now = false.
Proof.
  intros Hnan. unfold isDeltaStale, isRunFresh. now rewrite Hnan.
Qed.

Lemma isDeltaStale_olderThanTTL (delta : LiveTrainDelta.t) (now : Z) :
  isDeltaStale delta now = true <-> olderThanTTL delta now.
Proof.
  destruct (LiveTrainDelta.lastUpdated delta) as [| | |q] eqn:Hq.
  - destruct (isDeltaStale_unstamped delta now Hq) as [-> _].
    unfold olderThanTTL. rewrite Hq. split; [discriminate|contradiction].
  - unfold isDeltaStale, olderThanTTL. rewrite Hq.
    split; [discriminate|contradiction].
  - unfold isDeltaStale, olderThanTTL. rewrite Hq. now split.
  - rewrite isDeltaStale_not_fresh
      by (unfold hasTimestamp; rewrite Hq; discriminate).
    rewrite (isRunFresh_finite delta now q Hq).
    unfold olderThanTTL. rewrite Hq. split.
    + intros Hstale. apply negb_true_iff in Hstale.
      apply Qnot_le_lt. intros Hle. apply Qle_bool_iff in Hle. congruence.
    + intros Hold. apply negb_true_iff.
      destruct (Qle_bool _ _) eqn:E; [|reflexivity].
      apply Qle_bool_iff in E. lra.
Qed.

(** X21. The sweep of the live-delta register keeps an entry exactly when
    its delta is not more than the TTL older than [now]; it adds nothing
    and changes no entry.  For a delta with a timestamp the register and
    the run sweep agree (dropped from the register exactly when not a
    fresh run); a delta whose timestamp is NaN is never dropped from the
    register although it never counts as a fresh run. *)
Theorem register_sweep_by_ttl (st : StoreSlice) (now : Z) :
  (forall key delta,
     liveDeltas (pruneStaleData st now) !! key = Some delta <->
     liveDeltas st !! key = Some delta /\ ~ olderThanTTL delta now)
  /\ (forall delta, hasTimestamp delta ->
        isDeltaStale delta now = negb (isRunFresh delta now))
  /\ (forall key delta,
        liveDeltas st !! key = Some delta ->
        LiveTrainDelta.lastUpdated delta = JS.NaN ->
        liveDeltas (pruneStaleData st now) !! key = Some delta
        /\ isRunFresh delta now = false).
Proof.
  assert (forall key delta,
            liveDeltas (pruneStaleData st now) !! key = Some delta <->
            liveDeltas st !! key = Some delta
            /\ isDeltaStale delta now = false) as Hkept.
  { intros key delta. unfold pruneStaleData. cbn [liveDeltas].
    now rewrite map_lookup_filter_Some. }
  split; [|split].
  - intros key delta. rewrite Hkept. split.
    + intros [Hkey Hstale]. split; [assumption|]. intros Hold.
      apply isDeltaStale_olderThanTTL in Hold. congruence.
    + intros [Hkey Hyoung]. split; [assumption|].
      destruct (isDeltaStale delta now) eqn:E; [|reflexivity].
      apply isDeltaStale_olderThanTTL in E. contradiction.
  - intros delta. apply isDeltaStale_not_fresh.
  - intros key delta Hkey Hnan. split.
    + apply Hkept. split; [assumption|]. now apply isDeltaStale_unstamped.
    + now apply isDeltaStale_unstamped.
Qed.

Lemma dropUnselected_lookup (sanitizedTrains : list TrainWithRoute.t)
    (pins : gmap Z string) (trainId : Z) :
  dropUnselected sanitizedTrains pins !! trainId
  = if List.existsb
         (fun t => hasTrainId trainId t
                   && negb (truthyStr (TrainWithRoute.selectedRunId t)))
         sanitizedTrains
    then None
    else pins !! trainId.
Proof.
  unfold dropUnselected. revert pins.
  induction sanitizedTrains as [|t rest IH]; intros pins; [reflexivity|].
  cbn [fold_left List.existsb]. rewrite IH.
  destruct (List.existsb _ rest); [now rewrite orb_true_r|].
  rewrite orb_false_r. unfold hasTrainId.
  destruct (truthyStr (TrainWithRoute.selectedRunId t));
    [now rewrite andb_false_r|].
  rewrite andb_true_r.
  destruct (Z.eqb_spec (TrainWithRoute.TrainId t) trainId) as [->|Hne].
  - apply lookup_delete_eq.
  - now apply lookup_delete_ne.
Qed.

Lemma pruneStaleData_pin (st : StoreSlice) (now : Z) (trainId : Z) :
  selectedRunIds (pruneStaleData st now) !! trainId
  = if sweepMutates (trains st) now
       && List.existsb
            (fun t => hasTrainId trainId t
                      && negb (truthyStr (TrainWithRoute.selectedRunId t)))
            (stripStaleLiveData (trains st) now)
    then None
    else selectedRunIds st !! trainId.
Proof.
  unfold pruneStaleData. cbn [selectedRunIds].
  destruct (sweepMutates (trains st) now); [|reflexivity].
  cbn [andb]. apply dropUnselected_lookup.
Qed.

Lemma stale_runs_force_reset (t : TrainWithRoute.t) (now : Z) :
  runsOf t <> [] ->
  (forall run, In run (runsOf t) -> isRunFresh run now = false) ->
  sanitizeKeepsObject t now = false
  /\ truthyStr (TrainWithRoute.selectedRunId (sanitizeTrainLiveState t now))
     = false.
Proof.
  intros Hruns Hstale.
  assert (List.filter (fun run => isRunFresh run now) (runsOf t) = [])
    as Hnone by now apply filter_none.
  split.
  - unfold sanitizeKeepsObject, runsOf in *.
    destruct (TrainWithRoute.liveRuns t) as [runs|] eqn:Hlive;
      [|now contradiction Hruns].
    change (default [] (Some runs)) with runs in *.
    assert (hasNoLiveState t = false) as Hstate.
    { unfold hasNoLiveState. rewrite Hlive.
      change (default [] (Some runs)) with runs.
      destruct runs; [contradiction|]. cbn [length Nat.eqb].
      now rewrite andb_false_r. }
    destruct runs as [|run runs]; [contradiction|].
    cbn [length Nat.eqb]. rewrite Hnone. exact Hstate.
  - apply sanitize_empty_nothing_live.
    now rewrite sanitizeTrainLiveState_runs.
Qed.

(** X22. The sweep of the store never sets or changes a pin: whatever
    the store holds, a pin found after the sweep was there before, for the
    same train and with the same run.  And once the last runs of a train
    have gone stale the sweep forgets the train's pinned run: the pin is
    deleted from selectedRunIds. *)
Theorem stale_train_loses_pin (st : StoreSlice) (now : Z) :
  (forall trainId runId,
     selectedRunIds (pruneStaleData st now) !! trainId = Some runId ->
     selectedRunIds st !! trainId = Some runId)
  /\ (forall t,
        In t (trains st) ->
        runsOf t <> [] ->
        (forall run, In run (runsOf t) -> isRunFresh run now = false) ->
        selectedRunIds (pruneStaleData st now) !! TrainWithRoute.TrainId t
        = None).
Proof.
  split.
  - intros trainId runId. rewrite pruneStaleData_pin.
    now destruct (_ && _).
  - intros t Hin Hruns Hstale.
    destruct (stale_runs_force_reset t now Hruns Hstale) as [Hnew Hunselected].
    rewrite pruneStaleData_pin.
    assert (sweepMutates (trains st) now = true) as ->.
    { unfold sweepMutates. apply existsb_exists. exists t.
      split; [assumption|]. now rewrite Hnew. }
    assert (List.existsb
              (fun t0 => hasTrainId (TrainWithRoute.TrainId t) t0
                         && negb (truthyStr (TrainWithRoute.selectedRunId t0)))
              (stripStaleLiveData (trains st) now) = true) as ->;
      [|reflexivity].
    apply existsb_exists. exists (sanitizeTrainLiveState t now). split.
    + exact (in_map (fun t0 => sanitizeTrainLiveState t0 now) _ _ Hin).
    + rewrite Hunselected. unfold hasTrainId.
      rewrite sanitizeTrainLiveState_TrainId. now rewrite Z.eqb_refl.
Qed.

Lemma stale_train_loses_pin_witness :
  selectedRunIds Samples.pinnedStore !! 5%Z = Some "123:9900"
  /\ selectedRunIds (pruneStaleData Samples.pinnedStore Samples.clock)
       !! TrainWithRoute.TrainId Samples.trackedOnce = None
  /\ (forall trainId runId,
        selectedRunIds (pruneStaleData Samples.pinnedStore Samples.clock)
          !! trainId = Some runId ->
        selectedRunIds Samples.pinnedStore !! trainId = Some runId).
Proof.
  split; [reflexivity|].
  destruct (stale_train_loses_pin Samples.pinnedStore Samples.clock)
    as [Hkept Hlost].
  split; [|exact Hkept].
  apply (Hlost Samples.trackedOnce).
  - left. reflexivity.
  - discriminate.
  - intros run [<-|[]]. vm_compute. reflexivity.
Defined.

(** X23. After the state update of the applyDeltas action for a non-empty
    batch read at [now], no train carries a run that is not fresh at
    [now], no entry of the live-delta register is older than the TTL, and
    the collection has the same trains with the same schedule as before;
    an empty batch leaves the state as it is, unswept. *)
Theorem applied_batch_leaves_only_fresh_data
    (numberToString : JS.num -> string) (state : StoreSlice)
    (deltas : list LiveTrainDelta.t) (now : Z) :
  (deltas <> [] ->
     (forall t run,
        In t (trains (applyDeltas numberToString state deltas now)) ->
        In run (runsOf t) -> isRunFresh run now = true)
     /\ (forall key delta,
           liveDeltas (applyDeltas numberToString state deltas now) !! key
           = Some delta -> ~ olderThanTTL delta now))
  /\ List.map (fun t => (TrainWithRoute.TrainId t, TrainWithRoute.TrainNumber t,
                         TrainWithRoute.route t))
              (trains (applyDeltas numberToString state deltas now))
     = List.map (fun t => (TrainWithRoute.TrainId t,
                           TrainWithRoute.TrainNumber t,
                           TrainWithRoute.route t))
                (trains state)
  /\ applyDeltas numberToString state [] now = state.
Proof.
  split; [|split].
  - intros Hbatch. destruct deltas as [|delta deltas]; [contradiction|].
    unfold applyDeltas, pruneStaleData. cbn [length Nat.eqb trains liveDeltas].
    split.
    + intros t run Ht Hrun.
      exact (sweep_leaves_fresh_runs _ now t run Ht Hrun).
    + intros key entry Hkey.
      apply map_lookup_filter_Some in Hkey as [_ Hyoung]. cbn [snd] in Hyoung.
      intros Hold. apply isDeltaStale_olderThanTTL in Hold. congruence.
  - unfold applyDeltas. destruct (length deltas =? 0)%nat; [reflexivity|].
    unfold pruneStaleData. cbn [trains]. unfold stripStaleLiveData.
    rewrite map_map.
    erewrite map_ext.
    + unfold processDeltas.
      rewrite <- (processDeltasWith_schedule numberToString findMatchingTrainId
                    state deltas).
      reflexivity.
    + intros t. cbv beta.
      destruct (sanitizeTrainLiveState_schedule t now) as [-> ->].
      now rewrite sanitizeTrainLiveState_TrainId.
  - reflexivity.
Qed.

(** ** The store: the user's choice of run *)

Lemma find_map_hasTrainId (f : TrainWithRoute.t -> TrainWithRoute.t)
    (trainId : Z) (trains : list TrainWithRoute.t) :
  (forall t, TrainWithRoute.TrainId (f t) = TrainWithRoute.TrainId t) ->
  List.find (hasTrainId trainId) (List.map f trains)
  = option_map f (List.find (hasTrainId trainId) trains).
Proof.
  intros Hid. induction trains as [|t rest IH]; [reflexivity|].
  cbn [List.map List.find]. unfold hasTrainId at 1 3. rewrite Hid.
  now destruct (TrainWithRoute.TrainId t =? trainId)%Z.
Qed.

Lemma applyRunSelectionToTrain_TrainId (t : TrainWithRoute.t)
    (runId : string) :
  TrainWithRoute.TrainId (applyRunSelectionToTrain t runId)
  = TrainWithRoute.TrainId t.
Proof.
  unfold applyRunSelectionToTrain.
  destruct (List.find _ _) as [run|]; [|reflexivity].
  now destruct (computeStopsForRun t (Some run)).
Qed.

Lemma applyRunSelectionToTrain_selected (t : TrainWithRoute.t)
    (runId : string) :
  (exists run, In run (runsOf t) /\ LiveTrainDelta.id run = runId) ->
  TrainWithRoute.selectedRunId (applyRunSelectionToTrain t runId) = Some runId
  /\ runsOf (applyRunSelectionToTrain t runId) = runsOf t.
Proof.
  intros Hrun. apply find_hasId_present in Hrun as (run & Hfind & Hid).
  unfold applyRunSelectionToTrain. fold (runsOf t). rewrite Hfind.
  destruct (computeStopsForRun t (Some run)). cbn. now rewrite Hid.
Qed.

Lemma pinned_merge_selected (t : TrainWithRoute.t)
    (delta : LiveTrainDelta.t) (runId : string) :
  (exists run, In run (runsOf t) /\ LiveTrainDelta.id run = runId) ->
  TrainWithRoute.selectedRunId (updateTrainWithDelta t delta (Some runId))
  = Some runId
  /\ exists selected,
       TrainWithRoute.livePosition (updateTrainWithDelta t delta (Some runId))
       = Some selected
       /\ LiveTrainDelta.id selected = runId.
Proof.
  intros (run & Hin & Hid).
  set (nd := normalizedRun t delta).
  assert (LiveTrainDelta.id (selectRun runId (mergeRuns (runsOf t) nd) nd)
          = runId) as Hselected.
  { assert (exists x, In x (mergeRuns (runsOf t) nd)
                      /\ LiveTrainDelta.id x = runId) as Hmerged.
    { destruct (String.eqb_spec (LiveTrainDelta.id delta) runId) as [Heq|Hne].
      - exists nd. split; [|exact Heq]. apply mergeRuns_In_iff. now left.
      - exists run. split; [|exact Hid].
        apply mergeRuns_In_iff. right. split; [exact Hin|].
        change (LiveTrainDelta.id nd) with (LiveTrainDelta.id delta).
        congruence. }
    apply find_hasId_present in Hmerged as (x & Hfind & Hx).
    unfold selectRun. now rewrite Hfind. }
  split.
  - change (TrainWithRoute.selectedRunId
              (updateTrainWithDelta t delta (Some runId)))
      with (Some (LiveTrainDelta.id
                    (selectRun runId (mergeRuns (runsOf t) nd) nd))).
    now rewrite Hselected.
  - exists (selectRun runId (mergeRuns (runsOf t) nd) nd).
    split; [reflexivity|exact Hselected].
Qed.

(** X24. The user's choice of run sticks.  Choosing a run that the train
    has makes it the train's selection and records it as the train's pin;
    a delta attributed to that train afterwards, whatever its own id and
    however recent, leaves the chosen run selected as the live position,
    and the pin in place. *)
Theorem chosen_run_survives_next_delta (numberToString : JS.num -> string)
    (resolve : list TrainWithRoute.t -> LiveTrainDelta.t -> option Z)
    (st : StoreSlice) (trainId : Z) (runId : string)
    (t : TrainWithRoute.t) (delta : LiveTrainDelta.t) :
  List.find (hasTrainId trainId) (trains st) = Some t ->
  (exists run, In run (runsOf t) /\ LiveTrainDelta.id run = runId) ->
  JS.nonEmpty runId = true ->
  targetTrainIdOf numberToString resolve
    (recordDelta (selectTrainRun st trainId runId) delta) delta
  = Some trainId ->
  trainId <> 0%Z ->
  let chosen := selectTrainRun st trainId runId in
  let merged := processDelta numberToString resolve chosen delta in
  selectedRunIds chosen !! trainId = Some runId
  /\ (exists t',
        List.find (hasTrainId trainId) (trains chosen) = Some t'
        /\ TrainWithRoute.selectedRunId t' = Some runId)
  /\ selectedRunIds merged !! trainId = Some runId
  /\ (exists t'' selected,
        List.find (hasTrainId trainId) (trains merged) = Some t''
        /\ TrainWithRoute.selectedRunId t'' = Some runId
        /\ TrainWithRoute.livePosition t'' = Some selected
        /\ LiveTrainDelta.id selected = runId).
Proof.
  intros Hfind Hrun Hname Htarget Hnz. cbv zeta.
  pose proof (find_some _ _ Hfind) as [_ Hid].
  destruct (applyRunSelectionToTrain_selected t runId Hrun) as [Hsel Hruns].
  set (choose := fun t0 : TrainWithRoute.t =>
                   if hasTrainId trainId t0
                   then applyRunSelectionToTrain t0 runId else t0).
  assert (forall t0, TrainWithRoute.TrainId (choose t0)
                     = TrainWithRoute.TrainId t0) as Hchoose.
  { intros t0. unfold choose. destruct (hasTrainId trainId t0);
      [apply applyRunSelectionToTrain_TrainId|reflexivity]. }
  assert (List.find (hasTrainId trainId) (List.map choose (trains st))
          = Some (applyRunSelectionToTrain t runId)) as Hchosen.
  { rewrite (find_map_hasTrainId choose trainId (trains st) Hchoose), Hfind.
    cbn [option_map]. unfold choose. now rewrite Hid. }
  assert (selectedRunIds (selectTrainRun st trainId runId) !! trainId
          = Some runId) as Hpin.
  { unfold selectTrainRun. cbn [selectedRunIds]. fold choose.
    unfold selectedRunOf. rewrite Hchosen, Hsel. cbn [truthyStr].
    rewrite Hname. apply lookup_insert_eq. }
  assert (trains (selectTrainRun st trainId runId)
          = List.map choose (trains st)) as Htrains by reflexivity.
  split; [exact Hpin|]. split.
  { exists (applyRunSelectionToTrain t runId). rewrite Htrains. now split. }
  assert (processDelta numberToString resolve
            (selectTrainRun st trainId runId) delta
          = attribute numberToString
              (recordDelta (selectTrainRun st trainId runId) delta)
              delta trainId) as ->.
  { unfold processDelta. rewrite Htarget.
    destruct (Z.eqb_spec trainId 0); [contradiction|reflexivity]. }
  set (chosen := selectTrainRun st trainId runId) in *.
  set (merge := fun t0 : TrainWithRoute.t =>
                  if hasTrainId trainId t0
                  then updateTrainWithDelta t0 delta
                         (selectedRunIds chosen !! TrainWithRoute.TrainId t0)
                  else t0).
  assert (forall t0, TrainWithRoute.TrainId (merge t0)
                     = TrainWithRoute.TrainId t0) as Hmerge.
  { intros t0. unfold merge. now destruct (hasTrainId trainId t0). }
  assert (List.find (hasTrainId trainId) (List.map merge (trains chosen))
          = Some (updateTrainWithDelta (applyRunSelectionToTrain t runId)
                    delta (Some runId))) as Hmerged.
  { rewrite (find_map_hasTrainId merge trainId (trains chosen) Hmerge).
    rewrite Htrains, Hchosen. cbn [option_map]. unfold merge.
    assert (hasTrainId trainId (applyRunSelectionToTrain t runId) = true)
      as Hkept.
    { unfold hasTrainId in *. now rewrite applyRunSelectionToTrain_TrainId. }
    rewrite Hkept. unfold hasTrainId in Hkept. apply Z.eqb_eq in Hkept.
    now rewrite Hkept, Hpin. }
  assert (exists run, In run (runsOf (applyRunSelectionToTrain t runId))
                      /\ LiveTrainDelta.id run = runId) as Hrun'
    by now rewrite Hruns.
  destruct (pinned_merge_selected (applyRunSelectionToTrain t runId)
              delta runId Hrun') as (Hsel' & selected & Hposition & Hselected).
  split.
  - unfold attribute. cbn [selectedRunIds trains recordDelta]. fold merge.
    unfold selectedRunOf. rewrite Hmerged, Hsel'. cbn [truthyStr].
    rewrite Hname. apply lookup_insert_eq.
  - exists (updateTrainWithDelta (applyRunSelectionToTrain t runId)
              delta (Some runId)), selected.
    unfold attribute. cbn [trains recordDelta]. fold merge.
    repeat split; assumption.
Qed.

Lemma chosen_run_survives_next_delta_witness :
  let delta :=
    Samples.probe "123" "7" (JS.ofZ Samples.clock) None None None in
  let chosen := selectTrainRun Samples.busyStore 5 "123:0" in
  let merged :=
    processDelta Samples.printNumber findMatchingTrainId chosen delta in
  selectedRunIds chosen !! 5%Z = Some "123:0"
  /\ (exists t',
        List.find (hasTrainId 5) (trains chosen) = Some t'
        /\ TrainWithRoute.selectedRunId t' = Some "123:0")
  /\ selectedRunIds merged !! 5%Z = Some "123:0"
  /\ (exists t'' selected,
        List.find (hasTrainId 5) (trains merged) = Some t''
        /\ TrainWithRoute.selectedRunId t'' = Some "123:0"
        /\ TrainWithRoute.livePosition t'' = Some selected
        /\ LiveTrainDelta.id selected = "123:0").
Proof.
  cbv zeta.
  apply (chosen_run_survives_next_delta Samples.printNumber
           findMatchingTrainId Samples.busyStore 5 "123:0"
           Samples.trackedTwice
           (Samples.probe "123" "7" (JS.ofZ Samples.clock) None None None)).
  - reflexivity.
  - exists Samples.freshRun. split; [left; reflexivity|reflexivity].
  - reflexivity.
  - vm_compute. reflexivity.
  - lia.
Defined.

(** ** The static dataset *)

Lemma difference_sign (a b : Z) :
  Qle_bool (inject_Z a - inject_Z b) 0 = (a <=? b)%Z.
Proof.
  destruct (Z.leb_spec a b) as [Hle|Hgt].
  - apply Qle_bool_iff. rewrite Zle_Qle in Hle. lra.
  - destruct (Qle_bool _ _) eqn:E; [|reflexivity].
    apply Qle_bool_iff in E.
    assert (inject_Z a <= inject_Z b)%Q as Hle by lra.
    rewrite <- Zle_Qle in Hle. lia.
Qed.

Lemma byOrderNumber_gt0 (y x : TrainStop.t) :
  JS.gt0 (byOrderNumber y x)
  = (TrainStop.OrderNumber x <? TrainStop.OrderNumber y)%Z.
Proof.
  unfold byOrderNumber, JS.ofZ, JS.sub.
  rewrite round_positive, difference_sign. apply eq_sym, Z.ltb_antisym.
Qed.

Lemma insertSorted_byOrderNumber (x : TrainStop.t) (acc : list TrainStop.t) :
  StronglySorted
    (fun a b => (TrainStop.OrderNumber b <= TrainStop.OrderNumber a)%Z) acc ->
  StronglySorted
    (fun a b => (TrainStop.OrderNumber b <= TrainStop.OrderNumber a)%Z)
    (JS.insertSorted byOrderNumber x acc).
Proof.
  induction acc as [|y acc IH]; intros Hs; cbn [JS.insertSorted].
  - repeat constructor.
  - inversion Hs as [|? ? Hrest Hall]; subst.
    rewrite byOrderNumber_gt0.
    destruct (Z.ltb_spec (TrainStop.OrderNumber x) (TrainStop.OrderNumber y))
      as [Hlt|Hge].
    + constructor; [now apply IH|].
      apply List.Forall_forall. intros z Hz.
      apply (Permutation_in _ (insertSorted_Permutation byOrderNumber x acc))
        in Hz.
      destruct Hz as [<-|Hz]; [lia|].
      rewrite List.Forall_forall in Hall. now apply Hall.
    + constructor; [exact Hs|].
      constructor; [exact Hge|].
      apply List.Forall_forall. intros z Hz.
      rewrite List.Forall_forall in Hall. specialize (Hall z Hz).
      cbv beta in Hall. lia.
Qed.

Lemma sort_byOrderNumber (stops : list TrainStop.t) :
  inRouteOrder (JS.sort byOrderNumber stops).
Proof.
  unfold inRouteOrder, JS.sort.
  apply (StronglySorted_rev
           (fun a b => (TrainStop.OrderNumber b <= TrainStop.OrderNumber a)%Z)).
  unfold JS.sortedPrefix.
  assert (forall acc,
    StronglySorted
      (fun a b => (TrainStop.OrderNumber b <= TrainStop.OrderNumber a)%Z) acc ->
    StronglySorted
      (fun a b => (TrainStop.OrderNumber b <= TrainStop.OrderNumber a)%Z)
      (fold_left (fun acc x => JS.insertSorted byOrderNumber x acc) stops acc))
    as Hgen.
  { induction stops as [|x stops IH]; intros acc Hs; cbn [fold_left].
    - exact Hs.
    - apply IH. now apply insertSorted_byOrderNumber. }
  apply Hgen. constructor.
Qed.

Lemma buildRouteMap_lookup (entries : list TrainStationsMapEntry.t)
    (trainId : Z) :
  buildRouteMap entries !! trainId
  = option_map
      (fun entry =>
         JS.sort byOrderNumber (TrainStationsMapEntry.stations entry))
      (lastEntryFor trainId entries).
Proof.
  unfold buildRouteMap, lastEntryFor.
  assert (forall routes : gmap Z (list TrainStop.t),
    fold_left
      (fun routes entry =>
         <[TrainStationsMapEntry.TrainId entry :=
             JS.sort byOrderNumber (TrainStationsMapEntry.stations entry)]>
           routes)
      entries routes !! trainId
    = match
        List.find
          (fun entry => (TrainStationsMapEntry.TrainId entry =? trainId)%Z)
          (List.rev entries)
      with
      | Some entry =>
          Some (JS.sort byOrderNumber (TrainStationsMapEntry.stations entry))
      | None => routes !! trainId
      end) as Hgen.
  { induction entries as [|entry entries IH]; intros routes; [reflexivity|].
    cbn [fold_left List.rev]. rewrite IH, find_app_first.
    destruct (List.find _ (List.rev entries)); [reflexivity|].
    cbn [List.find].
    destruct (Z.eqb_spec (TrainStationsMapEntry.TrainId entry) trainId)
      as [<-|Hne].
    - apply lookup_insert_eq.
    - now apply lookup_insert_ne. }
  rewrite Hgen. now destruct (List.find _ _).
Qed.

(** X25. The static dataset has one train per fetched summary, in the
    order of the summaries and with the summary's TrainId and TrainNumber;
    each train starts without live position, runs or selection, with no
    previous stop and with the first stop of its route as upcoming stop;
    its route is in ascending OrderNumber and holds exactly the stations
    of the last entry fetched for that TrainId, or is empty when no entry
    names the train. *)
Theorem static_dataset_routes (summaries : list TrainSummary.t)
    (entries : list TrainStationsMapEntry.t) :
  Forall2 (builtFrom entries) summaries (buildStaticTrains summaries entries).
Proof.
  unfold buildStaticTrains.
  induction summaries as [|summary summaries IH]; [constructor|].
  cbn [List.map]. constructor; [|exact IH].
  unfold builtFrom, isStatic. cbn.
  rewrite buildRouteMap_lookup.
  destruct (lastEntryFor (TrainSummary.TrainId summary) entries) as [entry|];
    cbn [option_map default].
  - repeat split.
    + apply sort_byOrderNumber.
    + apply sort_Permutation.
  - repeat split. constructor.
Qed.

(** ** Status of a train *)

Lemma getRunCount_runsOf (t : TrainWithRoute.t) :
  getRunCount t = length (runsOf t).
Proof. unfold getRunCount, runsOf. now destruct (TrainWithRoute.liveRuns t). Qed.

Lemma hasMultipleRuns_runsOf (t : TrainWithRoute.t) :
  hasMultipleRuns t = (1 <? length (runsOf t))%nat.
Proof.
  unfold hasMultipleRuns, runsOf. now destruct (TrainWithRoute.liveRuns t).
Qed.

Lemma mergeRuns_length (runs : list LiveTrainDelta.t) (nd : LiveTrainDelta.t) :
  length (mergeRuns runs nd)
  = S (length (List.filter
                 (fun run => negb (hasId (LiveTrainDelta.id nd) run)) runs)).
Proof.
  unfold mergeRuns.
  rewrite (Permutation_length (sort_Permutation byLastUpdatedDesc _)).
  rewrite length_app. cbn [length]. lia.
Qed.

(** X26. What the status badge shows: a train is live right after any
    merge, with one run for the delta and one for each earlier run of
    another id; a train whose runs have all gone stale is offline after
    the sweep, with no run; and the number of runs after a sweep is the
    number of fresh runs before it. *)
Theorem status_after_merge_and_sweep (t : TrainWithRoute.t)
    (delta : LiveTrainDelta.t) (preferredRunId : option string) (now : Z) :
  getTrainStatus (updateTrainWithDelta t delta preferredRunId) = live
  /\ getRunCount (updateTrainWithDelta t delta preferredRunId)
     = S (length (List.filter
                    (fun run => negb (hasId (LiveTrainDelta.id delta) run))
                    (runsOf t)))
  /\ getRunCount (sanitizeTrainLiveState t now)
     = length (List.filter (fun run => isRunFresh run now) (runsOf t))
  /\ (getRunCount (sanitizeTrainLiveState t now) = 0%nat ->
      getTrainStatus (sanitizeTrainLiveState t now) = offline
      /\ hasMultipleRuns (sanitizeTrainLiveState t now) = false).
Proof.
  split; [reflexivity|]. split.
  { rewrite getRunCount_runsOf.
    change (runsOf (updateTrainWithDelta t delta preferredRunId))
      with (mergeRuns (runsOf t) (normalizedRun t delta)).
    exact (mergeRuns_length (runsOf t) (normalizedRun t delta)). }
  split.
  { now rewrite getRunCount_runsOf, sanitizeTrainLiveState_runs. }
  intros Hcount. rewrite getRunCount_runsOf in Hcount.
  rewrite hasMultipleRuns_runsOf.
  destruct (runsOf (sanitizeTrainLiveState t now)) eqn:Hruns;
    [|discriminate].
  split; [|reflexivity].
  destruct (sanitize_empty_nothing_live t now Hruns) as (Hpos & _ & Hlive).
  unfold getTrainStatus. now rewrite Hpos, Hlive.
Qed.

(** ** Cold start *)

Lemma replayDelta_schedule (isoDate : string -> string) (st : ReplayState)
    (delta : LiveTrainDelta.t) :
  scheduleOf (updatedTrains (replayDelta isoDate st delta))
  = scheduleOf (updatedTrains st).
Proof.
  unfold replayDelta.
  destruct (match replayKeyToId st !! LiveTrainDelta.trainKey delta with
            | Some cached => Some cached
            | None => findMatchingTrainId (updatedTrains st) delta
            end) as [target|]; [|reflexivity].
  destruct (target =? 0)%Z; [reflexivity|].
  cbn [updatedTrains]. unfold scheduleOf.
  rewrite map_map. apply map_ext. intros t.
  now destruct (hasTrainId target t).
Qed.

Lemma stripStaleLiveData_schedule (trains : list TrainWithRoute.t) (now : Z) :
  scheduleOf (stripStaleLiveData trains now) = scheduleOf trains.
Proof.
  unfold scheduleOf, stripStaleLiveData. rewrite map_map.
  apply map_ext. intros t.
  destruct (sanitizeTrainLiveState_schedule t now) as [-> ->].
  now rewrite sanitizeTrainLiveState_TrainId.
Qed.

Lemma replay_schedule (isoDate : string -> string)
    (deltas : list LiveTrainDelta.t) (st : ReplayState) :
  scheduleOf (updatedTrains (fold_left (replayDelta isoDate) deltas st))
  = scheduleOf (updatedTrains st).
Proof.
  revert st. induction deltas as [|delta deltas IH]; intros st;
    [reflexivity|].
  cbn [fold_left]. rewrite IH. apply replayDelta_schedule.
Qed.

(** X27. Cold-start replay neither adds nor removes nor reorders trains and
    leaves every TrainId, TrainNumber and route as stored; when the delta
    store is not empty, every run of every train returned is fresh at the
    time of the final sweep, whatever live state the stored trains carried;
    when the delta store is empty the stored trains come back as they are,
    without a sweep. *)
Theorem replay_keeps_schedule_and_sweeps (isoDate : string -> string)
    (storedTrains : list TrainWithRoute.t) (deltas : list LiveTrainDelta.t)
    (now : Z) :
  scheduleOf (applyStoredLiveDeltas isoDate storedTrains deltas now)
  = scheduleOf storedTrains
  /\ (deltas <> [] ->
      forall t run,
        In t (applyStoredLiveDeltas isoDate storedTrains deltas now) ->
        In run (runsOf t) -> isRunFresh run now = true)
  /\ applyStoredLiveDeltas isoDate storedTrains [] now = storedTrains.
Proof.
  split; [|split].
  - unfold applyStoredLiveDeltas.
    destruct (length deltas =? 0)%nat; [reflexivity|].
    now rewrite stripStaleLiveData_schedule, replay_schedule.
  - intros Hbatch. destruct deltas as [|delta deltas]; [contradiction|].
    intros t run Ht Hrun. unfold applyStoredLiveDeltas in Ht.
    cbn [length Nat.eqb] in Ht.
    exact (sweep_leaves_fresh_runs _ now t run Ht Hrun).
  - reflexivity.
Qed.

(** ** The unresolved pool *)

Lemma processDelta_pool_elsewhere (numberToString : JS.num -> string)
    (resolve : list TrainWithRoute.t -> LiveTrainDelta.t -> option Z)
    (st : StoreSlice) (delta : LiveTrainDelta.t) (key : string) :
  LiveTrainDelta.id delta <> key ->
  unresolvedDeltas (processDelta numberToString resolve st delta) !! key
  = unresolvedDeltas st !! key.
Proof.
  intros Hne. unfold processDelta.
  destruct (targetTrainIdOf _ _ _ _) as [target|];
    [destruct (target =? 0)%Z|].
  - cbn. now apply lookup_insert_ne.
  - unfold attribute. cbn [unresolvedDeltas recordDelta].
    now apply lookup_delete_ne.
  - cbn. now apply lookup_insert_ne.
Qed.

Lemma pruneStaleData_pool (st : StoreSlice) (now : Z) :
  unresolvedDeltas (pruneStaleData st now) = unresolvedDeltas st.
Proof. reflexivity. Qed.

(** X28. The unresolved pool is never swept: a delta waiting in the pool
    is still there, unchanged, after any batch and the sweep that follows
    it, however old the delta is, as long as no delta of the batch carries
    its id. *)
Theorem unresolved_delta_never_expires (numberToString : JS.num -> string)
    (state : StoreSlice) (deltas : list LiveTrainDelta.t) (now : Z)
    (key : string) (waiting : LiveTrainDelta.t) :
  unresolvedDeltas state !! key = Some waiting ->
  Forall (fun delta => LiveTrainDelta.id delta <> key) deltas ->
  unresolvedDeltas (applyDeltas numberToString state deltas now) !! key
  = Some waiting.
Proof.
  intros Hwaiting Hother. unfold applyDeltas.
  destruct (length deltas =? 0)%nat; [exact Hwaiting|].
  rewrite pruneStaleData_pool. unfold processDeltas, processDeltasWith.
  revert state Hwaiting.
  induction Hother as [|delta deltas Hne _ IH]; intros state Hwaiting;
    [exact Hwaiting|].
  cbn [fold_left]. apply IH.
  now rewrite processDelta_pool_elsewhere.
Qed.

Lemma unresolved_delta_never_expires_witness :
  olderThanTTL (Samples.probe "x" "y" (JS.Fin 0) None None None) Samples.clock
  /\ unresolvedDeltas
       (applyDeltas Samples.printNumber Samples.strandedStore
          [Samples.probe "123" "7" (JS.ofZ Samples.clock) None None None]
          Samples.clock)
     !! "x:y"
     = Some (Samples.probe "x" "y" (JS.Fin 0) None None None).
Proof.
  split; [vm_compute; reflexivity|].
  apply (unresolved_delta_never_expires Samples.printNumber
           Samples.strandedStore
           [Samples.probe "123" "7" (JS.ofZ Samples.clock) None None None]
           Samples.clock "x:y"
           (Samples.probe "x" "y" (JS.Fin 0) None None None)).
  - reflexivity.
  - repeat constructor. discriminate.
Defined.

Lemma processDelta_sameButPool (numberToString : JS.num -> string)
    (resolve : list TrainWithRoute.t -> LiveTrainDelta.t -> option Z)
    (a b : StoreSlice) (delta : LiveTrainDelta.t) :
  sameButPool a b ->
  sameButPool (processDelta numberToString resolve a delta)
              (processDelta numberToString resolve b delta).
Proof.
  intros (Htrains & Hlive & Hcache & Hpins).
  unfold processDelta, targetTrainIdOf, recordDelta. cbn [trainKeyToId trains].
  rewrite Htrains, Hcache.
  destruct (if truthyId (mappedTrainId numberToString (trainKeyToId b) delta)
            then mappedTrainId numberToString (trainKeyToId b) delta
            else resolve (trains b) delta) as [target|];
    [destruct (target =? 0)%Z|].
  - unfold sameButPool. cbn. now rewrite ?Htrains, ?Hlive, ?Hcache, ?Hpins.
  - unfold sameButPool, attribute. cbn.
    now rewrite ?Htrains, ?Hlive, ?Hcache, ?Hpins.
  - unfold sameButPool. cbn. now rewrite ?Htrains, ?Hlive, ?Hcache, ?Hpins.
Qed.

(** X29. Unresolved deltas are never tried again: what a batch does to the
    trains, to the live-delta register, to the cache of attributions and
    to the pins does not depend on what the unresolved pool holds. *)
Theorem unresolved_pool_is_never_read (numberToString : JS.num -> string)
    (resolve : list TrainWithRoute.t -> LiveTrainDelta.t -> option Z)
    (st : StoreSlice) (pool : gmap string LiveTrainDelta.t)
    (deltas : list LiveTrainDelta.t) :
  sameButPool
    (processDeltasWith numberToString resolve
       {| trains := trains st;
          liveDeltas := liveDeltas st;
          trainKeyToId := trainKeyToId st;
          selectedRunIds := selectedRunIds st;
          unresolvedDeltas := pool |}
       deltas)
    (processDeltasWith numberToString resolve st deltas).
Proof.
  assert (forall a b, sameButPool a b ->
            sameButPool (processDeltasWith numberToString resolve a deltas)
                        (processDeltasWith numberToString resolve b deltas))
    as Hgen.
  { unfold processDeltasWith.
    induction deltas as [|delta deltas IH]; intros a b Hab; [exact Hab|].
    cbn [fold_left]. apply IH. now apply processDelta_sameButPool. }
  apply Hgen. now repeat split.
Qed.
